(** * Traffic survey analysis: aggregation and hourly grouping

    A shallow embedding of [Traffic_data/template_cw_a_b_c.py] (the metric
    aggregator [analyze_data] and the driver's exception handling) and of
    [Traffic_data/template_cw_d_e.py] (the hourly grouping engine of
    [MultiCSVProcessor]), followed by the properties proved about them.

    Conventions of the embedding:
    - a Python [str] is a [string]; a character is a code point below 256;
    - a Python [int] is a [Z];
    - a CSV row (a [dict] built by [csv.DictReader]) is a [gmap string value]
      whose values are strings or [None] (the reader's [restval]);
    - code that may raise returns a [result]; the first exception met in
      Python's evaluation order is the one returned;
    - a [defaultdict(int)] whose iteration order reaches the output is an
      insertion-ordered association list; the nested [traffic_summary] dict,
      which is only ever looked up by key, is a [gmap]. *)

From Stdlib Require Import ZArith Lia String Ascii List Bool.
From Stdlib Require Floats.SpecFloat.
From stdpp Require Import base option list gmap strings sorting.

Open Scope string_scope.
Open Scope list_scope.
Open Scope Z_scope.

(** ** Python runtime *)

Module Py.

(** Exceptions raised by the modelled code. [InvalidLiteral s] is the
    [ValueError] that [int(s)] raises for the string [s]; [ValueError msg] is
    one raised with an explicit message. The last three are raised by the
    operating system and the readers when a file is opened, read or written:
    [OSError] stands for any [OSError] other than [FileNotFoundError] (such
    as [PermissionError]), [UnicodeDecodeError] is a [ValueError], and
    [CsvError] is [csv.Error]. *)
Inductive exn : Type :=
| KeyError (key : string)
| InvalidLiteral (lit : string)
| ValueError (msg : string)
| TypeError
| AttributeError
| ZeroDivisionError
| OverflowError
| FileNotFoundError (filename : string)
| OSError (msg : string)
| UnicodeDecodeError
| CsvError (msg : string).

Inductive result (A : Type) : Type :=
| Ok (a : A)
| Raise (e : exn).

Arguments Ok {A} a.
Arguments Raise {A} e.

Definition bind {A B : Type} (c : result A) (k : A -> result B) : result B :=
  match c with
  | Ok a => k a
  | Raise e => Raise e
  end.

Notation "'let*' x ':=' c 'in' k" := (bind c (fun x => k))
  (at level 10, x name, c at level 100, k at level 200).

(** [isinstance(e, ValueError)] *)
Definition is_ValueError (e : exn) : bool :=
  match e with
  | InvalidLiteral _ | ValueError _ | UnicodeDecodeError => true
  | _ => false
  end.

Definition is_KeyError (e : exn) : bool :=
  match e with
  | KeyError _ => true
  | _ => false
  end.

Definition is_FileNotFoundError (e : exn) : bool :=
  match e with
  | FileNotFoundError _ => true
  | _ => false
  end.

(** [len(l)] *)
Definition len {A : Type} (l : list A) : Z := Z.of_nat (length l).

(** A dict value read from a CSV file: a string or [None]. *)
Inductive value : Type :=
| VNone
| VStr (s : string).

(** [v == w] on such values *)
Definition value_eqb (v w : value) : bool :=
  match v, w with
  | VNone, VNone => true
  | VStr s, VStr t => String.eqb s t
  | _, _ => false
  end.

(** Truth value of a [str] or [None]: only [None] and [''] are false. *)
Definition truthy (v : value) : bool :=
  match v with
  | VNone => false
  | VStr "" => false
  | VStr _ => true
  end.

(** [str(v)] as used in an f-string *)
Definition str_of_value (v : value) : string :=
  match v with
  | VNone => "None"
  | VStr s => s
  end.

(** [row[k]] *)
Definition getitem (row : gmap string value) (k : string) : result value :=
  match row !! k with
  | Some v => Ok v
  | None => Raise (KeyError k)
  end.

(** [row.get(k, default)]; the one-argument form has [default = None]. *)
Definition get (row : gmap string value) (k : string) (default : value) : value :=
  match row !! k with
  | Some v => v
  | None => default
  end.

(** [s.split(':')[0]]: the text before the first colon, all of [s] when it
    has none. *)
Fixpoint split_colon_0 (s : string) : string :=
  match s with
  | EmptyString => EmptyString
  | String c rest =>
      if Ascii.eqb c ":" then EmptyString else String c (split_colon_0 rest)
  end.

(** [v.split(':')[0]] on a dict value: [None] has no [split]. *)
Definition split_head (v : value) : result string :=
  match v with
  | VNone => Raise AttributeError
  | VStr s => Ok (split_colon_0 s)
  end.

(** *** [int(s)] on a string, base 10

    Leading and trailing whitespace is skipped, one sign is allowed, the
    digits may be grouped by single underscores, and there may be at most
    [max_str_digits] of them. *)

Definition is_space (c : ascii) : bool :=
  let n := Z.of_N (N_of_ascii c) in
  ((9 <=? n) && (n <=? 13)) || (n =? 32) || (n =? 133) || (n =? 160).

Definition digit_of (c : ascii) : option Z :=
  let n := Z.of_N (N_of_ascii c) in
  if (48 <=? n) && (n <=? 57) then Some (n - 48) else None.

Fixpoint skip_spaces (s : string) : string :=
  match s with
  | EmptyString => EmptyString
  | String c rest => if is_space c then skip_spaces rest else s
  end.

(** The greatest number of digits that [int] converts: the default of
    [sys.int_max_str_digits]. *)
Definition max_str_digits : Z := 4300.

(** Reads the digits that follow a first digit: [acc] is the number read so
    far and [digits] the number of its digits. Returns the number read, the
    number of its digits and the unread text. An underscore is consumed only
    together with the digit after it. *)
Fixpoint scan_digits (acc digits : Z) (s : string) : Z * Z * string :=
  match s with
  | EmptyString => (acc, digits, s)
  | String c rest =>
      match digit_of c with
      | Some d => scan_digits (10 * acc + d) (digits + 1) rest
      | None =>
          if Ascii.eqb c "_" then
            match rest with
            | String c' rest' =>
                match digit_of c' with
                | Some d => scan_digits (10 * acc + d) (digits + 1) rest'
                | None => (acc, digits, s)
                end
            | EmptyString => (acc, digits, s)
            end
          else (acc, digits, s)
      end
  end.

Definition parse_unsigned (s : string) : option Z :=
  match s with
  | EmptyString => None
  | String c rest =>
      match digit_of c with
      | None => None
      | Some d =>
          let '(n, digits, tail) := scan_digits d 1 rest in
          match skip_spaces tail with
          | EmptyString => if digits <=? max_str_digits then Some n else None
          | String _ _ => None
          end
      end
  end.

Definition parse_int (s : string) : option Z :=
  match skip_spaces s with
  | String "+" rest => parse_unsigned rest
  | String "-" rest => Z.opp <$> parse_unsigned rest
  | t => parse_unsigned t
  end.

(** [int(s)] for a string [s] *)
Definition int_of_str (s : string) : result Z :=
  match parse_int s with
  | Some n => Ok n
  | None => Raise (InvalidLiteral s)
  end.

(** [int(v)] for a dict value: [int(None)] is a [TypeError]. *)
Definition int (v : value) : result Z :=
  match v with
  | VNone => Raise TypeError
  | VStr s => int_of_str s
  end.

(** *** [str(n)] on an int

    The conversion raises a [ValueError] for a number of more than
    [max_str_digits] digits. *)

(** The decimal digits of [n >= 0], before [acc]. *)
Fixpoint decimal_from (fuel : nat) (n : Z) (acc : string) : string :=
  match fuel with
  | O => acc
  | S fuel' =>
      let acc' := String (ascii_of_N (Z.to_N (48 + n mod 10))) acc in
      if n <? 10 then acc' else decimal_from fuel' (n / 10) acc'
  end.

(** The decimal digits of [n >= 0]: there are at most [log2 n + 1]. *)
Definition decimal (n : Z) : string :=
  decimal_from (S (Z.to_nat (Z.log2 n))) n EmptyString.

Definition too_many_digits (digits : string) : bool :=
  max_str_digits <? Z.of_nat (String.length digits).

(** The message of that [ValueError]. *)
Definition digits_limit_message : string :=
  String.append "Exceeds the limit (4300 digits) for integer string conversion"
    "; use sys.set_int_max_str_digits() to increase the limit".

(** [str(n)], and [f"{n}"], for an int *)
Definition str_of_int (n : Z) : result string :=
  let digits := decimal (Z.abs n) in
  if too_many_digits digits then Raise (ValueError digits_limit_message)
  else Ok (if n <? 0 then String "-" digits else digits).

(** *** Floats (IEEE 754 binary64)

    [Finite neg m e] is the double of magnitude [m * 2^e]. The mantissa is
    kept as rounding leaves it, so one double may have several
    representations; only its value is ever observed (by [round]). *)

Inductive float : Type :=
| Finite (neg : bool) (m e : Z)
| Infinity (neg : bool)
| NaN.

(** The integer nearest to [n / d] for [d > 0], ties to even. *)
Definition rne_div (n d : Z) : Z :=
  let q := n / d in
  match 2 * (n mod d) ?= d with
  | Lt => q
  | Gt => q + 1
  | Eq => if Z.even q then q else q + 1
  end.

(** [d * 2^k <= n], for [k] of either sign *)
Definition scaled_le (d k n : Z) : bool :=
  if 0 <=? k then d * 2 ^ k <=? n else d <=? n * 2 ^ (- k).

(** [floor (log2 (n / d))] for positive [n] and [d] *)
Definition ilog2_ratio (n d : Z) : Z :=
  let k := Z.log2 n - Z.log2 d in
  if scaled_le d k n then k else k - 1.

(** Rounds the positive rational [n / d] to 53 significant bits (fewer in
    the subnormal range), ties to even: the result [(m, e)] stands for
    [m * 2^e]. *)
Definition round_binary64 (n d : Z) : Z * Z :=
  let e := Z.max (ilog2_ratio n d - 52) (-1074) in
  (if 0 <=? e then rne_div n (d * 2 ^ e) else rne_div (n * 2 ^ (- e)) d, e).

(** The rounded magnitude [m * 2^e] reaches [2^1024]. *)
Definition overflows (m e : Z) : bool :=
  (971 <? e) || ((e =? 971) && (2 ^ 53 <=? m)).

(** [a / b] on ints: the correctly rounded quotient. *)
Definition true_div (a b : Z) : result float :=
  if b =? 0 then Raise ZeroDivisionError
  else
    let neg := xorb (a <? 0) (b <? 0) in
    if a =? 0 then Ok (Finite neg 0 0)
    else
      let '(m, e) := round_binary64 (Z.abs a) (Z.abs b) in
      if overflows m e then Raise OverflowError else Ok (Finite neg m e).

(** [float(n)] for an int [n], as done for an int operand of a float
    operation *)
Definition float_of_int (n : Z) : result float :=
  if n =? 0 then Ok (Finite false 0 0)
  else
    let '(m, e) := round_binary64 (Z.abs n) 1 in
    if overflows m e then Raise OverflowError else Ok (Finite (n <? 0) m e).

(** [x * y] on floats *)
Definition float_mul (x y : float) : float :=
  match x, y with
  | NaN, _ | _, NaN => NaN
  | Infinity s, Infinity t => Infinity (xorb s t)
  | Infinity s, Finite t m _ | Finite t m _, Infinity s =>
      if m =? 0 then NaN else Infinity (xorb s t)
  | Finite s m1 e1, Finite t m2 e2 =>
      let neg := xorb s t in
      let p := m1 * m2 in
      let e := e1 + e2 in
      if p =? 0 then Finite neg 0 0
      else
        let '(m, e') :=
          if 0 <=? e then round_binary64 (p * 2 ^ e) 1
          else round_binary64 p (2 ^ (- e)) in
        if overflows m e' then Infinity neg else Finite neg m e'
  end.

(** [x * n] for a float [x] and an int [n] *)
Definition float_mul_int (x : float) (n : Z) : result float :=
  let* y := float_of_int n in Ok (float_mul x y).

(** [round(x)] with no [ndigits]: the nearest int, ties to even. *)
Definition round (x : float) : result Z :=
  match x with
  | NaN => Raise (ValueError "cannot convert float NaN to integer")
  | Infinity _ => Raise OverflowError
  | Finite neg m e =>
      let v := if 0 <=? e then m * 2 ^ e else rne_div m (2 ^ (- e)) in
      Ok (if neg then - v else v)
  end.

(** *** The same operations in the Standard Library's specification of
    IEEE 754 arithmetic, to check the definitions above against *)

Definition spec_of_int (n : Z) : SpecFloat.spec_float :=
  match n with
  | Z0 => SpecFloat.S754_zero false
  | Zpos p => SpecFloat.S754_finite false p 0
  | Zneg p => SpecFloat.S754_finite true p 0
  end.

(** Sign, mantissa and exponent of a finite double of the specification *)
Definition spec_value (x : SpecFloat.spec_float) : option (bool * Z * Z) :=
  match x with
  | SpecFloat.S754_zero s => Some (s, 0, 0)
  | SpecFloat.S754_finite s m e => Some (s, Zpos m, e)
  | _ => None
  end.

(** Sign, mantissa and exponent of a finite double computed here; an
    infinity of the specification stands for the overflow that raises. *)
Definition float_value (x : result float) : option (bool * Z * Z) :=
  match x with
  | Ok (Finite s m e) => Some (s, m, e)
  | _ => None
  end.

(** Two doubles, given by sign, mantissa and exponent, have the same value. *)
Definition same_value (x y : option (bool * Z * Z)) : bool :=
  match x, y with
  | Some (s1, m1, e1), Some (s2, m2, e2) =>
      Bool.eqb s1 s2 &&
      (let e := Z.min e1 e2 in m1 * 2 ^ (e1 - e) =? m2 * 2 ^ (e2 - e))
  | None, None => true
  | _, _ => false
  end.

(** [a / b] agrees with the specification's division. *)
Definition division_agrees (a b : Z) : bool :=
  same_value (float_value (true_div a b))
    (spec_value (SpecFloat.SFdiv 53 1024 (spec_of_int a) (spec_of_int b))).

(** [(a / b) * 100] agrees with the specification's division and product. *)
Definition product_agrees (a b : Z) : bool :=
  same_value (float_value (let* q := true_div a b in float_mul_int q 100))
    (spec_value
       (SpecFloat.SFmul 53 1024
          (SpecFloat.SFdiv 53 1024 (spec_of_int a) (spec_of_int b))
          (spec_of_int 100))).

Definition for_all_pairs (f : Z -> Z -> bool) (l k : list Z) : bool :=
  forallb (fun a => forallb (fun b => f a b) k) l.

End Py.

Import Py.

(** A row of the CSV file, as [csv.DictReader] yields it. *)
Abbreviation row := (gmap string value).

#[global] Instance value_eq_dec : EqDecision value.
Proof. solve_decision. Defined.

(** ** The metric aggregator ([template_cw_a_b_c.py]) *)

Module Analysis.

(** [sum(1 for row in data if cond(row))], the accumulator starting at
    [acc]; [cond] may raise. *)
Fixpoint sum_ones (cond : row -> result bool) (data : list row) (acc : Z) : result Z :=
  match data with
  | [] => Ok acc
  | r :: rest =>
      let* b := cond r in
      sum_ones cond rest (if b then acc + 1 else acc)
  end.

(** [[row for row in data if cond(row)]] *)
Fixpoint select (cond : row -> result bool) (data : list row) : result (list row) :=
  match data with
  | [] => Ok []
  | r :: rest =>
      let* b := cond r in
      let* kept := select cond rest in
      Ok (if b then r :: kept else kept)
  end.

(** [row[k] == s] *)
Definition field_is (k s : string) (r : row) : result bool :=
  let* v := getitem r k in Ok (value_eqb v (VStr s)).

(** [v in [s1, s2, ...]] *)
Definition value_in (v : value) (l : list string) : bool :=
  existsb (fun s => value_eqb v (VStr s)) l.

Definition is_two_wheeled (r : row) : result bool :=
  let* v := getitem r "VehicleType" in
  Ok (value_in v ["Bicycle"; "Motorcycle"; "Scooter"]).

(** [row['JunctionName'] == 'Elm Avenue/Rabbit Road' and
    row['travel_Direction_in'] == 'N' and row['VehicleType'] == 'Buss'],
    with the short circuit of [and]. *)
Definition is_elm_bus_north (r : row) : result bool :=
  let* j := field_is "JunctionName" "Elm Avenue/Rabbit Road" r in
  if j then
    let* d := field_is "travel_Direction_in" "N" r in
    if d then field_is "VehicleType" "Buss" r else Ok false
  else Ok false.

Definition is_no_turn (r : row) : result bool :=
  let* i := getitem r "travel_Direction_in" in
  let* o := getitem r "travel_Direction_out" in
  Ok (value_eqb i o).

(** [int(row['VehicleSpeed']) > int(row['JunctionSpeedLimit'])] *)
Definition is_over_speed (r : row) : result bool :=
  let* s := getitem r "VehicleSpeed" in
  let* speed := int s in
  let* l := getitem r "JunctionSpeedLimit" in
  let* limit := int l in
  Ok (limit <? speed).

Definition is_elm_scooter (r : row) : result bool :=
  let* j := field_is "JunctionName" "Elm Avenue/Rabbit Road" r in
  if j then field_is "VehicleType" "Scooter" r else Ok false.

Definition trucks (data : list row) : result Z :=
  sum_ones (field_is "VehicleType" "Truck") data 0.

Definition electric_vehicles (data : list row) : result Z :=
  sum_ones (field_is "elctricHybrid" "True") data 0.

Definition two_wheeled_vehicles (data : list row) : result Z :=
  sum_ones is_two_wheeled data 0.

Definition elm_buses_north (data : list row) : result Z :=
  sum_ones is_elm_bus_north data 0.

Definition no_turns (data : list row) : result Z :=
  sum_ones is_no_turn data 0.

Definition over_speed (data : list row) : result Z :=
  sum_ones is_over_speed data 0.

Definition elm_avenue_vehicles (data : list row) : result Z :=
  sum_ones (field_is "JunctionName" "Elm Avenue/Rabbit Road") data 0.

Definition hanley_highway_vehicles (data : list row) : result Z :=
  sum_ones (field_is "JunctionName" "Hanley Highway/Westway") data 0.

Definition elm_scooters (data : list row) : result Z :=
  sum_ones is_elm_scooter data 0.

(** [round((part / whole) * 100) if whole else 0], the expression written
    out for the scooter percentage and again for the truck percentage. *)
Definition percentage (part whole : Z) : result Z :=
  if whole =? 0 then Ok 0
  else
    let* q := true_div part whole in
    let* p := float_mul_int q 100 in
    round p.

(** A [defaultdict(int)] keyed by hour, in insertion order. *)
Abbreviation counter := (list (string * Z)).

(** [d[k] += 1]: a missing key is first inserted, at the end, with [int()]. *)
Fixpoint incr (k : string) (d : counter) : counter :=
  match d with
  | [] => [(k, 0 + 1)]
  | (k', n) :: rest =>
      if String.eqb k' k then (k', n + 1) :: rest else (k', n) :: incr k rest
  end.

Definition values (d : counter) : list Z := map snd d.

(** [sum(l)] *)
Definition sum (l : list Z) : Z := fold_left Z.add l 0.

(** [max(l)] *)
Definition max (l : list Z) : result Z :=
  match l with
  | [] => Raise (ValueError "max() arg is an empty sequence")
  | x :: rest => Ok (fold_left Z.max rest x)
  end.

(** The body shared by the two hour-counting loops:
    [hour = row.get('timeOfDay')], then, if [hour] is true,
    [d[hour.split(':')[0]] += 1]. *)
Definition count_hour (r : row) (d : counter) : counter :=
  match get r "timeOfDay" VNone with
  | VStr s => if truthy (VStr s) then incr (split_colon_0 s) d else d
  | VNone => d
  end.

Definition bicycle_data (data : list row) : result (list row) :=
  select (field_is "VehicleType" "Bicycle") data.

Definition bicycle_count_per_hour (bicycles : list row) : counter :=
  fold_left (fun d r => count_hour r d) bicycles [].

(** [round(sum(d.values()) / len(d)) if d else 0] *)
Definition avg_bicycles_per_hour (d : counter) : result Z :=
  match d with
  | [] => Ok 0
  | _ :: _ => let* q := true_div (sum (values d)) (len d) in round q
  end.

(** The loop over [data] that fills [hanley_peak_hour], from the dict [d]. *)
Fixpoint hanley_loop (data : list row) (d : counter) : result counter :=
  match data with
  | [] => Ok d
  | r :: rest =>
      let* h := field_is "JunctionName" "Hanley Highway/Westway" r in
      hanley_loop rest (if h then count_hour r d else d)
  end.

Definition hanley_peak_hour (data : list row) : result counter :=
  hanley_loop data [].

(** [max(d.values()) if d else 0] *)
Definition peak_hour_count (d : counter) : result Z :=
  match d with
  | [] => Ok 0
  | _ :: _ => max (values d)
  end.

(** [[hour for hour, count in d.items() if count == peak]] *)
Definition hours_with_count (d : counter) (peak : Z) : list string :=
  map fst (List.filter (fun kv => snd kv =? peak) d).

Definition peak_hours (d : counter) : result (list string) :=
  let* peak := peak_hour_count d in Ok (hours_with_count d peak).

Definition rain_hours (data : list row) : Z :=
  len (List.filter (fun r : row => value_eqb (get r "timeOfDay" VNone) (VStr "True")) data).

(** The [results] dict, one field per key, in the order of the keys. *)
Record results : Type := {
  csv_file_name : string;
  total_vehicles : Z;
  total_trucks : Z;
  total_electric_vehicles : Z;
  total_two_wheeled_vehicles : Z;
  total_elm_buses_north : Z;
  total_no_turns : Z;
  over_speeding : Z;
  truck_percentage : Z;
  avg_bicycles : Z;
  over_speeding_vehicles : Z;
  elm_avenue_rabbit_road_vehicles : Z;
  hanley_highway_westway_vehicles : Z;
  scooter_percentage_elm_avenue : Z;
  peak_hours_hanley : list string;
  total_rain_hours : Z
}.

Definition analyze_data (data : list row) (filename : string) : result results :=
  let total := len data in
  let* n_trucks := trucks data in
  let* n_electric := electric_vehicles data in
  let* n_two_wheeled := two_wheeled_vehicles data in
  let* n_elm_buses := elm_buses_north data in
  let* n_no_turns := no_turns data in
  let* n_over_speed := over_speed data in
  let* n_elm := elm_avenue_vehicles data in
  let* n_hanley := hanley_highway_vehicles data in
  let* n_elm_scooters := elm_scooters data in
  let* elm_scooter_percentage := percentage n_elm_scooters n_elm in
  let* bicycles := bicycle_data data in
  let* avg := avg_bicycles_per_hour (bicycle_count_per_hour bicycles) in
  let* hanley := hanley_peak_hour data in
  let* peaks := peak_hours hanley in
  let n_rain := rain_hours data in
  let* truck_pct := percentage n_trucks total in
  Ok {| csv_file_name := filename;
        total_vehicles := total;
        total_trucks := n_trucks;
        total_electric_vehicles := n_electric;
        total_two_wheeled_vehicles := n_two_wheeled;
        total_elm_buses_north := n_elm_buses;
        total_no_turns := n_no_turns;
        over_speeding := n_over_speed;
        truck_percentage := truck_pct;
        avg_bicycles := avg;
        over_speeding_vehicles := n_over_speed;
        elm_avenue_rabbit_road_vehicles := n_elm;
        hanley_highway_westway_vehicles := n_hanley;
        scooter_percentage_elm_avenue := elm_scooter_percentage;
        peak_hours_hanley := peaks;
        total_rain_hours := n_rain |}.

(** *** The files

    What the program finds outside: under each file name, and when it
    appends to [results.txt]. *)

(** What [process_csv_data] finds under a file name: no file
    ([os.path.exists] is false); a file on which [open] or the [csv] reader
    raises an exception; or the rows read. *)
Inductive found : Type :=
| Missing
| Unreadable (e : exn)
| Rows (rows : list row).

(** The file system during a run: [contents] for the names that are read,
    and for [results.txt] the exception, if any, with which opening it,
    writing to it or closing it fails when the results [r] are appended. *)
Record files : Type := {
  contents : string -> found;
  appending : results -> option exn
}.

Definition process_csv_data (fs : files) (filename : string) : result (list row) :=
  match contents fs filename with
  | Missing => Raise (FileNotFoundError filename)
  | Unreadable e => Raise e
  | Rows rows => Ok rows
  end.

(** The numbers of the results, in the order of their keys. *)
Definition numbers (r : results) : list Z :=
  [total_vehicles r; total_trucks r; total_electric_vehicles r;
   total_two_wheeled_vehicles r; total_elm_buses_north r; total_no_turns r;
   over_speeding r; truck_percentage r; avg_bicycles r; over_speeding_vehicles r;
   elm_avenue_rabbit_road_vehicles r; hanley_highway_westway_vehicles r;
   scooter_percentage_elm_avenue r; total_rain_hours r].

(** [f"{key}: {value}"] for each number in turn: the texts of the numbers,
    or the [ValueError] of the first that has too many digits. (The file
    name and the list of peak hours are formatted without exception.) *)
Fixpoint format_values (values : list Z) : result (list string) :=
  match values with
  | [] => Ok []
  | n :: rest =>
      let* text := str_of_int n in
      let* texts := format_values rest in
      Ok (text :: texts)
  end.

(** The [for] loop of [main] that prints the results. *)
Definition print_results (r : results) : result (list string) :=
  format_values (numbers r).

(** [save_results_to_file]: what it raises, if anything. The text that it
    appends is not modelled beyond the numbers formatted. *)
Definition save_results_to_file (fs : files) (r : results) : result (list string) :=
  match appending fs r with
  | Some e => Raise e
  | None => format_values (numbers r)
  end.

(** What one turn of [main]'s loop reports for the file named [date_input]:
    the results, printed and saved; the message of the [except] clause that
    caught an exception, the bare exception or "An error occurred: ..."; or,
    when printing or saving the results [r] of [analyze_data] raised an
    exception, these results and then the message of the clause that caught
    it. *)
Inductive report : Type :=
| Displayed (r : results)
| PrintedException (e : exn)
| AnErrorOccurred (e : exn)
| Unsaved (r : results) (message : report).

(** The [except] clauses of [main], in order: [FileNotFoundError], then
    [Exception]. *)
Definition handle (e : exn) : report :=
  if is_FileNotFoundError e then PrintedException e else AnErrorOccurred e.

(** The [try] statement of [main]: the file is read and analysed, the
    results are printed, then saved; the first exception ends it. *)
Definition main_pass (fs : files) (date_input : string) : report :=
  match (let* data := process_csv_data fs date_input in
         analyze_data data date_input) with
  | Raise e => handle e
  | Ok r =>
      match (let* _ := print_results r in save_results_to_file fs r) with
      | Ok _ => Displayed r
      | Raise e => Unsaved r (handle e)
      end
  end.

End Analysis.

(** ** The hourly grouping engine ([template_cw_d_e.py]) *)

Module MultiCSVProcessor.

(** [traffic_summary]: hour -> junction -> volume *)
Abbreviation summary := (gmap Z (gmap string Z)).

(** The attributes of a [MultiCSVProcessor] object. *)
Record processor : Type := {
  current_data : option (list row);
  date : value;
  traffic_summary : gmap Z (gmap string Z)
}.

(** [__init__] *)
Definition init : processor :=
  {| current_data := None; date := VNone; traffic_summary := ∅ |}.

(** The message boxes the processor opens. *)
Inductive dialog : Type :=
| NoFileSelected
| MultipleDates
| FailedToLoadFile (e : exn)
| InvalidTimeOfDay (shown : value)
| JunctionNameMissing.

(** How a call of [process_data] ends: it returns, it returns after an error
    box, or an exception leaves it. *)
Inductive outcome : Type :=
| Returned
| Reported (d : dialog)
| Raised (e : exn).

(** The three statements that count one vehicle:
    [if hour not in s: s[hour] = {}],
    [if junction not in s[hour]: s[hour][junction] = 0],
    [s[hour][junction] += 1]. *)
Definition count_vehicle (hour : Z) (junction : string)
    (s : gmap Z (gmap string Z)) : gmap Z (gmap string Z) :=
  let s1 := match s !! hour with
            | Some _ => s
            | None => <[hour := ∅]> s
            end in
  let at_hour (t : gmap Z (gmap string Z)) : gmap string Z := default ∅ (t !! hour) in
  let s2 := match at_hour s1 !! junction with
            | Some _ => s1
            | None => <[hour := <[junction := 0]> (at_hour s1)]> s1
            end in
  <[hour := <[junction := default 0 (at_hour s2 !! junction) + 1]> (at_hour s2)]> s2.

(** [int(row['timeOfDay'].split(':')[0])] *)
Definition hour_of (r : row) : result Z :=
  let* t := getitem r "timeOfDay" in
  let* h := split_head t in
  int_of_str h.

(** The [for] loop of [process_data] over the rows not yet visited. *)
Fixpoint process_rows (target : value) (rows : list row)
    (s : gmap Z (gmap string Z)) : gmap Z (gmap string Z) * outcome :=
  match rows with
  | [] => (s, Returned)
  | r :: rest =>
      match getitem r "Date" with
      | Raise e => (s, Raised e)
      | Ok d =>
          if negb (value_eqb d target) then process_rows target rest s
          else
            match hour_of r with
            | Raise e =>
                if is_KeyError e || is_ValueError e
                then (s, Reported (InvalidTimeOfDay (get r "timeOfDay" VNone)))
                else (s, Raised e)
            | Ok hour =>
                match get r "JunctionName" (VStr "Unknown") with
                | VStr junction =>
                    if truthy (VStr junction)
                    then process_rows target rest (count_vehicle hour junction s)
                    else (s, Reported JunctionNameMissing)
                | VNone => (s, Reported JunctionNameMissing)
                end
            end
      end
  end.

(** [not self.current_data] *)
Definition no_data (d : option (list row)) : bool :=
  match d with
  | None | Some [] => true
  | Some (_ :: _) => false
  end.

Definition process_data (p : processor) : processor * outcome :=
  if no_data (current_data p) || negb (truthy (date p)) then (p, Returned)
  else
    let '(s, o) := process_rows (date p) (default [] (current_data p)) ∅ in
    ({| current_data := current_data p; date := date p; traffic_summary := s |}, o).

Definition clear_previous_data (p : processor) : processor :=
  {| current_data := None; date := VNone; traffic_summary := ∅ |}.

(** [{row['Date'] for row in rows}], as the list of the dates read *)
Fixpoint dates_of (rows : list row) : result (list value) :=
  match rows with
  | [] => Ok []
  | r :: rest =>
      let* d := getitem r "Date" in
      let* ds := dates_of rest in
      Ok (d :: ds)
  end.

Section Loading.

(** [next(iter(dates))]: the element that iterating over the set built from
    the given dates yields first. *)
Variable first_of_set : list value -> value.

(** The [try] block of [load_csv_file] once the file is read: the new state
    and the exception that leaves the block, if any. *)
Definition load_rows (rows : list row) (p : processor)
    : processor * list dialog * option exn :=
  let p1 := {| current_data := Some rows; date := date p;
               traffic_summary := traffic_summary p |} in
  match rows with
  | [] => (p1, [], Some (ValueError "CSV file is empty."))
  | _ :: _ =>
      match dates_of rows with
      | Raise e => (p1, [], Some e)
      | Ok dates =>
          let p2 := {| current_data := Some rows; date := first_of_set dates;
                       traffic_summary := traffic_summary p |} in
          let warn := if (1 <? len (remove_dups dates)) then [MultipleDates] else [] in
          match process_data p2 with
          | (p3, Returned) => (p3, warn, None)
          | (p3, Reported d) => (p3, warn ++ [d], None)
          | (p3, Raised e) => (p3, warn, Some e)
          end
      end
  end.

(** [load_csv_file]; [selection] is what the file dialog and the reader
    deliver: nothing, or the rows of the chosen file. *)
Definition load_csv_file (selection : option (list row)) (p : processor)
    : processor * list dialog :=
  match selection with
  | None => (p, [NoFileSelected])
  | Some rows =>
      match load_rows rows p with
      | (p', shown, None) => (p', shown)
      | (p', shown, Some e) => (p', shown ++ [FailedToLoadFile e])
      end
  end.

(** One turn of the loop of [handle_user_interaction], up to the histogram:
    the table handed to [HistogramApp], if one is drawn. *)
Definition dataset_pass (selection : option (list row)) (p : processor)
    : processor * list dialog * option (gmap Z (gmap string Z)) :=
  let '(p', shown) := load_csv_file selection (clear_previous_data p) in
  (p', shown,
   if decide (traffic_summary p' = ∅) then None else Some (traffic_summary p')).

End Loading.

End MultiCSVProcessor.

(** ** Notions used to state the properties *)

Module AnalysisSpec.

(** The row has the string [s] under the key [k]. *)
Definition field_eq (k s : string) (r : row) : bool :=
  bool_decide (r !! k = Some (VStr s)).

Definition has_key (k : string) (r : row) : bool :=
  bool_decide (is_Some (r !! k)).

(** The row has a string under the key [k]. *)
Definition string_field (k : string) (r : row) : bool :=
  match r !! k with
  | Some (VStr _) => true
  | _ => false
  end.

(** The integer that the string under [k] denotes, if it denotes one. *)
Definition int_field (k : string) (r : row) : option Z :=
  match r !! k with
  | Some (VStr s) => parse_int s
  | _ => None
  end.

Definition numeric_field (k : string) (r : row) : bool :=
  bool_decide (is_Some (int_field k r)).

(** Both speed fields are strings. *)
Definition speeds_are_strings (r : row) : bool :=
  string_field "VehicleSpeed" r && string_field "JunctionSpeedLimit" r.

(** Both speed fields are numeric. *)
Definition speeds_are_numeric (r : row) : bool :=
  numeric_field "VehicleSpeed" r && numeric_field "JunctionSpeedLimit" r.

(** The observed speed is strictly above the limit. *)
Definition speeding (r : row) : bool :=
  match int_field "VehicleSpeed" r, int_field "JunctionSpeedLimit" r with
  | Some speed, Some limit => limit <? speed
  | _, _ => false
  end.

Definition two_wheeled (r : row) : bool :=
  field_eq "VehicleType" "Bicycle" r || field_eq "VehicleType" "Motorcycle" r ||
  field_eq "VehicleType" "Scooter" r.

Definition elm_bus_north (r : row) : bool :=
  field_eq "JunctionName" "Elm Avenue/Rabbit Road" r &&
  field_eq "travel_Direction_in" "N" r && field_eq "VehicleType" "Buss" r.

Definition elm_scooter (r : row) : bool :=
  field_eq "JunctionName" "Elm Avenue/Rabbit Road" r &&
  field_eq "VehicleType" "Scooter" r.

(** The two directions are present and equal. *)
Definition no_turn (r : row) : bool :=
  match r !! "travel_Direction_in", r !! "travel_Direction_out" with
  | Some i, Some o => bool_decide (i = o)
  | _, _ => false
  end.

(** The keys that [analyze_data] subscripts, other than the two speeds. *)
Definition has_categories (r : row) : bool :=
  has_key "VehicleType" r && has_key "elctricHybrid" r &&
  has_key "JunctionName" r && has_key "travel_Direction_in" r &&
  has_key "travel_Direction_out" r.

(** A row on which no expression of [analyze_data] raises. *)
Definition complete (r : row) : bool :=
  has_categories r && speeds_are_numeric r.

(** The number of rows that satisfy [p]. *)
Definition count (p : row -> bool) (data : list row) : Z :=
  len (List.filter p data).

(** The hour bucket of a row: the text before the first colon of a
    non-empty time of day. *)
Definition time_prefix (r : row) : option string :=
  match r !! "timeOfDay" with
  | Some (VStr (String c s)) => Some (split_colon_0 (String c s))
  | _ => None
  end.

Definition hanley_hour (r : row) : option string :=
  if field_eq "JunctionName" "Hanley Highway/Westway" r then time_prefix r else None.

Definition bicycle_hour (r : row) : option string :=
  if field_eq "VehicleType" "Bicycle" r then time_prefix r else None.

(** The number of rows that [bucket_of] puts in the bucket [h]. *)
Definition bucket_count (bucket_of : row -> option string) (h : string)
    (data : list row) : Z :=
  count (fun r => bool_decide (bucket_of r = Some h)) data.

(** The distinct buckets that [bucket_of] gives to the rows. *)
Definition buckets (bucket_of : row -> option string) (data : list row) : list string :=
  remove_dups (omap bucket_of data).

(** The per-hour average in the spec's words: group the bicycle rows by hour
    bucket, then [round(sum(bucket counts) / distinct-bucket-count)], [0] if
    there is no bucket. *)
Definition per_hour_average (data : list row) : result Z :=
  let hours := buckets bicycle_hour data in
  match hours with
  | [] => Ok 0
  | _ :: _ =>
      let* q := true_div
                  (Analysis.sum (map (fun h => bucket_count bicycle_hour h data) hours))
                  (len hours) in
      round q
  end.

(** The dict that the counting loops build from [d]: one increment per row
    to which [bucket_of] gives a bucket. *)
Definition fill (bucket_of : row -> option string) (data : list row)
    (d : list (string * Z)) : list (string * Z) :=
  fold_left (fun d r => match bucket_of r with
                        | Some h => Analysis.incr h d
                        | None => d
                        end) data d.

(** Distinct keys and positive counts: what every dict built by increments
    satisfies. *)
Definition counter_ok (d : list (string * Z)) : Prop :=
  NoDup (map fst d) /\ Forall (fun kv => 0 < snd kv) d.

(** The count that the dict [d] holds for [h]; [0] for a missing key. *)
Fixpoint lookup (h : string) (d : list (string * Z)) : Z :=
  match d with
  | [] => 0
  | (k, n) :: rest => if String.eqb k h then n else lookup h rest
  end.

(** [v] is the percentage of [part] in [whole] in the spec's words:
    [round(part / whole * 100)], and [0] when [whole] is [0]. *)
Definition is_percentage (part whole v : Z) : Prop :=
  (whole = 0 -> v = 0) /\
  (whole <> 0 ->
   exists q p, true_div part whole = Ok q /\ float_mul_int q 100 = Ok p /\
               round p = Ok v).

(** What [analyze_data] returns for [data] and [filename], field by field:
    the counts as numbers of rows, the derived metrics as the source's
    expressions over those numbers. *)
Record analysed (data : list row) (filename : string) (r : Analysis.results) : Prop := {
  an_file : Analysis.csv_file_name r = filename;
  an_total : Analysis.total_vehicles r = len data;
  an_trucks : Analysis.total_trucks r = count (field_eq "VehicleType" "Truck") data;
  an_electric :
    Analysis.total_electric_vehicles r = count (field_eq "elctricHybrid" "True") data;
  an_two_wheeled : Analysis.total_two_wheeled_vehicles r = count two_wheeled data;
  an_elm_buses : Analysis.total_elm_buses_north r = count elm_bus_north data;
  an_no_turns : Analysis.total_no_turns r = count no_turn data;
  an_over_speeding : Analysis.over_speeding r = count speeding data;
  an_over_speeding_vehicles : Analysis.over_speeding_vehicles r = count speeding data;
  an_elm :
    Analysis.elm_avenue_rabbit_road_vehicles r
    = count (field_eq "JunctionName" "Elm Avenue/Rabbit Road") data;
  an_hanley :
    Analysis.hanley_highway_westway_vehicles r
    = count (field_eq "JunctionName" "Hanley Highway/Westway") data;
  an_scooter_percentage :
    Analysis.percentage (count elm_scooter data)
      (count (field_eq "JunctionName" "Elm Avenue/Rabbit Road") data)
    = Ok (Analysis.scooter_percentage_elm_avenue r);
  an_truck_percentage :
    Analysis.percentage (count (field_eq "VehicleType" "Truck") data) (len data)
    = Ok (Analysis.truck_percentage r);
  an_avg :
    Analysis.avg_bicycles_per_hour (fill bicycle_hour data [])
    = Ok (Analysis.avg_bicycles r);
  an_peak :
    Analysis.peak_hours (fill hanley_hour data [])
    = Ok (Analysis.peak_hours_hanley r);
  an_rain : Analysis.total_rain_hours r = Analysis.rain_hours data
}.

(** A row with the nine columns of the input schema. *)
Definition observation (date time junction type dir_in dir_out speed limit electric : string)
    : row :=
  list_to_map
    [("Date", VStr date); ("timeOfDay", VStr time); ("JunctionName", VStr junction);
     ("VehicleType", VStr type); ("travel_Direction_in", VStr dir_in);
     ("travel_Direction_out", VStr dir_out); ("VehicleSpeed", VStr speed);
     ("JunctionSpeedLimit", VStr limit); ("elctricHybrid", VStr electric)].

(** Four observations: two trucks, a bicycle, and a scooter at Elm
    Avenue/Rabbit Road. *)
Definition scenario : list row :=
  [observation "21/06/2024" "08:15:00" "Hanley Highway/Westway" "Truck" "N" "S" "45" "30" "False";
   observation "21/06/2024" "08:40:10" "Hanley Highway/Westway" "Truck" "E" "E" "28" "30" "False";
   observation "21/06/2024" "09:05:30" "Hanley Highway/Westway" "Bicycle" "N" "W" "12" "30" "False";
   observation "21/06/2024" "9:30:00" "Elm Avenue/Rabbit Road" "Scooter" "S" "N" "31" "20" "True"].

(** What [analyze_data] returns for [scenario]. *)
Definition scenario_results : Analysis.results :=
  {| Analysis.csv_file_name := "traffic_data21062024.csv";
     Analysis.total_vehicles := 4;
     Analysis.total_trucks := 2;
     Analysis.total_electric_vehicles := 1;
     Analysis.total_two_wheeled_vehicles := 2;
     Analysis.total_elm_buses_north := 0;
     Analysis.total_no_turns := 1;
     Analysis.over_speeding := 2;
     Analysis.truck_percentage := 50;
     Analysis.avg_bicycles := 1;
     Analysis.over_speeding_vehicles := 2;
     Analysis.elm_avenue_rabbit_road_vehicles := 1;
     Analysis.hanley_highway_westway_vehicles := 3;
     Analysis.scooter_percentage_elm_avenue := 100;
     Analysis.peak_hours_hanley := ["08"];
     Analysis.total_rain_hours := 0 |}.

(** A row whose observed speed is not a number. *)
Definition bad_speed : row :=
  observation "21/06/2024" "08:15:00" "Elm Avenue/Rabbit Road" "Car" "N" "S" "abc" "30" "False".

(** A row read from a file that has no [VehicleType] column. *)
Definition no_vehicle_type : row :=
  delete "VehicleType" (observation "21/06/2024" "08:15:00" "Elm Avenue/Rabbit Road" "Car"
                          "N" "S" "40" "30" "False").

(** A file system with one file, which is read without error, and in which
    appending to [results.txt] succeeds. *)
Definition one_file (name : string) (rows : list row) : Analysis.files :=
  {| Analysis.contents :=
       fun f => if String.eqb f name then Analysis.Rows rows else Analysis.Missing;
     Analysis.appending := fun _ => None |}.

End AnalysisSpec.

Module GroupingSpec.

(** The row is dated [target]. *)
Definition on_date (target : value) (r : row) : bool :=
  bool_decide (r !! "Date" = Some target).

(** The text before the first colon of the time of day. *)
Definition hour_prefix (r : row) : option string :=
  match r !! "timeOfDay" with
  | Some (VStr s) => Some (split_colon_0 s)
  | _ => None
  end.

(** The hour bucket of the row: the integer that this text denotes. *)
Definition hour (r : row) : option Z :=
  hour_prefix r ≫= parse_int.

(** The junction key of the row: its non-empty junction name, ["Unknown"]
    when the row has no [JunctionName] key. *)
Definition junction (r : row) : option string :=
  match r !! "JunctionName" with
  | None => Some "Unknown"
  | Some (VStr (String c s)) => Some (String c s)
  | Some _ => None
  end.

(** The row would stop the loop: it is dated [target] and has no hour bucket
    or no junction key. *)
Definition offending (target : value) (r : row) : bool :=
  on_date target r &&
  negb (bool_decide (is_Some (hour r)) && bool_decide (is_Some (junction r))).

(** The row has a date, and is not offending. *)
Definition groupable (target : value) (r : row) : bool :=
  AnalysisSpec.has_key "Date" r && negb (offending target r).

(** The number of rows dated [target] with hour bucket [h] and junction [j]. *)
Definition volume (target : value) (h : Z) (j : string) (rows : list row) : Z :=
  AnalysisSpec.count
    (fun r => on_date target r && bool_decide (hour r = Some h)
              && bool_decide (junction r = Some j)) rows.

(** The number of rows dated [target] with the text [p] before the first
    colon of their time of day and junction [j]. *)
Definition prefix_volume (target : value) (p : string) (j : string)
    (rows : list row) : Z :=
  AnalysisSpec.count
    (fun r => on_date target r && bool_decide (hour_prefix r = Some p)
              && bool_decide (junction r = Some j)) rows.

(** The cell of the table for hour [h] and junction [j], if there is one. *)
Definition cell (s : gmap Z (gmap string Z)) (h : Z) (j : string) : option Z :=
  s !! h ≫= (fun m => m !! j).

(** A cell after [n] more vehicles. *)
Definition add_volume (c : option Z) (n : Z) : option Z :=
  if n =? 0 then c else Some (default 0 c + n).

(** A processor that holds [rows] and [target] and the table [s]. *)
Definition loaded (rows : list row) (target : value) (s : gmap Z (gmap string Z))
    : MultiCSVProcessor.processor :=
  {| MultiCSVProcessor.current_data := Some rows;
     MultiCSVProcessor.date := target;
     MultiCSVProcessor.traffic_summary := s |}.

(** A row with a date, a time of day and a junction name only. *)
Definition sighting (date time junction : string) : row :=
  list_to_map [("Date", VStr date); ("timeOfDay", VStr time);
               ("JunctionName", VStr junction)].

(** The order in which a set of dates is iterated, for the examples: the
    first date read comes first. *)
Definition first_read (dates : list value) : value := default VNone (head dates).

(** What [analyze_data] returns for no row at all. *)
Definition empty_results (filename : string) : Analysis.results :=
  {| Analysis.csv_file_name := filename;
     Analysis.total_vehicles := 0;
     Analysis.total_trucks := 0;
     Analysis.total_electric_vehicles := 0;
     Analysis.total_two_wheeled_vehicles := 0;
     Analysis.total_elm_buses_north := 0;
     Analysis.total_no_turns := 0;
     Analysis.over_speeding := 0;
     Analysis.truck_percentage := 0;
     Analysis.avg_bicycles := 0;
     Analysis.over_speeding_vehicles := 0;
     Analysis.elm_avenue_rabbit_road_vehicles := 0;
     Analysis.hanley_highway_westway_vehicles := 0;
     Analysis.scooter_percentage_elm_avenue := 0;
     Analysis.peak_hours_hanley := [];
     Analysis.total_rain_hours := 0 |}.

End GroupingSpec.

(** ** The rest of the two programs

    The functions that the properties above do not reach: the histogram of
    [HistogramApp], the session loop of [MultiCSVProcessor], and the prompts
    and the loop of [main]. *)

Module OrderSpec.

Import Analysis.

(** The results [r] with the list [hs] as peak hours. *)
Definition with_peak_hours (hs : list string) (r : results) : results :=
  {| csv_file_name := csv_file_name r;
     total_vehicles := total_vehicles r;
     total_trucks := total_trucks r;
     total_electric_vehicles := total_electric_vehicles r;
     total_two_wheeled_vehicles := total_two_wheeled_vehicles r;
     total_elm_buses_north := total_elm_buses_north r;
     total_no_turns := total_no_turns r;
     over_speeding := over_speeding r;
     truck_percentage := truck_percentage r;
     avg_bicycles := avg_bicycles r;
     over_speeding_vehicles := over_speeding_vehicles r;
     elm_avenue_rabbit_road_vehicles := elm_avenue_rabbit_road_vehicles r;
     hanley_highway_westway_vehicles := hanley_highway_westway_vehicles r;
     scooter_percentage_elm_avenue := scooter_percentage_elm_avenue r;
     peak_hours_hanley := hs;
     total_rain_hours := total_rain_hours r |}.

End OrderSpec.

Module TableSpec.

(** What every table built by [process_data] satisfies: no hour without a
    junction, no junction with an empty name, no count below [1]. *)
Definition table_ok (s : gmap Z (gmap string Z)) : Prop :=
  forall h m, s !! h = Some m ->
    m <> ∅ /\ forall j c, m !! j = Some c -> 0 < c /\ j <> "".

End TableSpec.

(** ** The histogram ([HistogramApp]) *)

Module Histogram.

(** The attributes of a [HistogramApp] object. *)
Record app : Type := {
  traffic_data : gmap Z (gmap string Z);
  app_date : value
}.

(** The order of [str]: by code points, a proper prefix first. *)
Definition str_le (a b : string) : Prop := String.leb a b = true.

#[global] Instance str_le_dec : RelDecision str_le.
Proof. intros a b. unfold str_le. apply _. Defined.

(** [sorted(l)] on ints and on strings: as equal elements are the same
    value, the result is the one ascending arrangement of [l]. *)
Definition sorted_ints (l : list Z) : list Z := merge_sort Z.le l.

Definition sorted_strs (l : list string) : list string := merge_sort str_le l.

(** [enumerate(l)], counting from [n] *)
Fixpoint enumerate_from {A : Type} (n : nat) (l : list A) : list (nat * A) :=
  match l with
  | [] => []
  | x :: rest => (n, x) :: enumerate_from (S n) rest
  end.

Definition enumerate {A : Type} (l : list A) : list (nat * A) := enumerate_from 0 l.

(** One call [ax.bar(i + j * bar_width, volume, width=bar_width,
    label=..., color=colors(j))]: the indices [i] and [j] that fix the
    position and the colour, the height and the label. *)
Record bar : Type := {
  hour_index : nat;
  junction_index : nat;
  bar_volume : Z;
  label : string
}.

(** What [draw_histogram] shows: the "No Data" error box, or the chart with
    the date of its title, the hours of its tick labels, the junctions and
    the bars in the order they are drawn. *)
Inductive drawing : Type :=
| NoDataBox
| Chart (title_date : value) (hours : list Z) (junctions : list string)
    (bars : list bar).

(** [{junction for hour_data in table.values() for junction in
    hour_data.keys()}] *)
Definition junction_set (s : gmap Z (gmap string Z)) : gset string :=
  ⋃ ((fun hm : Z * gmap string Z => dom (snd hm)) <$> map_to_list s).

(** The bars of one hour: [self.traffic_data[hour].get(junction, 0)] for
    each junction; [None] stands for the [KeyError] of the subscript. *)
Definition bars_of_hour (s : gmap Z (gmap string Z)) (junctions : list string)
    (ih : nat * Z) : option (list bar) :=
  hour_data ← s !! snd ih;
  Some ((fun jj : nat * string =>
           {| hour_index := fst ih;
              junction_index := fst jj;
              bar_volume := default 0 (hour_data !! snd jj);
              label := if decide (fst ih = 0%nat) then snd jj else "" |})
          <$> enumerate junctions).

(** [draw_histogram]; [None] stands for a [KeyError]. *)
Definition draw_histogram (a : app) : option drawing :=
  if decide (traffic_data a = ∅) then Some NoDataBox
  else
    let hours := sorted_ints (fst <$> map_to_list (traffic_data a)) in
    let junctions := sorted_strs (elements (junction_set (traffic_data a))) in
    bars ← mapM (bars_of_hour (traffic_data a) junctions) (enumerate hours);
    Some (Chart (app_date a) hours junctions (concat bars)).

End Histogram.

(** ** The session loop of [MultiCSVProcessor] *)

Module Session.

Import MultiCSVProcessor.

(** What the operator sees during [handle_user_interaction]. *)
Inductive event : Type :=
| Shown (d : dialog)
| Drawn (c : Histogram.drawing)
| ExitInfo.

(** How the loop stands when the answers given so far are used up: it has
    left after a "no", it waits for the next answer, or an exception has
    ended it. *)
Inductive standing : Type :=
| Closed
| Waiting
| Crashed.

(** The [if self.traffic_summary:] statement of the loop: the histogram of
    the table, if it is not empty; [None] stands for an exception of
    [draw_histogram]. *)
Definition show_histogram (p : processor) : option (list event) :=
  if decide (traffic_summary p = ∅) then Some []
  else
    c ← Histogram.draw_histogram
           {| Histogram.traffic_data := traffic_summary p;
              Histogram.app_date := date p |};
    Some [Drawn c].

(** [handle_user_interaction] for the turns given: per turn, what the file
    dialog and the reader deliver and the answer to "another data file?". *)
Fixpoint handle_user_interaction (first_of_set : list value -> value)
    (turns : list (option (list row) * bool)) (p : processor)
    : processor * list event * standing :=
  match turns with
  | [] => (p, [], Waiting)
  | (selection, response) :: rest =>
      let '(p1, shown) := load_csv_file first_of_set selection (clear_previous_data p) in
      match show_histogram p1 with
      | None => (p1, Shown <$> shown, Crashed)
      | Some drawn =>
          if response : bool then
            let '(p2, later, e) := handle_user_interaction first_of_set rest p1 in
            (p2, (Shown <$> shown) ++ drawn ++ later, e)
          else (p1, (Shown <$> shown) ++ drawn ++ [ExitInfo], Closed)
      end
  end.

(** [run] on a new processor *)
Definition run (first_of_set : list value -> value)
    (turns : list (option (list row) * bool)) : list event * standing :=
  let '(_, events, e) := handle_user_interaction first_of_set turns init in (events, e).

(** The turns that are played: up to the first "no". *)
Fixpoint played {A : Type} (turns : list (A * bool)) : list (A * bool) :=
  match turns with
  | [] => []
  | (x, response) :: rest => (x, response) :: (if response then played rest else [])
  end.

(** What one dataset alone gives: the boxes of its load on a new processor,
    then its histogram. *)
Definition dataset_events (first_of_set : list value -> value)
    (selection : option (list row)) : list event :=
  let '(p, shown) := load_csv_file first_of_set selection init in
  (Shown <$> shown) ++ default [] (show_histogram p).

End Session.

(** ** Prompts and the loop of [main] ([template_cw_a_b_c.py]) *)

Module Text.

(** [str.isspace] on a character *)
Definition is_str_space (c : ascii) : bool :=
  let n := Z.of_N (N_of_ascii c) in
  ((9 <=? n) && (n <=? 13)) || ((28 <=? n) && (n <=? 32)) || (n =? 133) || (n =? 160).

Fixpoint lstrip (s : string) : string :=
  match s with
  | EmptyString => EmptyString
  | String c rest => if is_str_space c then lstrip rest else s
  end.

(** [s.rstrip()]: the text up to its last character that is no space. *)
Fixpoint rstrip (s : string) : string :=
  match s with
  | EmptyString => EmptyString
  | String c rest =>
      match rstrip rest with
      | EmptyString => if is_str_space c then EmptyString else String c EmptyString
      | kept => String c kept
      end
  end.

(** [s.strip()] *)
Definition strip (s : string) : string := rstrip (lstrip s).

(** [c.upper()], as code points: three characters below 256 have an upper
    case outside that range or of two letters. *)
Definition upper_char (c : ascii) : list Z :=
  let n := Z.of_N (N_of_ascii c) in
  if (97 <=? n) && (n <=? 122) then [n - 32]
  else if n =? 181 then [924]
  else if n =? 223 then [83; 83]
  else if (224 <=? n) && (n <=? 254) && negb (n =? 247) then [n - 32]
  else if n =? 255 then [376]
  else [n].

(** [s.upper()], as code points *)
Fixpoint upper (s : string) : list Z :=
  match s with
  | EmptyString => []
  | String c rest => upper_char c ++ upper rest
  end.

(** [f"{n:02d}"]: zero-padded to two characters, the sign included. *)
Definition format_02d (n : Z) : result string :=
  let digits := decimal (Z.abs n) in
  if too_many_digits digits
  then Raise (ValueError digits_limit_message)
  else Ok (if n <? 0 then String "-" digits
           else if (String.length digits <? 2)%nat then String "0" digits
           else digits).

End Text.

Module Main.

Import Analysis Text.

(** What [main] writes to the terminal: the prompt of an [input], a line
    printed, and what the [try] statement of a turn reports. *)
Inductive output : Type :=
| Prompt (text : string)
| Line (text : string)
| Report (r : report).

(** How a prompt ends: with an answer, what was written and the lines not
    yet read; at the end of the input ([EOFError]); or with an exception that
    its [except] clause does not catch. *)
Inductive answer (A : Type) : Type :=
| Answer (a : A) (written : list output) (rest : list string)
| EndOfInput (written : list output)
| Uncaught (e : exn) (written : list output).

Arguments Answer {A} a written rest.
Arguments EndOfInput {A} written.
Arguments Uncaught {A} e written.

(** The same answer after [before] was written. *)
Definition after {A : Type} (before : list output) (a : answer A) : answer A :=
  match a with
  | Answer x written rest => Answer x (before ++ written) rest
  | EndOfInput written => EndOfInput (before ++ written)
  | Uncaught e written => Uncaught e (before ++ written)
  end.

(** The loop shared by [validate_day_input], [validate_month_input] and
    [validate_year_input], over the lines typed: [int(input(prompt))], the
    range test, and the [except ValueError] clause. *)
Fixpoint validate_int_input (prompt out_of_range : string) (lo hi : Z)
    (inputs : list string) : answer Z :=
  match inputs with
  | [] => EndOfInput [Prompt prompt]
  | typed :: rest =>
      match int_of_str typed with
      | Ok n =>
          if (lo <=? n) && (n <=? hi) then Answer n [Prompt prompt] rest
          else after [Prompt prompt; Line out_of_range]
                 (validate_int_input prompt out_of_range lo hi rest)
      | Raise e =>
          if is_ValueError e
          then after [Prompt prompt; Line "Integer required"]
                 (validate_int_input prompt out_of_range lo hi rest)
          else Uncaught e [Prompt prompt]
      end
  end.

Definition validate_day_input : list string -> answer Z :=
  validate_int_input "Please enter the day of the survey in the format dd: "
    "Out of range - values must be in the range 1 and 31." 1 31.

Definition validate_month_input : list string -> answer Z :=
  validate_int_input "Please enter the month of the survey in the format MM: "
    "Out of range - values must be in the range 1 to 12." 1 12.

Definition validate_year_input : list string -> answer Z :=
  validate_int_input "Please enter the year of the survey in the format YYYY: "
    "Out of range - values must range from 2000 and 2024." 2000 2024.

Definition continue_prompt : string :=
  "Do you want to analyze another dataset? (Y/N): ".

(** [validate_continue_input]: the answer is ["Y"] or ["N"]. *)
Fixpoint validate_continue_input (inputs : list string) : answer string :=
  match inputs with
  | [] => EndOfInput [Prompt continue_prompt]
  | typed :: rest =>
      let continue_input := upper (strip typed) in
      if decide (continue_input = [89]) then Answer "Y" [Prompt continue_prompt] rest
      else if decide (continue_input = [78]) then Answer "N" [Prompt continue_prompt] rest
      else after [Prompt continue_prompt;
                  Line "Invalid input. Please enter 'Y' or 'N'."]
             (validate_continue_input rest)
  end.

(** [f"traffic_data{day:02d}{month:02d}{year}.csv"] *)
Definition date_input (day month year : Z) : result string :=
  let* d := format_02d day in
  let* m := format_02d month in
  let* y := str_of_int year in
  Ok ("traffic_data" ++ d ++ m ++ y ++ ".csv")%string.

(** How [main] ends on the lines typed: after an "N", at the end of the
    input, or with an exception. *)
Inductive ending : Type :=
| Exited
| InputEnded
| Failed (e : exn)
| OutOfTurns.

(** One turn of the loop of [main]: what it writes, and the lines left for
    the next turn or how the program ends. *)
Definition main_turn (fs : files) (inputs : list string)
    : list output * (list string + ending) :=
  match validate_day_input inputs with
  | EndOfInput w => (w, inr InputEnded)
  | Uncaught e w => (w, inr (Failed e))
  | Answer day w1 rest1 =>
      match validate_month_input rest1 with
      | EndOfInput w => (w1 ++ w, inr InputEnded)
      | Uncaught e w => (w1 ++ w, inr (Failed e))
      | Answer month w2 rest2 =>
          match validate_year_input rest2 with
          | EndOfInput w => (w1 ++ w2 ++ w, inr InputEnded)
          | Uncaught e w => (w1 ++ w2 ++ w, inr (Failed e))
          | Answer year w3 rest3 =>
              match date_input day month year with
              | Raise e => (w1 ++ w2 ++ w3, inr (Failed e))
              | Ok name =>
                  let w4 := [Line ("Valid date input: " ++ name)%string;
                             Report (main_pass fs name)] in
                  match validate_continue_input rest3 with
                  | EndOfInput w => (w1 ++ w2 ++ w3 ++ w4 ++ w, inr InputEnded)
                  | Uncaught e w => (w1 ++ w2 ++ w3 ++ w4 ++ w, inr (Failed e))
                  | Answer c w5 rest4 =>
                      if String.eqb c "N"
                      then (w1 ++ w2 ++ w3 ++ w4 ++ w5 ++ [Line "Exiting the program."],
                            inr Exited)
                      else (w1 ++ w2 ++ w3 ++ w4 ++ w5, inl rest4)
                  end
              end
          end
      end
  end.

(** The loop of [main], for at most [turns] turns. *)
Fixpoint main_loop (turns : nat) (fs : files) (inputs : list string)
    : list output * ending :=
  match turns with
  | O => ([], OutOfTurns)
  | S turns' =>
      match main_turn fs inputs with
      | (w, inr e) => (w, e)
      | (w, inl rest) =>
          let '(later, e) := main_loop turns' fs rest in (w ++ later, e)
      end
  end.

(** [main] on the lines typed: a turn reads at least one line, so there are
    no more turns than lines, and one more to meet the end of the input. *)
Definition main (fs : files) (inputs : list string) : list output * ending :=
  main_loop (S (length inputs)) fs inputs.

(** The results that the turns have printed (and saved, unless an exception
    has interrupted that), in order. *)
Definition displayed (written : list output) : list results :=
  omap (fun o => match o with
                 | Report (Displayed r) => Some r
                 | Report (Unsaved r _) => Some r
                 | _ => None
                 end) written.

End Main.

(** ** Notions for the statements about the prompts *)

Module MainSpec.

Import Text Main.

(** The line typed denotes an integer between [lo] and [hi]. *)
Definition in_range (lo hi : Z) (typed : string) : bool :=
  match parse_int typed with
  | Some n => (lo <=? n) && (n <=? hi)
  | None => false
  end.

(** The message that answers a line that is not accepted. *)
Definition rejection (out_of_range typed : string) : string :=
  match parse_int typed with
  | Some _ => out_of_range
  | None => "Integer required"
  end.

(** What is written while the lines [rejected] are read: for each the
    prompt and the message that answers it. *)
Definition asked (prompt : string) (message : string -> string)
    (rejected : list string) : list output :=
  concat ((fun typed => [Prompt prompt; Line (message typed)]) <$> rejected).

(** [validate] returns the number of the first line typed that denotes
    an integer between [lo] and [hi], having answered each line before it
    with a message; without such a line it meets the end of the input; no
    exception leaves it. *)
Definition validates (prompt out_of_range : string) (lo hi : Z)
    (validate : list string -> answer Z) : Prop :=
  forall inputs,
    match validate inputs with
    | Answer n written rest =>
        exists rejected typed,
          inputs = rejected ++ typed :: rest /\
          Forall (fun s => in_range lo hi s = false) rejected /\
          parse_int typed = Some n /\ lo <= n <= hi /\
          written = asked prompt (rejection out_of_range) rejected ++ [Prompt prompt]
    | EndOfInput written =>
        Forall (fun s => in_range lo hi s = false) inputs /\
        written = asked prompt (rejection out_of_range) inputs ++ [Prompt prompt]
    | Uncaught _ _ => False
    end.

(** The two digits of a number below 100, and the four digits of a year,
    read back as the number. *)
Definition two_digits_ok (n : Z) : bool :=
  match format_02d n with
  | Ok (String a (String b EmptyString)) =>
      bool_decide (parse_int (String a (String b EmptyString)) = Some n)
  | _ => false
  end.

Definition four_digits_ok (n : Z) : bool :=
  match str_of_int n with
  | Ok (String a (String b (String c (String d EmptyString)))) =>
      bool_decide (parse_int (String a (String b (String c (String d EmptyString)))) = Some n)
  | _ => false
  end.

(** The answer that a line gives to the question "another dataset?": the
    line without the spaces around it is one of the four letters. *)
Definition yes_or_no (typed : string) : option string :=
  if bool_decide (strip typed = "y" \/ strip typed = "Y") then Some "Y"
  else if bool_decide (strip typed = "n" \/ strip typed = "N") then Some "N"
  else None.

(** The dates that [main] can ask for. *)
Definition valid_date (day month year : Z) : Prop :=
  1 <= day <= 31 /\ 1 <= month <= 12 /\ 2000 <= year <= 2024.

(** The result comes from the file of a valid date. *)
Definition analysed_from (fs : Analysis.files) (r : Analysis.results) : Prop :=
  exists day month year name data,
    valid_date day month year /\
    date_input day month year = Ok name /\
    Analysis.contents fs name = Analysis.Rows data /\
    Analysis.analyze_data data name = Ok r.

(** What a program writes when it stops: the exit line after an "N", a
    prompt at the end of the input. *)
Definition stops (w : list output) (e : ending) : Prop :=
  (e = Exited /\ last w = Some (Line "Exiting the program.")) \/
  (e = InputEnded /\ exists p, last w = Some (Prompt p)).

(** The files of two dates, one with one row and one with none, for the
    examples; appending to [results.txt] succeeds. *)
Definition two_files : Analysis.files :=
  {| Analysis.contents :=
       fun name =>
         if String.eqb name "traffic_data21062024.csv"
         then Analysis.Rows
                [GroupingSpec.sighting "21/06/2024" "08:15:00" "Hanley Highway/Westway"]
         else if String.eqb name "traffic_data01012000.csv" then Analysis.Rows []
         else Analysis.Missing;
     Analysis.appending := fun _ => None |}.

End MainSpec.

(** * Properties *)

(** ** The runtime: exceptions and floats *)

Module PyFacts.

Lemma bind_Ok {A B : Type} (c : result A) (k : A -> result B) (b : B) :
  bind c k = Ok b -> exists a, c = Ok a /\ k a = Ok b.
Proof. destruct c as [a|e]; simpl; [eauto | discriminate]. Qed.

Lemma bind_Raise {A B : Type} (c : result A) (k : A -> result B) (e : exn) :
  bind c k = Raise e -> c = Raise e \/ exists a, c = Ok a /\ k a = Raise e.
Proof. destruct c as [a|e']; simpl; [eauto | left; congruence]. Qed.

Lemma len_nonneg {A : Type} (l : list A) : 0 <= len l.
Proof. unfold len. lia. Qed.

Lemma len_cons {A : Type} (x : A) (l : list A) : len (x :: l) = len l + 1.
Proof. unfold len. simpl. lia. Qed.

Lemma len_app {A : Type} (l k : list A) : len (l ++ k) = len l + len k.
Proof. unfold len. rewrite length_app. lia. Qed.

(** Rounding a quotient that is at most the integer [K] gives at most [K]. *)
Lemma rne_div_le (n d K : Z) : 0 < d -> n <= K * d -> rne_div n d <= K.
Proof.
  intros Hd Hn. unfold rne_div.
  assert (Hq : n / d <= K) by (apply Z.div_le_upper_bound; lia).
  pose proof (Z.mod_pos_bound n d Hd) as Hr.
  pose proof (Z.div_mod n d ltac:(lia)) as Hdm.
  destruct (Z.compare_spec (2 * (n mod d)) d) as [Heq|Hlt|Hgt]; [| lia |].
  - destruct (Z.even (n / d)); [lia |].
    destruct (Z.eq_dec (n / d) K) as [HK|]; [rewrite HK in Hdm; lia | lia].
  - destruct (Z.eq_dec (n / d) K) as [HK|]; [rewrite HK in Hdm; lia | lia].
Qed.

Lemma rne_div_nonneg (n d : Z) : 0 <= n -> 0 < d -> 0 <= rne_div n d.
Proof.
  intros Hn Hd. unfold rne_div.
  assert (0 <= n / d) by (apply Z.div_pos; lia).
  destruct (2 * (n mod d) ?= d); [destruct (Z.even (n / d)) | |]; lia.
Qed.

Lemma ilog2_ratio_le (n d : Z) : ilog2_ratio n d <= Z.log2 n - Z.log2 d.
Proof. unfold ilog2_ratio. destruct (scaled_le _ _ _); lia. Qed.

(** A result whose unit in the last place is below [2^971] is in range. *)
Lemma overflows_small (m e : Z) : e < 971 -> overflows m e = false.
Proof.
  intros He. unfold overflows.
  destruct (Z.ltb_spec 971 e); [lia |].
  destruct (Z.eqb_spec e 971); [lia | reflexivity].
Qed.

(** Rounding [n / d <= C] for an integer [C < 2^51]: the exponent stays
    negative, so the rounded value is still at most [C]. *)
Lemma round_binary64_le (n d C : Z) :
  0 < n -> 0 < d -> n <= C * d -> C < 2 ^ 51 ->
  exists m e, round_binary64 n d = (m, e) /\ e < 0 /\ 0 <= m <= C * 2 ^ (- e).
Proof.
  intros Hn Hd Hle HC.
  assert (HCpos : 0 < C) by nia.
  assert (Hlog : Z.log2 n - Z.log2 d <= 51).
  { assert (Z.log2 n <= Z.log2 (C * d)) by (apply Z.log2_le_mono; lia).
    pose proof (Z.log2_mul_above C d ltac:(lia) ltac:(lia)).
    assert (Z.log2 C < 51) by (apply Z.log2_lt_pow2; lia).
    lia. }
  pose proof (ilog2_ratio_le n d) as Hil.
  unfold round_binary64.
  set (e := Z.max (ilog2_ratio n d - 52) (-1074)).
  assert (He : e < 0) by lia.
  destruct (Z.leb_spec 0 e); [lia |].
  assert (0 < 2 ^ (- e)) by (apply Z.pow_pos_nonneg; lia).
  eexists _, e. split; [reflexivity |]. split; [exact He |]. split.
  - apply rne_div_nonneg; nia.
  - apply rne_div_le; nia.
Qed.

(** [a / b] for counts [0 <= a <= b] never raises and is at most [1.0]. *)
Lemma true_div_fraction (a b : Z) :
  0 <= a <= b -> b <> 0 ->
  exists m e, true_div a b = Ok (Finite false m e) /\ e <= 0 /\ 0 <= m <= 2 ^ (- e).
Proof.
  intros Hab Hb. unfold true_div.
  destruct (Z.eqb_spec b 0); [lia |].
  replace (a <? 0) with false by (symmetry; apply Z.ltb_ge; lia).
  replace (b <? 0) with false by (symmetry; apply Z.ltb_ge; lia).
  cbv zeta. change (xorb false false) with false. destruct (Z.eqb_spec a 0).
  - exists 0, 0. simpl. repeat split; lia.
  - rewrite !Z.abs_eq by lia.
    destruct (round_binary64_le a b 1) as (m & e & Hr & He & Hm); try lia.
    rewrite Hr, overflows_small by lia.
    exists m, e. repeat split; lia.
Qed.

Lemma float_of_int_100 : float_of_int 100 = Ok (Finite false 7036874417766400 (-46)).
Proof. reflexivity. Qed.

(** [x * 100] for a double [0 <= x <= 1.0] is a double in [0, 100]. *)
Lemma float_mul_100 (m e : Z) :
  e <= 0 -> 0 <= m <= 2 ^ (- e) ->
  exists m' e', float_mul (Finite false m e) (Finite false 7036874417766400 (-46))
                = Finite false m' e' /\ e' <= 0 /\ 0 <= m' <= 100 * 2 ^ (- e').
Proof.
  intros He Hm. unfold float_mul. simpl xorb.
  destruct (Z.eqb_spec (m * 7036874417766400) 0) as [Hz|Hnz].
  - exists 0, 0. simpl. repeat split; lia.
  - destruct (Z.leb_spec 0 (e + -46)); [lia |].
    assert (Hp : 0 < 2 ^ (- e)) by (apply Z.pow_pos_nonneg; lia).
    assert (Hsplit : 2 ^ (- (e + -46)) = 2 ^ (- e) * 2 ^ 46).
    { rewrite <- Z.pow_add_r by lia. f_equal. lia. }
    assert (Hd : 0 < 2 ^ (- (e + -46))) by (apply Z.pow_pos_nonneg; lia).
    assert (Hle : m * 7036874417766400 <= 100 * 2 ^ (- (e + -46))).
    { rewrite Hsplit. change (2 ^ 46) with 70368744177664.
      set (x := 2 ^ (- e)) in *. lia. }
    assert (HC : 100 < 2 ^ 51) by reflexivity.
    assert (Hn : 0 < m * 7036874417766400) by lia.
    destruct (round_binary64_le _ _ 100 Hn Hd Hle HC)
      as (m' & e' & Hr & He' & Hm').
    rewrite Hr, overflows_small by lia.
    exists m', e'. repeat split; lia.
Qed.

(** [round] of a finite double in [0, C] is an int in [0, C]. *)
Lemma round_bounded (m e C : Z) :
  e <= 0 -> 0 <= m <= C * 2 ^ (- e) ->
  exists v, round (Finite false m e) = Ok v /\ 0 <= v <= C.
Proof.
  intros He Hm. unfold round.
  assert (0 < 2 ^ (- e)) by (apply Z.pow_pos_nonneg; lia).
  destruct (Z.leb_spec 0 e).
  - assert (e = 0) as -> by lia. simpl in *. exists (m * 1). split; [reflexivity | lia].
  - eexists. split; [reflexivity |]. split.
    + apply rne_div_nonneg; lia.
    + apply rne_div_le; lia.
Qed.

(** [a / b] for [0 <= a < 2^1023] and [b > 0] does not overflow. *)
Lemma true_div_in_range (a b : Z) :
  0 <= a < 2 ^ 1023 -> 0 < b -> exists m e, true_div a b = Ok (Finite false m e).
Proof.
  intros Ha Hb. unfold true_div.
  destruct (Z.eqb_spec b 0); [lia |].
  replace (a <? 0) with false by (symmetry; apply Z.ltb_ge; lia).
  replace (b <? 0) with false by (symmetry; apply Z.ltb_ge; lia).
  cbv zeta. change (xorb false false) with false.
  destruct (Z.eqb_spec a 0); [eauto |].
  rewrite !Z.abs_eq by lia.
  destruct (round_binary64 a b) as [m e] eqn:Hr.
  assert (e < 971); [| rewrite overflows_small by lia; eauto].
  unfold round_binary64 in Hr. injection Hr as _ <-.
  pose proof (ilog2_ratio_le a b).
  assert (Z.log2 a < 1023) by (apply Z.log2_lt_pow2; lia).
  pose proof (Z.log2_nonneg b). lia.
Qed.

(** The division and the product agree with the Standard Library's
    specification of binary64 arithmetic on small counts and on operands
    beyond the range of doubles. *)
Example agrees_on_small_counts :
  for_all_pairs division_agrees (map Z.of_nat (seq 0 31)) (map Z.of_nat (seq 1 30)) = true /\
  for_all_pairs product_agrees (map Z.of_nat (seq 0 31)) (map Z.of_nat (seq 1 30)) = true.
Proof. split; vm_compute; reflexivity. Qed.

Example agrees_on_large_operands :
  for_all_pairs division_agrees
    [2 ^ 53 + 1; 2 ^ 60 + 3; 10 ^ 30; 10 ^ 400; 2 ^ 1074; 3 * 2 ^ 1075;
     2 ^ 1024 - 2 ^ 971; 2 ^ 1024 - 2 ^ 970; 2 ^ 1080 + 1; -7]
    [1; 3; 10; 2 ^ 53 - 1; 2 ^ 1074; 2 ^ 1075 + 1; 10 ^ 340; 2 ^ 1100 + 7; -2] = true /\
  for_all_pairs product_agrees
    [2 ^ 53 + 1; 10 ^ 30; 10 ^ 400; 2 ^ 1074; 2 ^ 1080 + 1]
    [1; 3; 2 ^ 53 - 1; 2 ^ 1075 + 1; 10 ^ 340; 2 ^ 1100 + 7] = true.
Proof. split; vm_compute; reflexivity. Qed.

(** The integer division result too large for a float. *)
Example true_div_overflow :
  true_div (2 ^ 1024 - 2 ^ 971) 1 = Ok (Finite false 9007199254740991 971) /\
  true_div (2 ^ 1024 - 2 ^ 970) 1 = Raise OverflowError.
Proof. split; vm_compute; reflexivity. Qed.

Example int_examples :
  map parse_int [" 42 "; "1_000"; "-7"; "+08"; "08"; "8"]
  = [Some 42; Some 1000; Some (-7); Some 8; Some 8; Some 8] /\
  map parse_int [""; "abc"; "4 2"; "1__0"; "_1"; "1_"; "- 7"; "1.5"; "0x10"]
  = [None; None; None; None; None; None; None; None; None].
Proof. split; reflexivity. Qed.

End PyFacts.

(** ** The aggregator *)

Module AnalysisFacts.

Import PyFacts Analysis AnalysisSpec.

(** Splits a hypothesis [let* x := c in k = Ok r] into its steps. *)
Ltac bind_inv H :=
  let a := fresh "a" in
  let Ha := fresh "Ha" in
  apply bind_Ok in H; destruct H as (a & Ha & H).

Lemma getitem_Ok (r : row) (k : string) (v : value) :
  getitem r k = Ok v <-> r !! k = Some v.
Proof.
  unfold getitem. destruct (r !! k); split; intros H; congruence.
Qed.

Lemma value_eqb_VStr (v : value) (s : string) :
  value_eqb v (VStr s) = bool_decide (v = VStr s).
Proof.
  destruct (decide (v = VStr s)) as [->|Hne].
  - rewrite bool_decide_eq_true_2 by reflexivity. apply String.eqb_refl.
  - rewrite bool_decide_eq_false_2 by assumption.
    destruct v as [|t]; [reflexivity |]. simpl.
    destruct (String.eqb_spec t s); congruence.
Qed.

Lemma field_is_spec (k s : string) (r : row) (b : bool) :
  field_is k s r = Ok b -> b = field_eq k s r.
Proof.
  unfold field_is, field_eq. intros H. bind_inv H.
  apply getitem_Ok in Ha. injection H as <-.
  rewrite value_eqb_VStr, Ha.
  apply bool_decide_ext. split; congruence.
Qed.

Lemma field_is_total (k s : string) (r : row) :
  has_key k r = true -> field_is k s r = Ok (field_eq k s r).
Proof.
  unfold has_key. intros H. apply bool_decide_eq_true in H. destruct H as [v Hv].
  destruct (field_is k s r) as [b|e] eqn:E.
  - f_equal. eapply field_is_spec, E.
  - unfold field_is, getitem in E. rewrite Hv in E. discriminate.
Qed.

(** *** Counting generators *)

Lemma count_cons (p : row -> bool) (r : row) (data : list row) :
  count p (r :: data) = (if p r then 1 else 0) + count p data.
Proof.
  unfold count. simpl. destruct (p r); [rewrite len_cons |]; lia.
Qed.

Lemma count_bounds (p : row -> bool) (data : list row) :
  0 <= count p data <= len data.
Proof.
  induction data as [|r data IH]; [unfold count, len; simpl; lia |].
  rewrite count_cons, len_cons. destruct (p r); lia.
Qed.

Lemma count_le (p q : row -> bool) (data : list row) :
  (forall r, p r = true -> q r = true) -> count p data <= count q data.
Proof.
  intros Hpq. induction data as [|r data IH]; [reflexivity |].
  rewrite !count_cons. specialize (Hpq r).
  destruct (p r), (q r); try lia; specialize (Hpq eq_refl); discriminate.
Qed.

(** A generator that returns counts the rows on which its condition holds. *)
Lemma sum_ones_spec (cond : row -> result bool) (p : row -> bool)
    (data : list row) (acc n : Z) :
  (forall r b, cond r = Ok b -> b = p r) ->
  sum_ones cond data acc = Ok n -> n = acc + count p data.
Proof.
  intros Hp. revert acc. induction data as [|r data IH]; intros acc H; simpl in H.
  - injection H as <-. unfold count, len. simpl. lia.
  - bind_inv H. apply IH in H. rewrite count_cons, <- (Hp _ _ Ha).
    destruct a; lia.
Qed.

(** It returns when its condition raises on no row. *)
Lemma sum_ones_total (cond : row -> result bool) (p : row -> bool)
    (data : list row) (acc : Z) :
  Forall (fun r => cond r = Ok (p r)) data ->
  sum_ones cond data acc = Ok (acc + count p data).
Proof.
  intros H. revert acc. induction H as [|r data Hr _ IH]; intros acc; simpl.
  - unfold count, len. simpl. f_equal. lia.
  - rewrite Hr. simpl. rewrite IH, count_cons. f_equal. destruct (p r); lia.
Qed.

(** It raises what its condition raises on the first row where it does. *)
Lemma sum_ones_raise (cond : row -> result bool) (pre post : list row)
    (r : row) (e : exn) (acc : Z) :
  Forall (fun r => exists b, cond r = Ok b) pre ->
  cond r = Raise e -> sum_ones cond (pre ++ r :: post) acc = Raise e.
Proof.
  intros Hpre Hr. revert acc.
  induction Hpre as [|x pre [b Hx] _ IH]; intros acc; simpl.
  - rewrite Hr. reflexivity.
  - rewrite Hx. simpl. apply IH.
Qed.

Lemma select_spec (cond : row -> result bool) (p : row -> bool)
    (data kept : list row) :
  (forall r b, cond r = Ok b -> b = p r) ->
  select cond data = Ok kept -> kept = List.filter p data.
Proof.
  intros Hp. revert kept. induction data as [|r data IH]; intros kept H; simpl in H.
  - injection H as <-. reflexivity.
  - bind_inv H. bind_inv H. injection H as <-. simpl.
    rewrite <- (Hp _ _ Ha), (IH _ Ha0). reflexivity.
Qed.

Lemma select_total (cond : row -> result bool) (p : row -> bool) (data : list row) :
  Forall (fun r => cond r = Ok (p r)) data ->
  select cond data = Ok (List.filter p data).
Proof.
  induction 1 as [|r data Hr _ IH]; simpl; [reflexivity |].
  rewrite Hr. simpl. rewrite IH. reflexivity.
Qed.

End AnalysisFacts.

(** ** Hour counters *)

Module CounterFacts.

Import PyFacts Analysis AnalysisSpec AnalysisFacts.

Lemma sum_from (l : list Z) (acc : Z) : fold_left Z.add l acc = acc + sum l.
Proof.
  unfold sum. revert acc. induction l as [|x l IH]; intros acc; [simpl; lia |].
  cbn [fold_left]. rewrite (IH (acc + x)), (IH (0 + x)). lia.
Qed.

Lemma sum_cons (x : Z) (l : list Z) : sum (x :: l) = x + sum l.
Proof. unfold sum at 1. simpl. rewrite sum_from. lia. Qed.

Lemma sum_app (l k : list Z) : sum (l ++ k) = sum l + sum k.
Proof.
  induction l as [|x l IH]; simpl; [reflexivity |]. rewrite !sum_cons. lia.
Qed.

Lemma sum_Permutation (l k : list Z) : Permutation l k -> sum l = sum k.
Proof.
  induction 1 as [|x l k _ IH|x y l|l k m _ IH1 _ IH2];
    rewrite ?sum_cons; lia.
Qed.

Lemma lookup_incr (h k : string) (d : counter) :
  lookup h (incr k d) = lookup h d + (if String.eqb k h then 1 else 0).
Proof.
  induction d as [|[k' n] d IH]; simpl.
  - destruct (String.eqb k h); lia.
  - destruct (String.eqb_spec k' k) as [->|Hne]; simpl.
    + destruct (String.eqb k h); lia.
    + destruct (String.eqb_spec k' h) as [->|Hne'].
      * destruct (String.eqb_spec k h); [congruence | lia].
      * exact IH.
Qed.

Lemma keys_incr (k : string) (d : counter) :
  map fst (incr k d) = if decide (k ∈ map fst d) then map fst d else map fst d ++ [k].
Proof.
  induction d as [|[k' n] d IH]; simpl.
  - destruct (decide (k ∈ [])) as [H|_]; [inversion H | reflexivity].
  - destruct (String.eqb_spec k' k) as [->|Hne]; simpl.
    + destruct (decide (k ∈ k :: map fst d)) as [_|H]; [reflexivity |].
      exfalso. apply H. left.
    + rewrite IH. destruct (decide (k ∈ map fst d)) as [Hin|Hout].
      * destruct (decide (k ∈ k' :: map fst d)) as [_|H]; [reflexivity |].
        exfalso. apply H. right. exact Hin.
      * destruct (decide (k ∈ k' :: map fst d)) as [H|_]; [| reflexivity].
        apply elem_of_cons in H as [->|H]; [congruence | contradiction].
Qed.

Lemma sum_values_incr (k : string) (d : counter) :
  sum (values (incr k d)) = sum (values d) + 1.
Proof.
  unfold values. induction d as [|[k' n] d IH]; simpl.
  - reflexivity.
  - destruct (String.eqb k' k); simpl; rewrite !sum_cons; simpl; lia.
Qed.

Lemma counter_ok_nil : counter_ok [].
Proof. split; constructor. Qed.

Lemma counter_ok_incr (k : string) (d : counter) :
  counter_ok d -> counter_ok (incr k d).
Proof.
  intros [Hnd Hpos]. split.
  - rewrite keys_incr. destruct (decide (k ∈ map fst d)) as [|Hout]; [exact Hnd |].
    apply NoDup_app. split; [exact Hnd |]. split.
    + intros x Hx Hk. apply list_elem_of_singleton in Hk as ->. contradiction.
    + apply NoDup_singleton.
  - clear Hnd. induction Hpos as [|[k' n] d Hn Hd IH]; simpl.
    + constructor; [simpl; lia | constructor].
    + destruct (String.eqb k' k); constructor; simpl in *; try lia; assumption.
Qed.

(** A key is bound to its [lookup]. *)
Lemma lookup_elem_of (h : string) (n : Z) (d : counter) :
  NoDup (map fst d) -> (h, n) ∈ d -> lookup h d = n.
Proof.
  induction d as [|[k m] d IH]; simpl; intros Hnd Hin; [inversion Hin |].
  apply NoDup_cons in Hnd as [Hk Hnd].
  apply elem_of_cons in Hin as [Heq|Hin].
  - injection Heq as <- <-. rewrite String.eqb_refl. reflexivity.
  - destruct (String.eqb_spec k h) as [->|_]; [| auto].
    exfalso. apply Hk. apply list_elem_of_fmap. exists (h, n). auto.
Qed.

Lemma elem_of_lookup (h : string) (d : counter) :
  lookup h d <> 0 -> (h, lookup h d) ∈ d.
Proof.
  induction d as [|[k m] d IH]; simpl; intros Hne; [congruence |].
  destruct (String.eqb_spec k h) as [->|_]; [left | right; auto].
Qed.

Lemma lookup_nonneg (h : string) (d : counter) :
  Forall (fun kv => 0 < snd kv) d -> 0 <= lookup h d.
Proof.
  induction 1 as [|[k m] d Hm _ IH]; simpl; [lia |].
  destruct (String.eqb k h); simpl in *; lia.
Qed.

(** *** The counting loops *)

Lemma count_hour_spec (r : row) (d : counter) :
  count_hour r d = match time_prefix r with
                   | Some h => incr h d
                   | None => d
                   end.
Proof.
  unfold count_hour, time_prefix, get.
  destruct (r !! "timeOfDay") as [[|[|c s]]|]; reflexivity.
Qed.

Lemma fill_cons (b : row -> option string) (r : row) (data : list row) (d : counter) :
  fill b (r :: data) d
  = fill b data (match b r with Some h => incr h d | None => d end).
Proof. reflexivity. Qed.

Lemma bicycle_count_per_hour_fill (data : list row) :
  bicycle_count_per_hour (List.filter (field_eq "VehicleType" "Bicycle") data)
  = fill bicycle_hour data [].
Proof.
  unfold bicycle_count_per_hour. generalize (@nil (string * Z)) as d.
  induction data as [|r data IH]; intros d; [reflexivity |].
  rewrite fill_cons. unfold bicycle_hour at 2. simpl.
  destruct (field_eq "VehicleType" "Bicycle" r); simpl; [| apply IH].
  rewrite count_hour_spec. apply IH.
Qed.

Lemma hanley_loop_spec (data : list row) (d d' : counter) :
  hanley_loop data d = Ok d' -> d' = fill hanley_hour data d.
Proof.
  revert d. induction data as [|r data IH]; intros d H; simpl in H.
  - injection H as <-. reflexivity.
  - bind_inv H. apply field_is_spec in Ha. apply IH in H. subst d' a.
    rewrite fill_cons. f_equal. unfold hanley_hour.
    destruct (field_eq _ _ r); [apply count_hour_spec | reflexivity].
Qed.

Lemma hanley_loop_total (data : list row) (d : counter) :
  Forall (fun r => has_key "JunctionName" r = true) data ->
  hanley_loop data d = Ok (fill hanley_hour data d).
Proof.
  intros H. revert d. induction H as [|r data Hr _ IH]; intros d; [reflexivity |].
  cbn [hanley_loop]. rewrite (field_is_total _ _ _ Hr). cbn [bind].
  rewrite IH, fill_cons. do 2 f_equal. unfold hanley_hour.
  destruct (field_eq _ _ r); [apply count_hour_spec | reflexivity].
Qed.

Lemma bucket_count_cons (b : row -> option string) (h : string) (r : row)
    (data : list row) :
  bucket_count b h (r :: data)
  = (if bool_decide (b r = Some h) then 1 else 0) + bucket_count b h data.
Proof. unfold bucket_count. apply count_cons. Qed.

(** After the loop, the count of [h] has grown by the number of rows whose
    bucket is [h]. *)
Lemma lookup_fill (b : row -> option string) (h : string) (data : list row)
    (d : counter) :
  lookup h (fill b data d) = lookup h d + bucket_count b h data.
Proof.
  revert d. induction data as [|r data IH]; intros d.
  - unfold bucket_count, count, len. simpl. lia.
  - rewrite fill_cons, IH, bucket_count_cons. destruct (b r) as [k|].
    + rewrite lookup_incr. destruct (String.eqb_spec k h) as [->|Hne].
      * rewrite bool_decide_eq_true_2 by reflexivity. lia.
      * rewrite bool_decide_eq_false_2 by congruence. lia.
    + rewrite bool_decide_eq_false_2 by discriminate. lia.
Qed.

Lemma counter_ok_fill (b : row -> option string) (data : list row) (d : counter) :
  counter_ok d -> counter_ok (fill b data d).
Proof.
  revert d. induction data as [|r data IH]; intros d Hd; [exact Hd |].
  rewrite fill_cons. apply IH. destruct (b r); [apply counter_ok_incr |]; exact Hd.
Qed.

Lemma sum_values_fill (b : row -> option string) (data : list row) (d : counter) :
  sum (values (fill b data d))
  = sum (values d) + count (fun r => bool_decide (is_Some (b r))) data.
Proof.
  revert d. induction data as [|r data IH]; intros d.
  - unfold count, len. simpl. lia.
  - rewrite fill_cons, IH, count_cons. destruct (b r) as [k|].
    + rewrite sum_values_incr, bool_decide_eq_true_2 by eauto. lia.
    + rewrite bool_decide_eq_false_2 by (intros [? ?]; discriminate). lia.
Qed.

(** The keys after the loop: the old ones and the buckets of the rows. *)
Lemma keys_fill (b : row -> option string) (h : string) (data : list row)
    (d : counter) :
  h ∈ map fst (fill b data d) <-> h ∈ map fst d \/ h ∈ omap b data.
Proof.
  revert d. induction data as [|r data IH]; intros d.
  - simpl. split; [auto | intros [H|H]; [exact H | inversion H]].
  - rewrite fill_cons, IH. simpl. destruct (b r) as [k|].
    + rewrite keys_incr, elem_of_cons.
      destruct (decide (k ∈ map fst d)) as [Hin|_].
      * split; [tauto |]. intros [H|[->|H]]; auto.
      * rewrite elem_of_app, list_elem_of_singleton. tauto.
    + reflexivity.
Qed.

End CounterFacts.

(** ** [analyze_data] step by step *)

Module AnalyzeFacts.

Import PyFacts Analysis AnalysisSpec AnalysisFacts CounterFacts.

Lemma value_eqb_decide (v w : value) : value_eqb v w = bool_decide (v = w).
Proof.
  destruct w as [|s]; [| apply value_eqb_VStr].
  destruct v; reflexivity.
Qed.

Lemma has_key_getitem (k : string) (r : row) :
  has_key k r = true -> exists v, r !! k = Some v /\ getitem r k = Ok v.
Proof.
  unfold has_key, getitem. intros H. apply bool_decide_eq_true in H as [v Hv].
  exists v. rewrite Hv. auto.
Qed.

Lemma int_Ok (v : value) (n : Z) :
  int v = Ok n <-> exists s, v = VStr s /\ parse_int s = Some n.
Proof.
  destruct v as [|s]; simpl.
  - split; [discriminate | intros (s & H & _); discriminate].
  - unfold int_of_str. destruct (parse_int s) as [m|] eqn:E.
    + split; [intros [= <-]; eauto | intros (t & [= <-] & H); congruence].
    + split; [discriminate | intros (t & [= <-] & H); congruence].
Qed.

Lemma bool_decide_Some (v w : value) :
  bool_decide (Some v = Some w) = bool_decide (v = w).
Proof. apply bool_decide_ext. split; congruence. Qed.

(** *** What each condition computes *)

Lemma is_two_wheeled_spec (r : row) (b : bool) :
  is_two_wheeled r = Ok b -> b = two_wheeled r.
Proof.
  unfold is_two_wheeled, two_wheeled, field_eq. intros H. bind_inv H.
  apply getitem_Ok in Ha. injection H as <-. rewrite Ha. simpl.
  rewrite !value_eqb_VStr, !bool_decide_Some.
  repeat destruct (bool_decide _); reflexivity.
Qed.

Lemma is_elm_bus_north_spec (r : row) (b : bool) :
  is_elm_bus_north r = Ok b -> b = elm_bus_north r.
Proof.
  unfold is_elm_bus_north, elm_bus_north. intros H. bind_inv H.
  apply field_is_spec in Ha. rewrite <- Ha. destruct a; simpl; [| congruence].
  bind_inv H. apply field_is_spec in Ha0. rewrite <- Ha0.
  destruct a; simpl; [| congruence].
  apply field_is_spec in H. exact H.
Qed.

Lemma is_elm_scooter_spec (r : row) (b : bool) :
  is_elm_scooter r = Ok b -> b = elm_scooter r.
Proof.
  unfold is_elm_scooter, elm_scooter. intros H. bind_inv H.
  apply field_is_spec in Ha. rewrite <- Ha. destruct a; simpl; [| congruence].
  apply field_is_spec in H. exact H.
Qed.

Lemma is_no_turn_spec (r : row) (b : bool) :
  is_no_turn r = Ok b -> b = no_turn r.
Proof.
  unfold is_no_turn, no_turn. intros H. bind_inv H. bind_inv H.
  apply getitem_Ok in Ha, Ha0. injection H as <-. rewrite Ha, Ha0.
  apply value_eqb_decide.
Qed.

Lemma is_over_speed_spec (r : row) (b : bool) :
  is_over_speed r = Ok b -> b = speeding r /\ speeds_are_numeric r = true.
Proof.
  unfold is_over_speed, speeding, speeds_are_numeric, numeric_field, int_field.
  intros H. do 4 bind_inv H.
  apply getitem_Ok in Ha, Ha1. injection H as <-.
  apply int_Ok in Ha0 as (s & -> & Hs), Ha2 as (l & -> & Hl).
  rewrite Ha, Ha1, Hs, Hl. split; [reflexivity |].
  rewrite !bool_decide_eq_true_2 by eauto. reflexivity.
Qed.

Lemma is_over_speed_numeric (r : row) :
  speeds_are_numeric r = true -> is_over_speed r = Ok (speeding r).
Proof.
  unfold speeds_are_numeric, numeric_field, is_over_speed, speeding, int_field, getitem.
  intros H. apply andb_true_iff in H as [Hs Hl].
  apply bool_decide_eq_true in Hs as [speed Hs], Hl as [limit Hl].
  destruct (r !! "VehicleSpeed") as [[|s]|]; try discriminate.
  destruct (r !! "JunctionSpeedLimit") as [[|l]|]; try discriminate.
  simpl. unfold int_of_str. rewrite Hs, Hl. reflexivity.
Qed.

(** With both speed fields strings, the comparison either returns or raises
    the [ValueError] of [int] on the first of the two that is no number. *)
Lemma is_over_speed_strings (r : row) :
  speeds_are_strings r = true ->
  if speeds_are_numeric r then is_over_speed r = Ok (speeding r)
  else exists s, is_over_speed r = Raise (InvalidLiteral s) /\ parse_int s = None.
Proof.
  intros Hstr. destruct (speeds_are_numeric r) eqn:Hnum.
  - apply is_over_speed_numeric, Hnum.
  - revert Hstr Hnum.
    unfold speeds_are_strings, speeds_are_numeric, numeric_field, string_field,
      is_over_speed, int_field, getitem.
    destruct (r !! "VehicleSpeed") as [[|s]|]; try discriminate.
    destruct (r !! "JunctionSpeedLimit") as [[|l]|]; try discriminate.
    intros _ Hnum. cbn [bind int]. unfold int_of_str.
    destruct (parse_int s) as [speed|] eqn:Es; cbn [bind]; [| eauto].
    destruct (parse_int l) as [limit|] eqn:El; cbn [bind]; [| eauto].
    exfalso. apply andb_false_iff in Hnum.
    destruct Hnum as [Hn|Hn]; apply bool_decide_eq_false in Hn; apply Hn; eauto.
Qed.

(** *** The conditions on a complete row *)

Lemma complete_categories (r : row) : complete r = true -> has_categories r = true.
Proof. unfold complete. intros H. apply andb_true_iff in H. tauto. Qed.

Lemma has_categories_keys (r : row) :
  has_categories r = true ->
  has_key "VehicleType" r = true /\ has_key "elctricHybrid" r = true /\
  has_key "JunctionName" r = true /\ has_key "travel_Direction_in" r = true /\
  has_key "travel_Direction_out" r = true.
Proof.
  unfold has_categories. rewrite !andb_true_iff. tauto.
Qed.

Lemma field_is_categories (k s : string) (r : row) :
  In k ["VehicleType"; "elctricHybrid"; "JunctionName"] ->
  has_categories r = true -> field_is k s r = Ok (field_eq k s r).
Proof.
  intros Hk H. apply has_categories_keys in H as (Hv & He & Hj & _).
  apply field_is_total. simpl in Hk.
  destruct Hk as [<-|[<-|[<-|[]]]]; assumption.
Qed.

Lemma is_two_wheeled_total (r : row) :
  has_categories r = true -> is_two_wheeled r = Ok (two_wheeled r).
Proof.
  intros H. apply has_categories_keys in H as (H & _).
  destruct (is_two_wheeled r) as [b|e] eqn:E.
  - f_equal. apply is_two_wheeled_spec, E.
  - apply has_key_getitem in H as (v & _ & Hv).
    unfold is_two_wheeled in E. rewrite Hv in E. discriminate.
Qed.

Lemma is_elm_bus_north_total (r : row) :
  has_categories r = true -> is_elm_bus_north r = Ok (elm_bus_north r).
Proof.
  intros H. apply has_categories_keys in H as (Hv & _ & Hj & Hi & _).
  unfold is_elm_bus_north, elm_bus_north.
  rewrite (field_is_total _ _ _ Hj), (field_is_total _ _ _ Hi),
    (field_is_total _ _ _ Hv). simpl.
  destruct (field_eq "JunctionName" _ r); [| reflexivity].
  destruct (field_eq "travel_Direction_in" _ r); reflexivity.
Qed.

Lemma is_elm_scooter_total (r : row) :
  has_categories r = true -> is_elm_scooter r = Ok (elm_scooter r).
Proof.
  intros H. apply has_categories_keys in H as (Hv & _ & Hj & _).
  unfold is_elm_scooter, elm_scooter.
  rewrite (field_is_total _ _ _ Hj), (field_is_total _ _ _ Hv). simpl.
  destruct (field_eq "JunctionName" _ r); reflexivity.
Qed.

Lemma is_no_turn_total (r : row) :
  has_categories r = true -> is_no_turn r = Ok (no_turn r).
Proof.
  intros H. apply has_categories_keys in H as (_ & _ & _ & Hi & Ho).
  apply has_key_getitem in Hi as (i & Hi & Hgi), Ho as (o & Ho & Hgo).
  unfold is_no_turn, no_turn. rewrite Hgi, Hgo, Hi, Ho. simpl.
  rewrite value_eqb_decide. reflexivity.
Qed.

(** *** Percentages *)

(** A percentage of a part of a whole never raises, lies in [0, 100], is [0]
    for an empty whole and otherwise [round((part / whole) * 100)]. *)
Lemma percentage_ok (part whole : Z) :
  0 <= part <= whole ->
  exists v, percentage part whole = Ok v /\ 0 <= v <= 100 /\
    (whole = 0 -> v = 0) /\
    (whole <> 0 -> exists q p, true_div part whole = Ok q /\
                              float_mul_int q 100 = Ok p /\ round p = Ok v).
Proof.
  intros H. unfold percentage. destruct (Z.eqb_spec whole 0) as [->|Hne].
  - exists 0. repeat split; [lia | lia | congruence].
  - destruct (true_div_fraction part whole H Hne) as (m & e & Hq & He & Hm).
    destruct (float_mul_100 m e He Hm) as (m' & e' & Hp & He' & Hm').
    destruct (round_bounded m' e' 100 He' Hm') as (v & Hv & Hb).
    assert (Hmul : float_mul_int (Finite false m e) 100 = Ok (Finite false m' e')).
    { unfold float_mul_int. rewrite float_of_int_100. cbn [bind]. rewrite Hp. reflexivity. }
    exists v. rewrite Hq. cbn [bind]. rewrite Hmul. cbn [bind]. rewrite Hv.
    repeat split; [lia | lia | congruence |]. intros _. eauto.
Qed.

(** *** The whole function *)

Lemma sum_ones_0 (cond : row -> result bool) (p : row -> bool) (data : list row) (n : Z) :
  (forall r b, cond r = Ok b -> b = p r) ->
  sum_ones cond data 0 = Ok n -> n = count p data.
Proof. intros Hp H. rewrite (sum_ones_spec _ _ _ _ _ Hp H). lia. Qed.

Lemma is_over_speed_speeding (r : row) (b : bool) :
  is_over_speed r = Ok b -> b = speeding r.
Proof. intros H. apply is_over_speed_spec in H. tauto. Qed.

(** Whatever [analyze_data] returns is the record described by [analysed]. *)
Lemma analyze_data_Ok (data : list row) (filename : string) (r : results) :
  analyze_data data filename = Ok r -> analysed data filename r.
Proof.
  unfold analyze_data, trucks, electric_vehicles, two_wheeled_vehicles,
    elm_buses_north, no_turns, over_speed, elm_avenue_vehicles,
    hanley_highway_vehicles, elm_scooters, bicycle_data, hanley_peak_hour.
  intros H. do 15 bind_inv H. injection H as <-.
  apply (sum_ones_0 _ _ _ _ (field_is_spec _ _)) in Ha, Ha0, Ha5, Ha6.
  apply (sum_ones_0 _ _ _ _ is_two_wheeled_spec) in Ha1.
  apply (sum_ones_0 _ _ _ _ is_elm_bus_north_spec) in Ha2.
  apply (sum_ones_0 _ _ _ _ is_no_turn_spec) in Ha3.
  apply (sum_ones_0 _ _ _ _ is_over_speed_speeding) in Ha4.
  apply (sum_ones_0 _ _ _ _ is_elm_scooter_spec) in Ha7.
  apply (select_spec _ _ _ _ (field_is_spec _ _)) in Ha9.
  apply hanley_loop_spec in Ha11.
  subst. rewrite bicycle_count_per_hour_fill in Ha10.
  constructor; simpl; try reflexivity; assumption.
Qed.

Lemma sum_ones_categories (cond : row -> result bool) (p : row -> bool)
    (data : list row) :
  (forall r, has_categories r = true -> cond r = Ok (p r)) ->
  Forall (fun r => has_categories r = true) data ->
  sum_ones cond data 0 = Ok (count p data).
Proof.
  intros Hc Hd. rewrite (sum_ones_total cond p); [f_equal; lia |].
  eapply Forall_impl; [exact Hd |]. exact Hc.
Qed.

Lemma sum_ones_complete (cond : row -> result bool) (p : row -> bool)
    (data : list row) :
  (forall r, has_categories r = true -> cond r = Ok (p r)) ->
  Forall (fun r => complete r = true) data ->
  sum_ones cond data 0 = Ok (count p data).
Proof.
  intros Hc Hd. apply sum_ones_categories; [exact Hc |].
  eapply Forall_impl; [exact Hd |]. exact complete_categories.
Qed.

(** On rows whose speed fields are strings, the over-speeding count raises
    the [ValueError] of the first field that is no number. *)
Lemma over_speed_raises (data : list row) (acc : Z) :
  Forall (fun r => speeds_are_strings r = true) data ->
  Exists (fun r => speeds_are_numeric r = false) data ->
  exists s, sum_ones is_over_speed data acc = Raise (InvalidLiteral s) /\
            parse_int s = None.
Proof.
  intros Hstr. revert acc. induction Hstr as [|r data Hr _ IH]; intros acc Hex.
  - inversion Hex.
  - pose proof (is_over_speed_strings r Hr) as Hcase. cbn [sum_ones].
    destruct (speeds_are_numeric r) eqn:Hnum.
    + rewrite Hcase. cbn [bind]. apply IH.
      inversion Hex as [? ? Hbad|? ? Htail]; subst; [congruence | exact Htail].
    + destruct Hcase as (s & Hs & Hnone). rewrite Hs. cbn [bind]. eauto.
Qed.

(** An exception of the over-speeding count leaves [analyze_data] when the
    counts before it return. *)
Lemma analyze_data_over_speed_raises (data : list row) (filename : string) (e : exn) :
  Forall (fun r => has_categories r = true) data ->
  over_speed data = Raise e -> analyze_data data filename = Raise e.
Proof.
  intros Hc He.
  unfold analyze_data, trucks, electric_vehicles, two_wheeled_vehicles,
    elm_buses_north, no_turns.
  rewrite !(sum_ones_categories (field_is _ _) (field_eq _ _) data)
    by (try exact Hc; intros r Hr; apply field_is_categories; simpl; tauto).
  rewrite (sum_ones_categories _ _ data is_two_wheeled_total Hc),
    (sum_ones_categories _ _ data is_elm_bus_north_total Hc),
    (sum_ones_categories _ _ data is_no_turn_total Hc).
  cbn [bind]. rewrite He. reflexivity.
Qed.

Lemma max_total (x : Z) (l : list Z) : exists m, max (x :: l) = Ok m.
Proof. simpl. eauto. Qed.

Lemma peak_hours_total (d : counter) : exists hs, peak_hours d = Ok hs.
Proof.
  unfold peak_hours, peak_hour_count. destruct d as [|kv d]; simpl; eauto.
Qed.

(** The average does not raise while there are fewer than [2^1023] rows. *)
Lemma avg_bicycles_total (b : row -> option string) (data : list row) :
  len data < 2 ^ 1023 -> exists v, avg_bicycles_per_hour (fill b data []) = Ok v.
Proof.
  intros Hlen. unfold avg_bicycles_per_hour.
  pose proof (sum_values_fill b data []) as Hsum.
  pose proof (count_bounds (fun r => bool_decide (is_Some (b r))) data) as Hb.
  destruct (fill b data []) as [|kv d]; [eauto |].
  change (sum (values [])) with 0 in Hsum.
  destruct (true_div_in_range (sum (values (kv :: d))) (len (kv :: d)))
    as (m & e & Hq); [lia | rewrite len_cons; pose proof (len_nonneg d); lia |].
  rewrite Hq. simpl. eauto.
Qed.

(** [analyze_data] returns on complete rows (fewer than [2^1023] of them). *)
Lemma analyze_data_total (data : list row) (filename : string) :
  Forall (fun r => complete r = true) data -> len data < 2 ^ 1023 ->
  exists r, analyze_data data filename = Ok r.
Proof.
  intros Hc Hlen.
  unfold analyze_data, trucks, electric_vehicles, two_wheeled_vehicles,
    elm_buses_north, no_turns, over_speed, elm_avenue_vehicles,
    hanley_highway_vehicles, elm_scooters, bicycle_data, hanley_peak_hour.
  rewrite !(sum_ones_complete (field_is _ _) (field_eq _ _) data)
    by (try exact Hc; intros r Hr; apply field_is_categories; simpl; tauto).
  rewrite (sum_ones_complete _ _ data is_two_wheeled_total Hc),
    (sum_ones_complete _ _ data is_elm_bus_north_total Hc),
    (sum_ones_complete _ _ data is_no_turn_total Hc),
    (sum_ones_complete _ _ data is_elm_scooter_total Hc).
  rewrite (sum_ones_total is_over_speed speeding), Z.add_0_l.
  2:{ eapply Forall_impl; [exact Hc |]. intros r Hr. apply is_over_speed_numeric.
      unfold complete in Hr. apply andb_true_iff in Hr. tauto. }
  cbn [bind].
  destruct (percentage_ok (count elm_scooter data)
              (count (field_eq "JunctionName" "Elm Avenue/Rabbit Road") data))
    as (sp & Hsp & _).
  { split; [apply count_bounds |]. apply count_le. intros r.
    unfold elm_scooter. rewrite andb_true_iff. tauto. }
  rewrite Hsp. cbn [bind].
  rewrite (select_total _ (field_eq "VehicleType" "Bicycle")).
  2:{ eapply Forall_impl; [exact Hc |]. intros r Hr.
      apply field_is_categories; [simpl; tauto | apply complete_categories, Hr]. }
  cbn [bind]. rewrite bicycle_count_per_hour_fill.
  destruct (avg_bicycles_total bicycle_hour data Hlen) as (avg & Havg).
  rewrite Havg. cbn [bind].
  rewrite hanley_loop_total.
  2:{ eapply Forall_impl; [exact Hc |]. intros r Hr.
      apply complete_categories, has_categories_keys in Hr. tauto. }
  cbn [bind].
  destruct (peak_hours_total (fill hanley_hour data [])) as (hs & Hhs).
  rewrite Hhs. cbn [bind].
  destruct (percentage_ok (count (field_eq "VehicleType" "Truck") data) (len data)
              (count_bounds _ data)) as (tp & Htp & _).
  rewrite Htp. cbn [bind]. eauto.
Qed.

(** A generator that returns has evaluated its condition on every row. *)
Lemma sum_ones_defined (cond : row -> result bool) (data : list row) (acc n : Z) :
  sum_ones cond data acc = Ok n -> Forall (fun r => exists b, cond r = Ok b) data.
Proof.
  revert acc. induction data as [|r data IH]; intros acc H; [constructor |].
  simpl in H. bind_inv H. constructor; [eauto | eapply IH, H].
Qed.

Lemma field_is_has_key (k s : string) (r : row) (b : bool) :
  field_is k s r = Ok b -> has_key k r = true.
Proof.
  unfold field_is, has_key. intros H. bind_inv H. apply getitem_Ok in Ha.
  apply bool_decide_eq_true_2. eauto.
Qed.

Lemma is_no_turn_has_keys (r : row) (b : bool) :
  is_no_turn r = Ok b ->
  has_key "travel_Direction_in" r = true /\ has_key "travel_Direction_out" r = true.
Proof.
  unfold is_no_turn, has_key. intros H. do 2 bind_inv H.
  apply getitem_Ok in Ha, Ha0. split; apply bool_decide_eq_true_2; eauto.
Qed.

Lemma is_elm_bus_north_has_key (r : row) (b : bool) :
  is_elm_bus_north r = Ok b -> has_key "JunctionName" r = true.
Proof.
  unfold is_elm_bus_north. intros H. bind_inv H. eapply field_is_has_key, Ha.
Qed.

(** A generator that raises does so on one of the rows. *)
Lemma sum_ones_Raise (cond : row -> result bool) (data : list row) (acc : Z) (e : exn) :
  sum_ones cond data acc = Raise e -> exists r, r ∈ data /\ cond r = Raise e.
Proof.
  revert acc. induction data as [|r data IH]; intros acc H; [discriminate |].
  cbn [sum_ones] in H. destruct (cond r) as [b|e'] eqn:E; cbn [bind] in H.
  - destruct (IH _ H) as (x & Hx & Hc). exists x. split; [right; exact Hx | exact Hc].
  - injection H as ->. exists r. split; [left | exact E].
Qed.

(** The conditions evaluated before the speeds raise nothing but the
    [KeyError] of a subscript. *)
Lemma getitem_Raise (r : row) (k : string) (e : exn) :
  getitem r k = Raise e -> e = KeyError k.
Proof. unfold getitem. destruct (r !! k); congruence. Qed.

Lemma field_is_Raise (k s : string) (r : row) (e : exn) :
  field_is k s r = Raise e -> e = KeyError k.
Proof.
  unfold field_is. destruct (getitem r k) eqn:E; [discriminate |].
  intros [= <-]. eapply getitem_Raise, E.
Qed.

Lemma is_two_wheeled_Raise (r : row) (e : exn) :
  is_two_wheeled r = Raise e -> e = KeyError "VehicleType".
Proof.
  unfold is_two_wheeled. destruct (getitem r "VehicleType") eqn:E; [discriminate |].
  intros [= <-]. eapply getitem_Raise, E.
Qed.

Lemma is_elm_bus_north_Raise (r : row) (e : exn) :
  is_elm_bus_north r = Raise e -> exists k, e = KeyError k.
Proof.
  unfold is_elm_bus_north.
  destruct (field_is "JunctionName" _ r) as [[]|] eqn:E1; cbn [bind];
    [| discriminate | intros [= <-]; eauto using field_is_Raise].
  destruct (field_is "travel_Direction_in" _ r) as [[]|] eqn:E2; cbn [bind];
    [| discriminate | intros [= <-]; eauto using field_is_Raise].
  intros H. eauto using field_is_Raise.
Qed.

Lemma is_no_turn_Raise (r : row) (e : exn) :
  is_no_turn r = Raise e -> exists k, e = KeyError k.
Proof.
  unfold is_no_turn.
  destruct (getitem r "travel_Direction_in") eqn:E1; cbn [bind];
    [| intros [= <-]; eauto using getitem_Raise].
  destruct (getitem r "travel_Direction_out") eqn:E2; cbn [bind];
    [discriminate | intros [= <-]; eauto using getitem_Raise].
Qed.

(** Before it reads a speed, [analyze_data] has subscripted the five
    category columns of every row: either all rows have them, or it raises
    the [KeyError] of one that is missing. *)
Lemma analyze_data_categories (data : list row) (filename : string) :
  Forall (fun r => has_categories r = true) data \/
  exists k, analyze_data data filename = Raise (KeyError k).
Proof.
  unfold analyze_data, trucks, electric_vehicles, two_wheeled_vehicles,
    elm_buses_north, no_turns.
  destruct (sum_ones (field_is "VehicleType" "Truck") data 0) as [n1|e] eqn:E1;
    cbn [bind].
  2:{ right. apply sum_ones_Raise in E1 as (r & _ & Hr).
      apply field_is_Raise in Hr as ->. eauto. }
  destruct (sum_ones (field_is "elctricHybrid" "True") data 0) as [n2|e] eqn:E2;
    cbn [bind].
  2:{ right. apply sum_ones_Raise in E2 as (r & _ & Hr).
      apply field_is_Raise in Hr as ->. eauto. }
  destruct (sum_ones is_two_wheeled data 0) as [n3|e] eqn:E3; cbn [bind].
  2:{ right. apply sum_ones_Raise in E3 as (r & _ & Hr).
      apply is_two_wheeled_Raise in Hr as ->. eauto. }
  destruct (sum_ones is_elm_bus_north data 0) as [n4|e] eqn:E4; cbn [bind].
  2:{ right. apply sum_ones_Raise in E4 as (r & _ & Hr).
      apply is_elm_bus_north_Raise in Hr as (k & ->). eauto. }
  destruct (sum_ones is_no_turn data 0) as [n5|e] eqn:E5; cbn [bind].
  2:{ right. apply sum_ones_Raise in E5 as (r & _ & Hr).
      apply is_no_turn_Raise in Hr as (k & ->). eauto. }
  left. apply sum_ones_defined in E1, E2, E4, E5.
  rewrite Forall_forall in *. intros x Hx.
  destruct (E1 x Hx) as (b1 & H1). destruct (E2 x Hx) as (b2 & H2).
  destruct (E4 x Hx) as (b4 & H4). destruct (E5 x Hx) as (b5 & H5).
  apply field_is_has_key in H1, H2. apply is_elm_bus_north_has_key in H4.
  apply is_no_turn_has_keys in H5 as [Hi Ho].
  unfold has_categories. rewrite H1, H2, H4, Hi, Ho. reflexivity.
Qed.

(** The one file of [one_file] is read without error. *)
Lemma process_one_file (filename : string) (data : list row) :
  process_csv_data (one_file filename data) filename = Ok data.
Proof.
  unfold process_csv_data, one_file. cbn [contents]. rewrite String.eqb_refl.
  reflexivity.
Qed.

(** An exception of [analyze_data] is reported by the clause that catches
    it. *)
Lemma main_pass_raise (filename : string) (data : list row) (e : exn) :
  analyze_data data filename = Raise e ->
  main_pass (one_file filename data) filename = handle e.
Proof.
  intros H. unfold main_pass. rewrite process_one_file. cbn [bind]. rewrite H.
  reflexivity.
Qed.

End AnalyzeFacts.

(** ** Peak hours and the per-hour average *)

Module PeakFacts.

Import PyFacts Analysis AnalysisSpec AnalysisFacts CounterFacts AnalyzeFacts.

(** [fold_left Z.max l x] is the greatest of [x] and the elements of [l]. *)
Lemma fold_max_spec (l : list Z) (x : Z) :
  (fold_left Z.max l x = x \/ fold_left Z.max l x ∈ l) /\
  x <= fold_left Z.max l x /\
  (forall y, y ∈ l -> y <= fold_left Z.max l x).
Proof.
  revert x. induction l as [|z l IH]; intros x; simpl.
  - split; [auto |]. split; [lia |]. intros y Hy. inversion Hy.
  - destruct (IH (Z.max x z)) as (Hin & Hle & Hall). split; [| split].
    + destruct Hin as [Heq|Hin]; [| right; right; exact Hin].
      rewrite Heq. destruct (Z.max_spec x z) as [[_ ->]|[_ ->]]; [right; left | left];
        reflexivity.
    + lia.
    + intros y Hy. apply elem_of_cons in Hy as [->|Hy]; [lia | auto].
Qed.

(** [max] of the values of a non-empty dict is one of them and bounds all. *)
Lemma max_values (d : counter) (m : Z) :
  max (values d) = Ok m ->
  (exists k, (k, m) ∈ d) /\ (forall k n, (k, n) ∈ d -> n <= m).
Proof.
  destruct d as [|[k0 n0] d]; [discriminate |].
  unfold values. simpl. intros [= <-].
  destruct (fold_max_spec (map snd d) n0) as (Hin & Hle & Hall). split.
  - destruct Hin as [->|Hin]; [exists k0; left |].
    apply list_elem_of_fmap in Hin as ([k n] & Hn & Hkn). simpl in Hn.
    exists k. right. rewrite Hn. exact Hkn.
  - intros k n Hkn. apply elem_of_cons in Hkn as [[= -> ->]|Hkn]; [exact Hle |].
    apply Hall. apply list_elem_of_fmap. exists (k, n). auto.
Qed.

Lemma elem_of_hours_with_count (h : string) (d : counter) (peak : Z) :
  h ∈ hours_with_count d peak <-> (h, peak) ∈ d.
Proof.
  unfold hours_with_count. rewrite list_elem_of_fmap. split.
  - intros ([k n] & -> & Hin). apply list_elem_of_In, filter_In in Hin as [Hin Heq].
    simpl in *. apply Z.eqb_eq in Heq as ->. apply list_elem_of_In. exact Hin.
  - intros Hin. exists (h, peak). split; [reflexivity |].
    apply list_elem_of_In, filter_In. split; [apply list_elem_of_In, Hin |].
    apply Z.eqb_refl.
Qed.

Lemma NoDup_hours_with_count (d : counter) (peak : Z) :
  NoDup (map fst d) -> NoDup (hours_with_count d peak).
Proof.
  unfold hours_with_count. induction d as [|[k n] d IH]; simpl; intros Hnd.
  - constructor.
  - apply NoDup_cons in Hnd as [Hk Hnd]. destruct (n =? peak); simpl; [| auto].
    apply NoDup_cons. split; [| auto].
    intros Hin. apply Hk. apply list_elem_of_fmap in Hin as (kv & -> & Hin).
    apply list_elem_of_In, filter_In in Hin as [Hin _].
    apply list_elem_of_fmap. exists kv. split; [reflexivity | apply list_elem_of_In, Hin].
Qed.

(** The peak hours of a dict of counts: exactly the keys whose count is the
    greatest, each once. *)
Lemma peak_hours_spec (d : counter) (hs : list string) :
  counter_ok d -> peak_hours d = Ok hs ->
  (forall h, h ∈ hs <-> 0 < lookup h d /\ forall h', lookup h' d <= lookup h d) /\
  NoDup hs.
Proof.
  intros [Hnd Hpos] H. unfold peak_hours in H. bind_inv H. injection H as <-.
  split; [| apply NoDup_hours_with_count, Hnd].
  intros h. rewrite elem_of_hours_with_count.
  destruct d as [|kv d'].
  - simpl. split; [intros Hin; inversion Hin | lia].
  - change (max (values (kv :: d')) = Ok a) in Ha.
    remember (kv :: d') as d eqn:Ed. clear Ed.
    apply max_values in Ha as ((k & Hk) & Hall).
    assert (Hval : forall x n, (x, n) ∈ d -> 0 < n).
    { intros x n Hin. rewrite Forall_forall in Hpos.
      apply (Hpos (x, n) Hin). }
    split.
    + intros Hin. rewrite (lookup_elem_of _ _ _ Hnd Hin).
      split; [eapply Hval, Hin |]. intros h'.
      destruct (Z.eq_dec (lookup h' d) 0) as [->|Hne]; [apply Z.lt_le_incl; eapply Hval, Hin |].
      eapply Hall, elem_of_lookup, Hne.
    + intros [Hlt Hge].
      assert (Hh : (h, lookup h d) ∈ d) by (apply elem_of_lookup; lia).
      specialize (Hge k). rewrite (lookup_elem_of _ _ _ Hnd Hk) in Hge.
      specialize (Hall _ _ Hh).
      replace a with (lookup h d) by lia. exact Hh.
Qed.

(** *** The average *)

Lemma values_lookup (d : counter) :
  NoDup (map fst d) -> values d = map (fun k => lookup k d) (map fst d).
Proof.
  unfold values. induction d as [|[k n] d IH]; simpl; intros Hnd; [reflexivity |].
  apply NoDup_cons in Hnd as [Hk Hnd]. rewrite String.eqb_refl. f_equal.
  rewrite (IH Hnd). apply map_ext_in. intros x Hx.
  destruct (String.eqb_spec k x) as [->|_]; [| reflexivity].
  exfalso. apply Hk, list_elem_of_In, Hx.
Qed.

(** The keys of the dict the loop builds are the distinct buckets. *)
Lemma keys_fill_buckets (b : row -> option string) (data : list row) :
  Permutation (map fst (fill b data [])) (buckets b data).
Proof.
  apply NoDup_Permutation.
  - apply (counter_ok_fill b data []), counter_ok_nil.
  - apply NoDup_remove_dups.
  - intros h. rewrite keys_fill. unfold buckets. rewrite elem_of_remove_dups.
    simpl. split; [intros [H|H]; [inversion H | exact H] | auto].
Qed.

(** The source's average over the dict it builds is the spec's average over
    the buckets. *)
Lemma avg_bicycles_per_hour_spec (data : list row) :
  avg_bicycles_per_hour (fill bicycle_hour data []) = per_hour_average data.
Proof.
  pose proof (keys_fill_buckets bicycle_hour data) as Hperm.
  pose proof (counter_ok_fill bicycle_hour data [] counter_ok_nil) as [Hnd _].
  assert (Hsum : sum (values (fill bicycle_hour data []))
                 = sum (map (fun h => bucket_count bicycle_hour h data)
                          (buckets bicycle_hour data))).
  { rewrite (values_lookup _ Hnd).
    rewrite (sum_Permutation _ _ (Permutation_map _ Hperm)).
    f_equal. apply map_ext. intros h. rewrite lookup_fill. simpl. lia. }
  assert (Hlen : len (fill bicycle_hour data []) = len (buckets bicycle_hour data)).
  { unfold len. f_equal. rewrite <- (Permutation_length Hperm). symmetry. apply length_map. }
  unfold avg_bicycles_per_hour, per_hour_average.
  destruct (fill bicycle_hour data []) as [|kv d];
    destruct (buckets bicycle_hour data) as [|h hs];
    try reflexivity; try (unfold len in Hlen; simpl in Hlen; lia).
  rewrite Hsum, Hlen. reflexivity.
Qed.

End PeakFacts.

(** ** The aggregator's metrics *)

Module AnalysisClaims.

Import PyFacts Analysis AnalysisSpec AnalysisFacts CounterFacts AnalyzeFacts PeakFacts.

Example analyze_scenario :
  analyze_data scenario "traffic_data21062024.csv" = Ok scenario_results.
Proof. reflexivity. Qed.

(** [23 / 40 * 100] is the double just below [57.5], so the percentage is
    [57] although [57.5] itself would round to the even [58]. *)
Example percentage_23_40 : percentage 23 40 = Ok 57.
Proof. reflexivity. Qed.

Example percentage_of_nothing : percentage 0 0 = Ok 0.
Proof. reflexivity. Qed.

(** C8. For every record sequence, the result that [analyze_data] assembles
    maps "Total Vehicles" to the length of the sequence; and it does assemble
    a result whenever no row lacks a subscripted column or has a non-numeric
    speed. *)
Theorem total_vehicles_is_length (data : list row) (filename : string) :
  (forall r, analyze_data data filename = Ok r ->
             total_vehicles r = Z.of_nat (length data)) /\
  (Forall (fun r => complete r = true) data -> len data < 2 ^ 1023 ->
   exists r, analyze_data data filename = Ok r /\
             total_vehicles r = Z.of_nat (length data)).
Proof.
  split.
  - intros r H. apply (an_total _ _ _ (analyze_data_Ok _ _ _ H)).
  - intros Hc Hlen. destruct (analyze_data_total data filename Hc Hlen) as (r & Hr).
    exists r. split; [exact Hr |]. apply (an_total _ _ _ (analyze_data_Ok _ _ _ Hr)).
Qed.

Lemma total_vehicles_is_length_witness :
  analyze_data scenario "traffic_data21062024.csv" = Ok scenario_results /\
  total_vehicles scenario_results = 4 /\
  Forall (fun r => complete r = true) scenario /\ len scenario < 2 ^ 1023 /\
  exists r, analyze_data scenario "traffic_data21062024.csv" = Ok r /\
            total_vehicles r = 4.
Proof.
  assert (H : analyze_data scenario "traffic_data21062024.csv" = Ok scenario_results)
    by reflexivity.
  assert (Hc : Forall (fun r => complete r = true) scenario)
    by (repeat constructor).
  assert (Hlen : len scenario < 2 ^ 1023) by reflexivity.
  split; [exact H |]. split.
  - exact (proj1 (total_vehicles_is_length scenario "traffic_data21062024.csv")
             scenario_results H).
  - split; [exact Hc |]. split; [exact Hlen |].
    exact (proj2 (total_vehicles_is_length scenario "traffic_data21062024.csv") Hc Hlen).
Defined.

(** C2. Computing a percentage of a part of a whole never raises (no division
    by zero in particular); the truck percentage is the percentage of the
    trucks among all rows and the scooter percentage that of the scooters
    among the rows at Elm Avenue/Rabbit Road: [0] when the denominator is
    [0], [round(matching / total * 100)] otherwise. *)
Theorem percentage_metrics (data : list row) (filename : string) :
  (forall part whole, 0 <= part <= whole ->
     exists v, percentage part whole = Ok v /\ is_percentage part whole v) /\
  (forall r, analyze_data data filename = Ok r ->
     is_percentage (count (field_eq "VehicleType" "Truck") data) (len data)
       (truck_percentage r) /\
     is_percentage (count elm_scooter data)
       (count (field_eq "JunctionName" "Elm Avenue/Rabbit Road") data)
       (scooter_percentage_elm_avenue r)) /\
  (Forall (fun r => complete r = true) data -> len data < 2 ^ 1023 ->
   exists r, analyze_data data filename = Ok r).
Proof.
  assert (Hpct : forall part whole, 0 <= part <= whole ->
            exists v, percentage part whole = Ok v /\ is_percentage part whole v).
  { intros part whole H. destruct (percentage_ok part whole H) as (v & Hv & _ & H0 & H1).
    exists v. split; [exact Hv | split; assumption]. }
  split; [exact Hpct |]. split; [| apply analyze_data_total].
  intros r H. apply analyze_data_Ok in H.
  destruct (Hpct (count (field_eq "VehicleType" "Truck") data) (len data)
              (count_bounds _ data)) as (v & Hv & Hspec).
  destruct (Hpct (count elm_scooter data)
              (count (field_eq "JunctionName" "Elm Avenue/Rabbit Road") data))
    as (w & Hw & Hwspec).
  { split; [apply count_bounds |]. apply count_le. intros x.
    unfold elm_scooter. rewrite andb_true_iff. tauto. }
  rewrite (an_truck_percentage _ _ _ H) in Hv. injection Hv as <-.
  rewrite (an_scooter_percentage _ _ _ H) in Hw. injection Hw as <-.
  split; assumption.
Qed.

Lemma percentage_metrics_witness :
  0 <= 23 <= 40 /\
  (exists v, percentage 23 40 = Ok v /\ is_percentage 23 40 v) /\
  analyze_data scenario "traffic_data21062024.csv" = Ok scenario_results /\
  is_percentage (count (field_eq "VehicleType" "Truck") scenario) (len scenario) 50 /\
  is_percentage (count elm_scooter scenario)
    (count (field_eq "JunctionName" "Elm Avenue/Rabbit Road") scenario) 100 /\
  Forall (fun r => complete r = true) scenario /\ len scenario < 2 ^ 1023 /\
  exists r, analyze_data scenario "traffic_data21062024.csv" = Ok r.
Proof.
  assert (Hp : 0 <= 23 <= 40) by lia.
  assert (H : analyze_data scenario "traffic_data21062024.csv" = Ok scenario_results)
    by reflexivity.
  assert (Hc : Forall (fun r => complete r = true) scenario)
    by (repeat constructor).
  assert (Hlen : len scenario < 2 ^ 1023) by reflexivity.
  destruct (percentage_metrics scenario "traffic_data21062024.csv") as (H1 & H2 & H3).
  split; [exact Hp |]. split; [exact (H1 23 40 Hp) |]. split; [exact H |].
  split; [exact (proj1 (H2 scenario_results H)) |].
  split; [exact (proj2 (H2 scenario_results H)) |].
  split; [exact Hc |]. split; [exact Hlen |]. exact (H3 Hc Hlen).
Defined.

(** C3, as the code has it. On rows whose two speed fields are strings: when
    all are numeric, the over-speeding count is the number of rows whose
    observed speed is strictly above the limit; when one is not, the count
    raises the [ValueError] of [int] instead of a number, and [analyze_data]
    returns no result: it raises that [ValueError] when every row has the
    five category columns subscripted before the speeds, and otherwise the
    [KeyError] of a missing column; [main] reports either through its
    [except Exception] clause. *)
Theorem over_speed_parse_error (data : list row) :
  Forall (fun r => speeds_are_strings r = true) data ->
  (Forall (fun r => speeds_are_numeric r = true) data ->
   over_speed data = Ok (count speeding data)) /\
  (Exists (fun r => speeds_are_numeric r = false) data ->
   exists s, parse_int s = None /\
     over_speed data = Raise (InvalidLiteral s) /\
     handle (InvalidLiteral s) = AnErrorOccurred (InvalidLiteral s) /\
     forall filename,
       (Forall (fun r => has_categories r = true) data ->
        analyze_data data filename = Raise (InvalidLiteral s) /\
        main_pass (one_file filename data) filename = AnErrorOccurred (InvalidLiteral s)) /\
       (~ Forall (fun r => has_categories r = true) data ->
        exists k, analyze_data data filename = Raise (KeyError k) /\
                  main_pass (one_file filename data) filename
                  = AnErrorOccurred (KeyError k)) /\
       (exists e, analyze_data data filename = Raise e /\
                  main_pass (one_file filename data) filename = AnErrorOccurred e)).
Proof.
  intros Hstr. split.
  - intros Hnum. unfold over_speed.
    rewrite (sum_ones_total is_over_speed speeding); [f_equal; lia |].
    eapply Forall_impl; [exact Hnum |]. exact is_over_speed_numeric.
  - intros Hex. destruct (over_speed_raises data 0 Hstr Hex) as (s & Hs & Hnone).
    exists s. split; [exact Hnone |]. split; [exact Hs |]. split; [reflexivity |].
    intros filename.
    assert (Hcat : Forall (fun r => has_categories r = true) data ->
                   analyze_data data filename = Raise (InvalidLiteral s) /\
                   main_pass (one_file filename data) filename
                   = AnErrorOccurred (InvalidLiteral s)).
    { intros Hc. pose proof (analyze_data_over_speed_raises _ filename _ Hc Hs) as Ha.
      split; [exact Ha |]. rewrite (main_pass_raise _ _ _ Ha). reflexivity. }
    assert (Hkey : forall k, analyze_data data filename = Raise (KeyError k) ->
                   main_pass (one_file filename data) filename
                   = AnErrorOccurred (KeyError k)).
    { intros k Ha. rewrite (main_pass_raise _ _ _ Ha). reflexivity. }
    split; [exact Hcat |]. split.
    + intros Hno. destruct (analyze_data_categories data filename) as [Hc|(k & Hk)];
        [contradiction |]. exists k. split; [exact Hk | exact (Hkey k Hk)].
    + destruct (analyze_data_categories data filename) as [Hc|(k & Hk)].
      * exists (InvalidLiteral s). exact (Hcat Hc).
      * exists (KeyError k). split; [exact Hk | exact (Hkey k Hk)].
Qed.

Lemma over_speed_parse_error_witness :
  Forall (fun r => speeds_are_strings r = true) (scenario ++ [bad_speed]) /\
  Forall (fun r => speeds_are_strings r = true) scenario /\
  Forall (fun r => speeds_are_numeric r = true) scenario /\
  Exists (fun r => speeds_are_numeric r = false) (scenario ++ [bad_speed]) /\
  Forall (fun r => has_categories r = true) (scenario ++ [bad_speed]) /\
  over_speed scenario = Ok 2 /\
  (exists s, over_speed (scenario ++ [bad_speed]) = Raise (InvalidLiteral s) /\
     main_pass (one_file "traffic_data21062024.csv" (scenario ++ [bad_speed]))
       "traffic_data21062024.csv"
     = AnErrorOccurred (InvalidLiteral s)) /\
  Forall (fun r => speeds_are_strings r = true) [delete "VehicleType" bad_speed] /\
  Exists (fun r => speeds_are_numeric r = false) [delete "VehicleType" bad_speed] /\
  ~ Forall (fun r => has_categories r = true) [delete "VehicleType" bad_speed] /\
  exists k,
    main_pass (one_file "traffic_data21062024.csv" [delete "VehicleType" bad_speed])
      "traffic_data21062024.csv"
    = AnErrorOccurred (KeyError k).
Proof.
  assert (H1 : Forall (fun r => speeds_are_strings r = true) (scenario ++ [bad_speed]))
    by (repeat constructor).
  assert (H2 : Forall (fun r => speeds_are_strings r = true) scenario)
    by (repeat constructor).
  assert (H3 : Forall (fun r => speeds_are_numeric r = true) scenario)
    by (repeat constructor).
  assert (H4 : Exists (fun r => speeds_are_numeric r = false) (scenario ++ [bad_speed]))
    by (do 4 apply Exists_cons_tl; apply Exists_cons_hd; reflexivity).
  assert (H5 : Forall (fun r => has_categories r = true) (scenario ++ [bad_speed]))
    by (repeat constructor).
  assert (H6 : Forall (fun r => speeds_are_strings r = true)
                 [delete "VehicleType" bad_speed]) by (repeat constructor).
  assert (H7 : Exists (fun r => speeds_are_numeric r = false)
                 [delete "VehicleType" bad_speed])
    by (apply Exists_cons_hd; reflexivity).
  assert (H8 : ~ Forall (fun r => has_categories r = true)
                   [delete "VehicleType" bad_speed]).
  { intros H. apply Forall_inv in H. vm_compute in H. discriminate H. }
  split; [exact H1 |]. split; [exact H2 |]. split; [exact H3 |].
  split; [exact H4 |]. split; [exact H5 |]. split; [| split; [| split; [exact H6 |
    split; [exact H7 |]; split; [exact H8 |]]]].
  - exact (proj1 (over_speed_parse_error scenario H2) H3).
  - destruct (proj2 (over_speed_parse_error (scenario ++ [bad_speed]) H1) H4)
      as (s & _ & Hs & _ & Hmain).
    exists s. split; [exact Hs |].
    exact (proj2 (proj1 (Hmain "traffic_data21062024.csv") H5)).
  - destruct (proj2 (over_speed_parse_error [delete "VehicleType" bad_speed] H6) H7)
      as (s & _ & _ & _ & Hmain).
    destruct (proj1 (proj2 (Hmain "traffic_data21062024.csv")) H8) as (k & _ & Hk).
    exists k. exact Hk.
Defined.

(** C3, as stated, fails: a row with [VehicleSpeed = "abc"] and
    [JunctionSpeedLimit = "30"] makes the count raise, but the error reaches
    the operator through the same catch-all clause of [main] as any other
    exception, here the [KeyError] of a file without a [VehicleType] column. *)
Lemma parse_error_in_catch_all :
  over_speed [bad_speed] = Raise (InvalidLiteral "abc") /\
  main_pass (one_file "traffic_data21062024.csv" [bad_speed]) "traffic_data21062024.csv"
  = AnErrorOccurred (InvalidLiteral "abc") /\
  main_pass (one_file "traffic_data21062024.csv" [no_vehicle_type])
    "traffic_data21062024.csv"
  = AnErrorOccurred (KeyError "VehicleType").
Proof. repeat split; reflexivity. Qed.

(** C1. The peak hours at Hanley Highway/Westway are exactly the hour buckets
    whose count is the greatest bucket count, ties included and each bucket
    once; there is none when there is no bucket. The counts [08: 5, 09: 5,
    10: 3] give [08] and [09]. *)
Theorem peak_hours_are_the_maxima (data : list row) (filename : string) :
  (forall r, analyze_data data filename = Ok r ->
     (forall h, h ∈ peak_hours_hanley r <->
        0 < bucket_count hanley_hour h data /\
        forall h', bucket_count hanley_hour h' data <= bucket_count hanley_hour h data) /\
     NoDup (peak_hours_hanley r) /\
     ((forall h, bucket_count hanley_hour h data = 0) -> peak_hours_hanley r = [])) /\
  peak_hours [("08", 5); ("09", 5); ("10", 3)] = Ok ["08"; "09"] /\
  (Forall (fun r => complete r = true) data -> len data < 2 ^ 1023 ->
   exists r, analyze_data data filename = Ok r).
Proof.
  split; [| split; [reflexivity | apply analyze_data_total]].
  intros r H. apply analyze_data_Ok in H.
  destruct (peak_hours_spec _ _ (counter_ok_fill hanley_hour data [] counter_ok_nil)
              (an_peak _ _ _ H)) as [Hiff Hnd].
  assert (Hmem : forall h, h ∈ peak_hours_hanley r <->
            0 < bucket_count hanley_hour h data /\
            forall h', bucket_count hanley_hour h' data <= bucket_count hanley_hour h data).
  { intros h. rewrite Hiff, lookup_fill. simpl.
    split; intros [Hpos Hmax]; (split; [exact Hpos |]); intros h';
      specialize (Hmax h'); rewrite lookup_fill in *; exact Hmax. }
  split; [exact Hmem |]. split; [exact Hnd |].
  intros Hnone. destruct (peak_hours_hanley r) as [|h hs]; [reflexivity |].
  assert (Hin : h ∈ h :: hs) by left.
  apply Hmem in Hin as [Hpos _]. rewrite Hnone in Hpos. lia.
Qed.

Lemma peak_hours_are_the_maxima_witness :
  analyze_data scenario "traffic_data21062024.csv" = Ok scenario_results /\
  (forall h, h ∈ ["08"] <->
     0 < bucket_count hanley_hour h scenario /\
     forall h', bucket_count hanley_hour h' scenario <= bucket_count hanley_hour h scenario) /\
  Forall (fun r => complete r = true) scenario /\ len scenario < 2 ^ 1023.
Proof.
  assert (H : analyze_data scenario "traffic_data21062024.csv" = Ok scenario_results)
    by reflexivity.
  split; [exact H |]. split.
  - exact (proj1 (proj1 (peak_hours_are_the_maxima scenario "traffic_data21062024.csv")
                    scenario_results H)).
  - split; [repeat constructor | reflexivity].
Defined.

(** C6. The bicycles-per-hour average is the spec's per-hour average: the
    rows of type Bicycle with a time of day are grouped by hour bucket, and
    the result is [round(sum of the bucket counts / number of buckets)], or
    [0] when there is no bucket. *)
Theorem avg_bicycles_is_per_hour_average (data : list row) (filename : string) :
  (forall r, analyze_data data filename = Ok r ->
     per_hour_average data = Ok (avg_bicycles r) /\
     (buckets bicycle_hour data = [] -> avg_bicycles r = 0)) /\
  (Forall (fun r => complete r = true) data -> len data < 2 ^ 1023 ->
   exists r, analyze_data data filename = Ok r).
Proof.
  split; [| apply analyze_data_total].
  intros r H. apply analyze_data_Ok in H.
  pose proof (an_avg _ _ _ H) as Havg. rewrite avg_bicycles_per_hour_spec in Havg.
  split; [exact Havg |]. intros Hnone.
  unfold per_hour_average in Havg. rewrite Hnone in Havg. congruence.
Qed.

Lemma avg_bicycles_is_per_hour_average_witness :
  analyze_data scenario "traffic_data21062024.csv" = Ok scenario_results /\
  per_hour_average scenario = Ok 1 /\
  Forall (fun r => complete r = true) scenario /\ len scenario < 2 ^ 1023.
Proof.
  assert (H : analyze_data scenario "traffic_data21062024.csv" = Ok scenario_results)
    by reflexivity.
  split; [exact H |]. split.
  - exact (proj1 (proj1 (avg_bicycles_is_per_hour_average scenario
                           "traffic_data21062024.csv") scenario_results H)).
  - split; [repeat constructor | reflexivity].
Defined.

End AnalysisClaims.

(** ** The grouping loop *)

Module GroupingFacts.

Import PyFacts AnalysisSpec AnalysisFacts AnalyzeFacts MultiCSVProcessor GroupingSpec.

(** Counting a vehicle sets its cell to one more than it held. *)
Lemma count_vehicle_insert (h : Z) (j : string) (s : gmap Z (gmap string Z)) :
  count_vehicle h j s
  = <[h := <[j := default 0 (cell s h j) + 1]> (default ∅ (s !! h))]> s.
Proof.
  unfold count_vehicle, cell. destruct (s !! h) as [m|] eqn:Hs; simpl.
  - rewrite Hs. simpl. destruct (m !! j) as [c|] eqn:Hm; simpl.
    + rewrite Hs. simpl. rewrite Hm. reflexivity.
    + rewrite lookup_insert_eq. simpl. rewrite lookup_insert_eq. simpl.
      rewrite !insert_insert_eq. reflexivity.
  - rewrite lookup_insert_eq. simpl. rewrite lookup_empty, lookup_insert_eq. simpl.
    rewrite lookup_insert_eq. simpl. rewrite !insert_insert_eq. reflexivity.
Qed.

Lemma cell_count_vehicle (h : Z) (j : string) (s : gmap Z (gmap string Z))
    (h' : Z) (j' : string) :
  cell (count_vehicle h j s) h' j'
  = if bool_decide (h = h' /\ j = j') then Some (default 0 (cell s h j) + 1)
    else cell s h' j'.
Proof.
  rewrite count_vehicle_insert. unfold cell at 1.
  destruct (decide (h = h')) as [<-|Hh].
  - rewrite lookup_insert_eq. simpl. destruct (decide (j = j')) as [<-|Hj].
    + rewrite lookup_insert_eq, bool_decide_eq_true_2 by auto. reflexivity.
    + rewrite lookup_insert_ne, bool_decide_eq_false_2 by tauto.
      unfold cell. destruct (s !! h); reflexivity.
  - rewrite lookup_insert_ne, bool_decide_eq_false_2 by tauto. reflexivity.
Qed.

(** *** The hour of a row *)

Lemma hour_of_Ok (r : row) (h : Z) : hour_of r = Ok h <-> hour r = Some h.
Proof.
  unfold hour_of, hour, hour_prefix, getitem.
  destruct (r !! "timeOfDay") as [[|s]|]; simpl; try (split; discriminate).
  unfold int_of_str. destruct (parse_int (split_colon_0 s)); split; congruence.
Qed.

(** Without an hour bucket, [hour_of] raises: the [KeyError] or [ValueError]
    that the loop reports, unless the time of day is [None]. *)
Lemma hour_of_None (r : row) :
  hour r = None ->
  exists e, hour_of r = Raise e /\
    (r !! "timeOfDay" <> Some VNone -> is_KeyError e || is_ValueError e = true) /\
    (r !! "timeOfDay" = Some VNone -> e = AttributeError).
Proof.
  unfold hour_of, hour, hour_prefix, getitem.
  destruct (r !! "timeOfDay") as [[|s]|]; simpl.
  - intros _. exists AttributeError. split; [reflexivity |]. split; congruence.
  - unfold int_of_str. destruct (parse_int (split_colon_0 s)); [discriminate |].
    intros _. eexists. split; [reflexivity |]. split; [reflexivity | discriminate].
  - intros _. eexists. split; [reflexivity |]. split; [reflexivity | discriminate].
Qed.

(** *** One turn of the loop *)

Lemma on_date_getitem (target : value) (r : row) :
  on_date target r = true -> getitem r "Date" = Ok target.
Proof.
  unfold on_date, getitem. intros H. apply bool_decide_eq_true in H.
  rewrite H. reflexivity.
Qed.

Lemma value_eqb_refl (v : value) : value_eqb v v = true.
Proof. rewrite value_eqb_decide. apply bool_decide_eq_true_2. reflexivity. Qed.

Lemma step_skip (target : value) (r : row) (rest : list row)
    (s : gmap Z (gmap string Z)) :
  has_key "Date" r = true -> on_date target r = false ->
  process_rows target (r :: rest) s = process_rows target rest s.
Proof.
  unfold on_date. intros Hd Hon. apply has_key_getitem in Hd as (d & Hd & Hg).
  cbn [process_rows]. rewrite Hg, value_eqb_decide.
  rewrite bool_decide_eq_false_2; [reflexivity |].
  apply bool_decide_eq_false in Hon. congruence.
Qed.

Lemma step_count (target : value) (r : row) (rest : list row)
    (s : gmap Z (gmap string Z)) (h : Z) (j : string) :
  on_date target r = true -> hour r = Some h -> junction r = Some j ->
  process_rows target (r :: rest) s = process_rows target rest (count_vehicle h j s).
Proof.
  intros Hon Hh Hj. cbn [process_rows].
  rewrite (on_date_getitem _ _ Hon), value_eqb_refl. cbn [negb].
  apply hour_of_Ok in Hh. rewrite Hh.
  unfold junction in Hj. unfold get.
  destruct (r !! "JunctionName") as [[|[|c t]]|]; try discriminate;
    injection Hj as <-; reflexivity.
Qed.

Lemma step_no_date (target : value) (r : row) (rest : list row)
    (s : gmap Z (gmap string Z)) :
  has_key "Date" r = false ->
  process_rows target (r :: rest) s = (s, Raised (KeyError "Date")).
Proof.
  unfold has_key, getitem. intros H. apply bool_decide_eq_false in H.
  cbn [process_rows]. unfold getitem.
  destruct (r !! "Date") as [d|]; [exfalso; apply H; eauto | reflexivity].
Qed.

(** An offending row stops the loop where it stands: with an error box, or,
    for a time of day that is [None], with the [AttributeError] of [split]. *)
Lemma step_stop (target : value) (r : row) (rest : list row)
    (s : gmap Z (gmap string Z)) :
  offending target r = true ->
  exists o, process_rows target (r :: rest) s = (s, o) /\ o <> Returned /\
    (r !! "timeOfDay" <> Some VNone ->
     o = Reported (InvalidTimeOfDay (get r "timeOfDay" VNone)) \/
     o = Reported JunctionNameMissing).
Proof.
  unfold offending. intros H. apply andb_true_iff in H as [Hon Hbad].
  cbn [process_rows]. rewrite (on_date_getitem _ _ Hon), value_eqb_refl. cbn [negb].
  destruct (hour r) as [h|] eqn:Hh.
  - apply hour_of_Ok in Hh. rewrite Hh.
    rewrite bool_decide_eq_true_2 in Hbad by eauto. simpl in Hbad.
    apply negb_true_iff, bool_decide_eq_false in Hbad.
    unfold junction in Hbad. unfold get.
    destruct (r !! "JunctionName") as [[|[|c t]]|];
      try (exfalso; apply Hbad; eauto; fail);
      (eexists; split; [reflexivity |]; split; [discriminate | auto]).
  - destruct (hour_of_None r Hh) as (e & He & Hcaught & Hattr). rewrite He.
    destruct (decide (r !! "timeOfDay" = Some VNone)) as [Hnone|Hsome].
    + rewrite (Hattr Hnone). simpl. eexists. split; [reflexivity |].
      split; [discriminate | contradiction].
    + rewrite (Hcaught Hsome). eexists. split; [reflexivity |].
      split; [discriminate | auto].
Qed.

(** *** Volumes *)

Lemma volume_cons (target : value) (h : Z) (j : string) (r : row) (rows : list row) :
  volume target h j (r :: rows) = volume target h j [r] + volume target h j rows.
Proof.
  unfold volume. rewrite !count_cons. unfold count, len. simpl. lia.
Qed.

Lemma volume_app (target : value) (h : Z) (j : string) (pre rest : list row) :
  volume target h j (pre ++ rest) = volume target h j pre + volume target h j rest.
Proof.
  induction pre as [|r pre IH]; simpl.
  - unfold volume at 2, count, len. simpl. lia.
  - rewrite volume_cons, (volume_cons _ _ _ r pre), IH. lia.
Qed.

Lemma volume_nonneg (target : value) (h : Z) (j : string) (rows : list row) :
  0 <= volume target h j rows.
Proof. unfold volume. apply count_bounds. Qed.

Lemma volume_one (target : value) (h : Z) (j : string) (r : row) :
  volume target h j [r]
  = if on_date target r && bool_decide (hour r = Some h)
       && bool_decide (junction r = Some j) then 1 else 0.
Proof.
  unfold volume. rewrite count_cons. unfold count, len. simpl.
  destruct (_ && _); reflexivity.
Qed.

Lemma add_volume_0 (c : option Z) : add_volume c 0 = c.
Proof. reflexivity. Qed.

Lemma add_volume_add (c : option Z) (a b : Z) :
  0 <= a -> 0 <= b -> add_volume (add_volume c a) b = add_volume c (a + b).
Proof.
  intros Ha Hb. unfold add_volume.
  destruct (Z.eqb_spec a 0) as [->|Ha0]; [rewrite Z.add_0_l; reflexivity |].
  destruct (Z.eqb_spec (a + b) 0) as [Hab|_]; [lia |].
  destruct (Z.eqb_spec b 0) as [->|_]; simpl; f_equal; lia.
Qed.

(** *** Rows that do not stop the loop *)

(** A groupable row is passed: skipped, or counted in its cell. *)
Lemma step_groupable (target : value) (r : row) (s : gmap Z (gmap string Z)) :
  groupable target r = true ->
  exists s1,
    (forall rest, process_rows target (r :: rest) s = process_rows target rest s1) /\
    (forall h j, cell s1 h j = add_volume (cell s h j) (volume target h j [r])).
Proof.
  unfold groupable, offending. intros H. apply andb_true_iff in H as [Hd Hok].
  destruct (on_date target r) eqn:Hon; simpl in Hok.
  - apply negb_true_iff, negb_false_iff, andb_true_iff in Hok as [Hh Hj].
    apply bool_decide_eq_true in Hh as [h0 Hh], Hj as [j0 Hj].
    exists (count_vehicle h0 j0 s). split.
    + intros rest. apply step_count; assumption.
    + intros h j. rewrite cell_count_vehicle, volume_one, Hon, Hh, Hj. simpl.
      destruct (decide (h0 = h)) as [->|Hne].
      * rewrite (bool_decide_eq_true_2 (Some h = Some h)) by reflexivity. simpl.
        destruct (decide (j0 = j)) as [->|Hnj].
        -- rewrite !bool_decide_eq_true_2 by auto. reflexivity.
        -- rewrite !bool_decide_eq_false_2 by (try tauto; congruence). reflexivity.
      * rewrite (bool_decide_eq_false_2 (Some h0 = Some h)) by congruence.
        rewrite bool_decide_eq_false_2 by tauto. reflexivity.
  - exists s. split.
    + intros rest. apply step_skip; assumption.
    + intros h j. rewrite volume_one, Hon. reflexivity.
Qed.

(** Groupable rows are passed one after the other, each counted in its cell. *)
Lemma process_rows_groupable (target : value) (pre : list row)
    (s : gmap Z (gmap string Z)) :
  Forall (fun r => groupable target r = true) pre ->
  exists s1,
    (forall rest, process_rows target (pre ++ rest) s = process_rows target rest s1) /\
    (forall h j, cell s1 h j = add_volume (cell s h j) (volume target h j pre)).
Proof.
  intros H. revert s. induction H as [|r pre Hr _ IH]; intros s.
  - exists s. split; [reflexivity |]. intros h j. reflexivity.
  - destruct (step_groupable target r s Hr) as (s1 & Hstep & Hcell).
    destruct (IH s1) as (s2 & Hrest & Hcell2).
    exists s2. split.
    + intros rest. rewrite <- app_comm_cons, Hstep. apply Hrest.
    + intros h j. rewrite Hcell2, Hcell, (volume_cons _ _ _ r pre).
      apply add_volume_add; apply volume_nonneg.
Qed.

(** Whatever the other rows are, an offending row keeps the loop from
    returning normally. *)
Lemma process_rows_offending (target : value) (rows : list row)
    (s : gmap Z (gmap string Z)) :
  Exists (fun r => offending target r = true) rows ->
  snd (process_rows target rows s) <> Returned.
Proof.
  intros H. revert s. induction H as [r rows Hr|r rows _ IH]; intros s.
  - destruct (step_stop target r rows s Hr) as (o & -> & Ho & _). exact Ho.
  - cbn [process_rows]. repeat case_match; simpl; try discriminate; apply IH.
Qed.

(** On rows that all have a date and a time of day other than [None], the
    first offending row ends the loop with one of its two error boxes. *)
Lemma process_rows_reports (target : value) (rows : list row)
    (s : gmap Z (gmap string Z)) :
  Forall (fun r => has_key "Date" r = true /\ r !! "timeOfDay" <> Some VNone) rows ->
  Exists (fun r => offending target r = true) rows ->
  exists d, snd (process_rows target rows s) = Reported d /\
    (d = JunctionNameMissing \/ exists v, d = InvalidTimeOfDay v).
Proof.
  intros Hreg. revert s. induction Hreg as [|r rows [Hd Ht] _ IH]; intros s Hex.
  - inversion Hex.
  - destruct (offending target r) eqn:Hoff.
    + destruct (step_stop target r rows s Hoff) as (o & -> & _ & Ho).
      destruct (Ho Ht) as [-> | ->]; simpl; eauto.
    + assert (Hg : groupable target r = true)
        by (unfold groupable; rewrite Hd, Hoff; reflexivity).
      destruct (step_groupable target r s Hg) as (s1 & Hstep & _).
      rewrite Hstep. apply IH. inversion Hex as [? ? Hbad|? ? Htail]; subst; [congruence | exact Htail].
Qed.

(** *** [process_data] *)

(** Past its guard, [process_data] runs the loop from an empty table. *)
Lemma process_data_loaded (rows : list row) (target : value)
    (s : gmap Z (gmap string Z)) :
  rows <> [] -> truthy target = true ->
  process_data (loaded rows target s)
  = (loaded rows target (fst (process_rows target rows ∅)),
     snd (process_rows target rows ∅)).
Proof.
  intros Hrows Htarget. unfold process_data, loaded. simpl.
  rewrite Htarget. destruct rows as [|r rows]; [contradiction |]. simpl negb.
  cbn [no_data orb]. destruct (process_rows target (r :: rows) ∅). reflexivity.
Qed.

(** At its guard (no rows, or no date), [process_data] returns at once and
    leaves the table as it found it. *)
Lemma process_data_guard (p : processor) :
  no_data (current_data p) = true \/ truthy (date p) = false ->
  process_data p = (p, Returned).
Proof.
  unfold process_data. intros [->| ->]; [reflexivity |].
  rewrite orb_true_r. reflexivity.
Qed.

End GroupingFacts.

(** ** The hourly table *)

Module GroupingClaims.

Import PyFacts AnalysisSpec AnalysisFacts AnalyzeFacts MultiCSVProcessor GroupingSpec
  GroupingFacts.

Example two_rows_one_dataset :
  process_data (loaded [sighting "21/06/2024" "08:15:00" "Hanley Highway/Westway";
                        sighting "21/06/2024" "09:05:30" "Hanley Highway/Westway";
                        sighting "22/06/2024" "09:10:00" "Hanley Highway/Westway"]
                  (VStr "21/06/2024") ∅)
  = (loaded [sighting "21/06/2024" "08:15:00" "Hanley Highway/Westway";
             sighting "21/06/2024" "09:05:30" "Hanley Highway/Westway";
             sighting "22/06/2024" "09:10:00" "Hanley Highway/Westway"]
       (VStr "21/06/2024")
       {[ 8 := {[ "Hanley Highway/Westway" := 1 ]};
          9 := {[ "Hanley Highway/Westway" := 1 ]} ]},
     Returned).
Proof. vm_compute. reflexivity. Qed.

(** A time of day that is absent or empty, and a junction name that is
    present but empty, make a row of the target date offending. *)
Lemma absent_or_empty_offending (target : value) (r : row) :
  on_date target r = true ->
  r !! "timeOfDay" = None \/ r !! "timeOfDay" = Some (VStr "") \/
  r !! "JunctionName" = Some (VStr "") ->
  offending target r = true.
Proof.
  unfold offending, hour, hour_prefix, junction.
  intros -> [H|[H|H]]; rewrite H; simpl; [reflexivity | reflexivity |].
  apply negb_true_iff, andb_false_iff. right. reflexivity.
Qed.

(** A row of the target date that has an hour but no [JunctionName] key is
    counted under the key ["Unknown"]. *)
Lemma absent_junction_is_unknown (target : value) (r : row) (h : Z)
    (prior : gmap Z (gmap string Z)) :
  truthy target = true -> on_date target r = true -> hour r = Some h ->
  r !! "JunctionName" = None ->
  process_data (loaded [r] target prior)
  = (loaded [r] target {[ h := {[ "Unknown" := 1 ]} ]}, Returned).
Proof.
  intros Ht Hon Hh Hj. rewrite process_data_loaded by (assumption || discriminate).
  assert (Hjn : junction r = Some "Unknown") by (unfold junction; rewrite Hj; reflexivity).
  rewrite (step_count target r [] ∅ h "Unknown" Hon Hh Hjn). simpl.
  rewrite count_vehicle_insert. unfold cell. rewrite lookup_empty. reflexivity.
Qed.

(** C4, as the code has it. With a non-empty target date, the grouping step
    does not return normally whenever some row of that date has no integer
    hour before the first colon of its time of day (the field absent or empty
    in particular) or has an empty junction name; on rows that all have a
    date and a time of day other than [None] it then ends with the "Invalid
    Data" or the "Missing Data" error box. A row without a [JunctionName]
    key is no error: it is counted under ["Unknown"]. *)
Theorem offending_row_stops_grouping (rows : list row) (target : value)
    (prior : gmap Z (gmap string Z)) :
  truthy target = true ->
  Exists (fun r => offending target r = true) rows ->
  snd (process_data (loaded rows target prior)) <> Returned /\
  (Forall (fun r => has_key "Date" r = true /\ r !! "timeOfDay" <> Some VNone) rows ->
   exists d, snd (process_data (loaded rows target prior)) = Reported d /\
     (d = JunctionNameMissing \/ exists v, d = InvalidTimeOfDay v)) /\
  (forall r h, on_date target r = true -> hour r = Some h ->
     r !! "JunctionName" = None ->
     offending target r = false /\
     process_data (loaded [r] target prior)
     = (loaded [r] target {[ h := {[ "Unknown" := 1 ]} ]}, Returned)).
Proof.
  intros Ht Hex.
  assert (Hrows : rows <> []) by (intros ->; inversion Hex).
  rewrite (process_data_loaded rows target prior Hrows Ht). simpl.
  split; [apply process_rows_offending, Hex |]. split.
  - intros Hreg. apply process_rows_reports; assumption.
  - intros r h Hon Hh Hj. split; [| apply absent_junction_is_unknown; assumption].
    unfold offending, junction. rewrite Hon, Hh, Hj. reflexivity.
Qed.

Lemma offending_row_stops_grouping_witness :
  truthy (VStr "21/06/2024") = true /\
  Exists (fun r => offending (VStr "21/06/2024") r = true)
    [sighting "21/06/2024" "08:15:00" "Hanley Highway/Westway";
     sighting "21/06/2024" "09:05:30" ""] /\
  Forall (fun r => has_key "Date" r = true /\ r !! "timeOfDay" <> Some VNone)
    [sighting "21/06/2024" "08:15:00" "Hanley Highway/Westway";
     sighting "21/06/2024" "09:05:30" ""] /\
  snd (process_data
         (loaded [sighting "21/06/2024" "08:15:00" "Hanley Highway/Westway";
                  sighting "21/06/2024" "09:05:30" ""]
            (VStr "21/06/2024") ∅)) <> Returned /\
  exists d,
    snd (process_data
           (loaded [sighting "21/06/2024" "08:15:00" "Hanley Highway/Westway";
                    sighting "21/06/2024" "09:05:30" ""]
              (VStr "21/06/2024") ∅)) = Reported d.
Proof.
  assert (Ht : truthy (VStr "21/06/2024") = true) by reflexivity.
  assert (Hex : Exists (fun r => offending (VStr "21/06/2024") r = true)
                  [sighting "21/06/2024" "08:15:00" "Hanley Highway/Westway";
                   sighting "21/06/2024" "09:05:30" ""])
    by (apply Exists_cons_tl, Exists_cons_hd; reflexivity).
  assert (Hreg : Forall (fun r => has_key "Date" r = true /\
                                  r !! "timeOfDay" <> Some VNone)
                   [sighting "21/06/2024" "08:15:00" "Hanley Highway/Westway";
                    sighting "21/06/2024" "09:05:30" ""])
    by (repeat constructor; discriminate).
  split; [exact Ht |]. split; [exact Hex |]. split; [exact Hreg |].
  destruct (offending_row_stops_grouping _ _ ∅ Ht Hex) as (Hstop & Hbox & _).
  split; [exact Hstop |].
  destruct (Hbox Hreg) as (d & Hd & _). exists d. exact Hd.
Defined.

(** C4, as stated, fails: a row of the target date without a [JunctionName]
    key does not make the grouping step fail, the step returns normally with
    the row counted under ["Unknown"]; and a row without a time of day does
    not make it fail either when it is dated otherwise. *)
Lemma absent_junction_is_counted :
  process_data
    (loaded [delete "JunctionName"
               (sighting "21/06/2024" "08:15:00" "Hanley Highway/Westway")]
       (VStr "21/06/2024") ∅)
  = (loaded [delete "JunctionName"
               (sighting "21/06/2024" "08:15:00" "Hanley Highway/Westway")]
       (VStr "21/06/2024") {[ 8 := {[ "Unknown" := 1 ]} ]},
     Returned) /\
  process_data
    (loaded [sighting "21/06/2024" "08:15:00" "Hanley Highway/Westway";
             delete "timeOfDay" (sighting "22/06/2024" "" "Hanley Highway/Westway")]
       (VStr "21/06/2024") ∅)
  = (loaded [sighting "21/06/2024" "08:15:00" "Hanley Highway/Westway";
             delete "timeOfDay" (sighting "22/06/2024" "" "Hanley Highway/Westway")]
       (VStr "21/06/2024") {[ 8 := {[ "Hanley Highway/Westway" := 1 ]} ]},
     Returned).
Proof. split; vm_compute; reflexivity. Qed.

(** C5, as the code has it. For a non-empty record sequence and a non-empty
    target date with no offending row, the grouping step returns normally and
    the table has, for each hour [h] and junction [j], a cell exactly when
    some row of the target date has hour [h] and junction [j], holding the
    number of those rows; the hour is the integer denoted by the text before
    the first colon of the time of day, so rows with the same text get the
    same hour. *)
Theorem hourly_table_counts (rows : list row) (target : value)
    (prior : gmap Z (gmap string Z)) :
  rows <> [] -> truthy target = true ->
  Forall (fun r => groupable target r = true) rows ->
  exists s,
    process_data (loaded rows target prior) = (loaded rows target s, Returned) /\
    (forall h j, cell s h j = if volume target h j rows =? 0 then None
                              else Some (volume target h j rows)) /\
    (forall r1 r2 p, hour_prefix r1 = Some p -> hour_prefix r2 = Some p ->
                     hour_of r1 = hour_of r2 /\ hour_of r1 = int_of_str p).
Proof.
  intros Hrows Ht Hg.
  destruct (process_rows_groupable target rows ∅ Hg) as (s & Hs & Hcell).
  specialize (Hs []). rewrite app_nil_r in Hs.
  exists s. split; [| split].
  - rewrite (process_data_loaded rows target prior Hrows Ht), Hs. reflexivity.
  - intros h j. rewrite Hcell. unfold add_volume, cell. rewrite lookup_empty. simpl.
    destruct (_ =? 0); reflexivity.
  - intros r1 r2 p. unfold hour_prefix, hour_of, getitem.
    destruct (r1 !! "timeOfDay") as [[|s1]|]; try discriminate.
    destruct (r2 !! "timeOfDay") as [[|s2]|]; try discriminate.
    simpl. intros [= ->] [= ->]. split; reflexivity.
Qed.

Lemma hourly_table_counts_witness :
  [sighting "21/06/2024" "08:15:00" "Hanley Highway/Westway";
   sighting "21/06/2024" "8:40:10" "Hanley Highway/Westway";
   sighting "22/06/2024" "09:10:00" "Hanley Highway/Westway"] <> [] /\
  truthy (VStr "21/06/2024") = true /\
  Forall (fun r => groupable (VStr "21/06/2024") r = true)
    [sighting "21/06/2024" "08:15:00" "Hanley Highway/Westway";
     sighting "21/06/2024" "8:40:10" "Hanley Highway/Westway";
     sighting "22/06/2024" "09:10:00" "Hanley Highway/Westway"] /\
  exists s,
    process_data
      (loaded [sighting "21/06/2024" "08:15:00" "Hanley Highway/Westway";
               sighting "21/06/2024" "8:40:10" "Hanley Highway/Westway";
               sighting "22/06/2024" "09:10:00" "Hanley Highway/Westway"]
         (VStr "21/06/2024") ∅)
    = (loaded [sighting "21/06/2024" "08:15:00" "Hanley Highway/Westway";
               sighting "21/06/2024" "8:40:10" "Hanley Highway/Westway";
               sighting "22/06/2024" "09:10:00" "Hanley Highway/Westway"]
         (VStr "21/06/2024") s, Returned) /\
    cell s 8 "Hanley Highway/Westway" = Some 2.
Proof.
  assert (Hne : [sighting "21/06/2024" "08:15:00" "Hanley Highway/Westway";
                 sighting "21/06/2024" "8:40:10" "Hanley Highway/Westway";
                 sighting "22/06/2024" "09:10:00" "Hanley Highway/Westway"] <> [])
    by discriminate.
  assert (Ht : truthy (VStr "21/06/2024") = true) by reflexivity.
  assert (Hg : Forall (fun r => groupable (VStr "21/06/2024") r = true)
                 [sighting "21/06/2024" "08:15:00" "Hanley Highway/Westway";
                  sighting "21/06/2024" "8:40:10" "Hanley Highway/Westway";
                  sighting "22/06/2024" "09:10:00" "Hanley Highway/Westway"])
    by (repeat constructor).
  split; [exact Hne |]. split; [exact Ht |]. split; [exact Hg |].
  destruct (hourly_table_counts _ _ ∅ Hne Ht Hg) as (s & Hs & Hcell & _).
  exists s. split; [exact Hs |]. exact (Hcell 8 "Hanley Highway/Westway").
Defined.

(** C5, as stated, fails: the bucket is not the text before the colon. Two
    rows with the texts [08] and [8] share the bucket [8], whose count [2] is
    the number of rows of no single text. And not every row of the target
    date is processed: after a row without an hour the table has no cell for
    the row that follows it. *)
Lemma different_prefixes_share_a_bucket :
  (process_data
     (loaded [sighting "21/06/2024" "08:15:00" "Hanley Highway/Westway";
              sighting "21/06/2024" "8:40:10" "Hanley Highway/Westway"]
        (VStr "21/06/2024") ∅)
   = (loaded [sighting "21/06/2024" "08:15:00" "Hanley Highway/Westway";
              sighting "21/06/2024" "8:40:10" "Hanley Highway/Westway"]
        (VStr "21/06/2024") {[ 8 := {[ "Hanley Highway/Westway" := 2 ]} ]},
      Returned) /\
   forall p, prefix_volume (VStr "21/06/2024") p "Hanley Highway/Westway"
               [sighting "21/06/2024" "08:15:00" "Hanley Highway/Westway";
                sighting "21/06/2024" "8:40:10" "Hanley Highway/Westway"] <> 2) /\
  (process_data
     (loaded [sighting "21/06/2024" "eight" "Hanley Highway/Westway";
              sighting "21/06/2024" "09:05:30" "Hanley Highway/Westway"]
        (VStr "21/06/2024") ∅)
   = (loaded [sighting "21/06/2024" "eight" "Hanley Highway/Westway";
              sighting "21/06/2024" "09:05:30" "Hanley Highway/Westway"]
        (VStr "21/06/2024") ∅,
      Reported (InvalidTimeOfDay (VStr "eight"))) /\
   prefix_volume (VStr "21/06/2024") "09" "Hanley Highway/Westway"
     [sighting "21/06/2024" "eight" "Hanley Highway/Westway";
      sighting "21/06/2024" "09:05:30" "Hanley Highway/Westway"] = 1).
Proof.
  split; [| split; vm_compute; reflexivity].
  split; [vm_compute; reflexivity |].
  intros p. unfold prefix_volume. rewrite !count_cons.
  change (count _ []) with 0.
  change (hour_prefix (sighting "21/06/2024" "08:15:00" "Hanley Highway/Westway"))
    with (Some "08").
  change (hour_prefix (sighting "21/06/2024" "8:40:10" "Hanley Highway/Westway"))
    with (Some "8").
  destruct (decide (p = "08")) as [->|H08].
  - rewrite (bool_decide_eq_false_2 (Some "8" = Some "08")) by discriminate.
    rewrite andb_false_r. simpl. destruct (_ && _); lia.
  - rewrite (bool_decide_eq_false_2 (Some "08" = Some p)) by congruence.
    rewrite andb_false_r. simpl. destruct (_ && _); lia.
Qed.

(** C10. The grouping step is not atomic: when rows that the loop passes are
    followed by an offending row, [process_data] ends at that row without
    returning normally, and the table it leaves holds the counts of the rows
    before it: it is neither emptied nor restored. *)
Theorem grouping_error_keeps_partial_table (pre post : list row) (bad : row)
    (target : value) (prior : gmap Z (gmap string Z)) :
  truthy target = true ->
  Forall (fun r => groupable target r = true) pre ->
  offending target bad = true ->
  exists s o,
    process_data (loaded (pre ++ bad :: post) target prior)
    = (loaded (pre ++ bad :: post) target s, o) /\
    o <> Returned /\
    (bad !! "timeOfDay" <> Some VNone ->
     o = Reported (InvalidTimeOfDay (get bad "timeOfDay" VNone)) \/
     o = Reported JunctionNameMissing) /\
    (forall h j, cell s h j = if volume target h j pre =? 0 then None
                              else Some (volume target h j pre)).
Proof.
  intros Ht Hpre Hbad.
  destruct (process_rows_groupable target pre ∅ Hpre) as (s & Hs & Hcell).
  destruct (step_stop target bad post s Hbad) as (o & Hstop & Ho & Hkind).
  exists s, o. split; [| split; [exact Ho | split; [exact Hkind |]]].
  - rewrite process_data_loaded; [| intros H; destruct pre; discriminate | exact Ht].
    rewrite Hs, Hstop. reflexivity.
  - intros h j. rewrite Hcell. unfold add_volume, cell. rewrite lookup_empty. simpl.
    destruct (_ =? 0); reflexivity.
Qed.

Lemma grouping_error_keeps_partial_table_witness :
  truthy (VStr "21/06/2024") = true /\
  Forall (fun r => groupable (VStr "21/06/2024") r = true)
    [sighting "21/06/2024" "08:15:00" "Hanley Highway/Westway"] /\
  offending (VStr "21/06/2024")
    (sighting "21/06/2024" "eight" "Hanley Highway/Westway") = true /\
  exists s o,
    process_data
      (loaded ([sighting "21/06/2024" "08:15:00" "Hanley Highway/Westway"]
               ++ sighting "21/06/2024" "eight" "Hanley Highway/Westway"
                  :: [sighting "21/06/2024" "09:05:30" "Hanley Highway/Westway"])
         (VStr "21/06/2024") ∅)
    = (loaded ([sighting "21/06/2024" "08:15:00" "Hanley Highway/Westway"]
               ++ sighting "21/06/2024" "eight" "Hanley Highway/Westway"
                  :: [sighting "21/06/2024" "09:05:30" "Hanley Highway/Westway"])
         (VStr "21/06/2024") s, o) /\
    o <> Returned /\ cell s 8 "Hanley Highway/Westway" = Some 1.
Proof.
  assert (Ht : truthy (VStr "21/06/2024") = true) by reflexivity.
  assert (Hpre : Forall (fun r => groupable (VStr "21/06/2024") r = true)
                   [sighting "21/06/2024" "08:15:00" "Hanley Highway/Westway"])
    by (repeat constructor).
  assert (Hbad : offending (VStr "21/06/2024")
                   (sighting "21/06/2024" "eight" "Hanley Highway/Westway") = true)
    by reflexivity.
  split; [exact Ht |]. split; [exact Hpre |]. split; [exact Hbad |].
  destruct (grouping_error_keeps_partial_table _
              [sighting "21/06/2024" "09:05:30" "Hanley Highway/Westway"] _ _ ∅
              Ht Hpre Hbad) as (s & o & Hrun & Ho & _ & Hcell).
  exists s, o. split; [exact Hrun |]. split; [exact Ho |].
  exact (Hcell 8 "Hanley Highway/Westway").
Defined.

Example partial_table_after_error :
  process_data
    (loaded [sighting "21/06/2024" "08:15:00" "Hanley Highway/Westway";
             sighting "21/06/2024" "eight" "Hanley Highway/Westway";
             sighting "21/06/2024" "09:05:30" "Hanley Highway/Westway"]
       (VStr "21/06/2024") ∅)
  = (loaded [sighting "21/06/2024" "08:15:00" "Hanley Highway/Westway";
             sighting "21/06/2024" "eight" "Hanley Highway/Westway";
             sighting "21/06/2024" "09:05:30" "Hanley Highway/Westway"]
       (VStr "21/06/2024") {[ 8 := {[ "Hanley Highway/Westway" := 1 ]} ]},
     Reported (InvalidTimeOfDay (VStr "eight"))).
Proof. vm_compute. reflexivity. Qed.

(** C9. What a dataset pass of the session loop produces (the processor's
    attributes, the message boxes, the table handed to the histogram) does
    not depend on the state in which the earlier datasets left the
    processor; and the grouping step itself, past its guard, does not depend
    on the table it finds. *)
Theorem dataset_pass_isolated (first_of_set : list value -> value)
    (selection : option (list row)) (p1 p2 : processor) :
  dataset_pass first_of_set selection p1 = dataset_pass first_of_set selection p2 /\
  (forall rows target s1 s2, rows <> [] -> truthy target = true ->
     process_data (loaded rows target s1) = process_data (loaded rows target s2)).
Proof.
  split; [reflexivity |].
  intros rows target s1 s2 Hrows Ht.
  rewrite !process_data_loaded by assumption. reflexivity.
Qed.

Lemma dataset_pass_isolated_witness :
  [sighting "22/06/2024" "09:10:00" "Elm Avenue/Rabbit Road"] <> [] /\
  truthy (VStr "22/06/2024") = true /\
  process_data
    (loaded [sighting "22/06/2024" "09:10:00" "Elm Avenue/Rabbit Road"]
       (VStr "22/06/2024") {[ 8 := {[ "Hanley Highway/Westway" := 7 ]} ]})
  = process_data
      (loaded [sighting "22/06/2024" "09:10:00" "Elm Avenue/Rabbit Road"]
         (VStr "22/06/2024") ∅).
Proof.
  assert (Hne : [sighting "22/06/2024" "09:10:00" "Elm Avenue/Rabbit Road"] <> [])
    by discriminate.
  assert (Ht : truthy (VStr "22/06/2024") = true) by reflexivity.
  split; [exact Hne |]. split; [exact Ht |].
  exact (proj2 (dataset_pass_isolated first_read None init init) _ _
           {[ 8 := {[ "Hanley Highway/Westway" := 7 ]} ]} ∅ Hne Ht).
Defined.

(** At the guard of [process_data] the table is kept, not emptied: the reset
    there is left to [clear_previous_data]. *)
Example guard_keeps_the_table :
  process_data (loaded [] (VStr "22/06/2024") {[ 8 := {[ "Hanley Highway/Westway" := 7 ]} ]})
  = (loaded [] (VStr "22/06/2024") {[ 8 := {[ "Hanley Highway/Westway" := 7 ]} ]}, Returned).
Proof. reflexivity. Qed.

(** C7, as the code has it. With no row, [analyze_data] returns a result
    whose counts, percentages and average are [0] and whose peak-hour list is
    empty; a dataset pass over a file with no row leaves the table empty and
    draws nothing, but it is a failed load: the loader raises
    [ValueError("CSV file is empty.")] and shows it in its error box. The
    grouping step on no row returns at once. *)
Theorem empty_source (filename : string) (first_of_set : list value -> value)
    (p : processor) :
  Analysis.analyze_data [] filename = Ok (empty_results filename) /\
  dataset_pass first_of_set (Some []) p
  = (loaded [] VNone ∅, [FailedToLoadFile (ValueError "CSV file is empty.")], None) /\
  load_rows first_of_set [] p
  = (loaded [] (date p) (traffic_summary p), [], Some (ValueError "CSV file is empty.")) /\
  process_data (loaded [] (date p) (traffic_summary p))
  = (loaded [] (date p) (traffic_summary p), Returned).
Proof. repeat split; reflexivity. Qed.

(** C7, as stated, fails: on a source with zero records the loader of the
    grouping engine raises. *)
Lemma empty_file_raises :
  snd (load_rows first_read [] init) <> None /\
  snd (load_csv_file first_read (Some []) init)
  = [FailedToLoadFile (ValueError "CSV file is empty.")].
Proof. split; [discriminate | reflexivity]. Qed.

End GroupingClaims.

(** ** More on counting rows *)

Module CountFacts.

Import PyFacts AnalysisSpec AnalysisFacts.

Lemma count_disjoint (p q : row -> bool) (data : list row) :
  (forall r, p r = true -> q r = false) -> count p data + count q data <= len data.
Proof.
  intros Hpq. induction data as [|r data IH]; [reflexivity |].
  rewrite !count_cons, len_cons. specialize (Hpq r).
  destruct (p r); [rewrite Hpq by reflexivity | destruct (q r)]; lia.
Qed.

Lemma count_zero_iff (p : row -> bool) (data : list row) :
  count p data = 0 <-> Forall (fun r => p r = false) data.
Proof.
  induction data as [|r data IH].
  - split; [constructor | reflexivity].
  - rewrite count_cons, Forall_cons. pose proof (count_bounds p data).
    destruct (p r); split.
    + lia.
    + intros [? _]. discriminate.
    + intros H0. split; [reflexivity | apply IH; lia].
    + intros [_ H0]. apply IH in H0. lia.
Qed.

Lemma count_pos (p : row -> bool) (x : row) (data : list row) :
  x ∈ data -> p x = true -> 0 < count p data.
Proof.
  intros Hin Hp. induction data as [|r data IH]; [inversion Hin |].
  rewrite count_cons. pose proof (count_bounds p data).
  apply elem_of_cons in Hin as [<-|Hin]; [rewrite Hp; lia |].
  specialize (IH Hin). destruct (p r); lia.
Qed.

End CountFacts.

(** ** More on the aggregator *)

Module AnalysisExtras.

Import PyFacts Analysis AnalysisSpec AnalysisFacts CounterFacts AnalyzeFacts PeakFacts
  CountFacts.

(** *** Where [analyze_data] returns *)

(** Whatever rows [analyze_data] returns on are complete. *)
Lemma analyze_data_Ok_complete (data : list row) (filename : string) (r : results) :
  analyze_data data filename = Ok r -> Forall (fun r => complete r = true) data.
Proof.
  intros H.
  unfold analyze_data, trucks, electric_vehicles, two_wheeled_vehicles,
    elm_buses_north, no_turns, over_speed, elm_avenue_vehicles in H.
  do 7 bind_inv H. clear H.
  apply sum_ones_defined in Ha, Ha0, Ha3, Ha4, Ha5.
  rewrite Forall_forall in *. intros x Hx.
  destruct (Ha x Hx) as (b1 & H1). destruct (Ha0 x Hx) as (b2 & H2).
  destruct (Ha3 x Hx) as (b3 & H3). destruct (Ha4 x Hx) as (b4 & H4).
  destruct (Ha5 x Hx) as (b5 & H5).
  apply field_is_has_key in H1, H2, H5. apply is_no_turn_has_keys in H3 as [Hi Ho].
  apply is_over_speed_spec in H4 as [_ Hnum].
  unfold complete, has_categories. rewrite H1, H2, H5, Hi, Ho, Hnum. reflexivity.
Qed.

(** X1. [analyze_data] returns a result exactly on the sequences whose rows
    all have the five category columns and two numeric speeds: any other row
    makes it raise, and (below [2^1023] rows) nothing else does. *)
Theorem analyze_data_returns_iff_complete (data : list row) (filename : string) :
  len data < 2 ^ 1023 ->
  ((exists r, analyze_data data filename = Ok r) <->
   Forall (fun r => complete r = true) data).
Proof.
  intros Hlen. split; [| intros Hc; apply analyze_data_total; assumption].
  intros (r & H). exact (analyze_data_Ok_complete data filename r H).
Qed.

Lemma analyze_data_returns_iff_complete_witness :
  len scenario < 2 ^ 1023 /\
  ((exists r, analyze_data scenario "traffic_data21062024.csv" = Ok r) <->
   Forall (fun r => complete r = true) scenario).
Proof.
  assert (Hlen : len scenario < 2 ^ 1023) by reflexivity.
  split; [exact Hlen |].
  exact (analyze_data_returns_iff_complete scenario "traffic_data21062024.csv" Hlen).
Defined.

(** *** Percentages at their ends *)

Lemma percentage_of_none (whole : Z) : 0 <= whole -> percentage 0 whole = Ok 0.
Proof.
  intros Hw. unfold percentage. destruct (Z.eqb_spec whole 0) as [|Hne]; [reflexivity |].
  unfold true_div. destruct (Z.eqb_spec whole 0); [contradiction |].
  replace (whole <? 0) with false by (symmetry; apply Z.ltb_ge; lia).
  reflexivity.
Qed.

Lemma round_binary64_one (n : Z) : 0 < n -> round_binary64 n n = (2 ^ 52, -52).
Proof.
  intros Hn. unfold round_binary64, ilog2_ratio, scaled_le.
  rewrite Z.sub_diag. change (0 <=? 0) with true. cbv iota.
  change (2 ^ 0) with 1. rewrite Z.mul_1_r, Z.leb_refl.
  change (Z.max (0 - 52) (-1074)) with (-52). change (0 <=? -52) with false. cbv iota.
  f_equal. unfold rne_div. change (- -52) with 52.
  rewrite (Z.mul_comm n (2 ^ 52)), Z.mod_mul, Z.div_mul by lia.
  change (2 * 0) with 0. destruct (Z.compare_spec 0 n); [lia | reflexivity | lia].
Qed.

Lemma percentage_of_all (whole : Z) : 0 < whole -> percentage whole whole = Ok 100.
Proof.
  intros Hw. unfold percentage, true_div.
  destruct (Z.eqb_spec whole 0); [lia |].
  replace (whole <? 0) with false by (symmetry; apply Z.ltb_ge; lia).
  cbv zeta. change (xorb false false) with false.
  rewrite Z.abs_eq, round_binary64_one by lia.
  reflexivity.
Qed.

(** X2. Every percentage that [analyze_data] returns lies between [0] and
    [100]; the truck percentage is [0] when no row is a truck and [100] when
    every row of a non-empty sequence is one. *)
Theorem percentages_within_bounds (data : list row) (filename : string)
    (r : results) :
  analyze_data data filename = Ok r ->
  0 <= truck_percentage r <= 100 /\
  0 <= scooter_percentage_elm_avenue r <= 100 /\
  (total_trucks r = 0 -> truck_percentage r = 0) /\
  (data <> [] -> total_trucks r = total_vehicles r -> truck_percentage r = 100).
Proof.
  intros H. apply analyze_data_Ok in H.
  pose proof (an_truck_percentage _ _ _ H) as Ht.
  pose proof (an_scooter_percentage _ _ _ H) as Hs.
  destruct (percentage_ok _ _ (count_bounds (field_eq "VehicleType" "Truck") data))
    as (v & Hv & Hb & _).
  destruct (percentage_ok (count elm_scooter data)
              (count (field_eq "JunctionName" "Elm Avenue/Rabbit Road") data))
    as (w & Hw & Hwb & _).
  { split; [apply count_bounds |]. apply count_le. intros x.
    unfold elm_scooter. rewrite andb_true_iff. tauto. }
  rewrite Ht in Hv. injection Hv as <-. rewrite Hs in Hw. injection Hw as <-.
  split; [exact Hb |]. split; [exact Hwb |]. split.
  - intros H0. rewrite (an_trucks _ _ _ H) in H0. rewrite H0 in Ht.
    rewrite percentage_of_none in Ht by apply len_nonneg. congruence.
  - intros Hne Hall. rewrite (an_trucks _ _ _ H), (an_total _ _ _ H) in Hall.
    rewrite Hall in Ht. rewrite percentage_of_all in Ht; [congruence |].
    destruct data; [contradiction | rewrite len_cons; pose proof (len_nonneg data); lia].
Qed.

Lemma percentages_within_bounds_witness :
  analyze_data scenario "traffic_data21062024.csv" = Ok scenario_results /\
  0 <= truck_percentage scenario_results <= 100 /\
  0 <= scooter_percentage_elm_avenue scenario_results <= 100.
Proof.
  assert (H : analyze_data scenario "traffic_data21062024.csv" = Ok scenario_results)
    by reflexivity.
  destruct (percentages_within_bounds scenario _ scenario_results H) as (H1 & H2 & _).
  split; [exact H |]. split; [exact H1 | exact H2].
Defined.

(** *** Relations between the counts *)

Lemma truck_not_two_wheeled (r : row) :
  field_eq "VehicleType" "Truck" r = true -> two_wheeled r = false.
Proof.
  unfold two_wheeled, field_eq. intros H. apply bool_decide_eq_true in H.
  rewrite H. reflexivity.
Qed.

Lemma elm_not_hanley (r : row) :
  field_eq "JunctionName" "Elm Avenue/Rabbit Road" r = true ->
  field_eq "JunctionName" "Hanley Highway/Westway" r = false.
Proof.
  unfold field_eq. intros H. apply bool_decide_eq_true in H. rewrite H. reflexivity.
Qed.

(** X3. In every result of [analyze_data] the counts fit together: trucks
    and two-wheeled vehicles are disjoint parts of the total, and so are the
    vehicles at the two junctions; the northbound buses at Elm Avenue are
    among the vehicles there; the two over-speeding entries are equal; no
    count is negative or above the total. *)
Theorem counts_fit_together (data : list row) (filename : string) (r : results) :
  analyze_data data filename = Ok r ->
  total_trucks r + total_two_wheeled_vehicles r <= total_vehicles r /\
  elm_avenue_rabbit_road_vehicles r + hanley_highway_westway_vehicles r
    <= total_vehicles r /\
  total_elm_buses_north r <= elm_avenue_rabbit_road_vehicles r /\
  over_speeding_vehicles r = over_speeding r /\
  Forall (fun n => 0 <= n <= total_vehicles r)
    [total_trucks r; total_electric_vehicles r; total_two_wheeled_vehicles r;
     total_elm_buses_north r; total_no_turns r; over_speeding r;
     elm_avenue_rabbit_road_vehicles r; hanley_highway_westway_vehicles r;
     total_rain_hours r].
Proof.
  intros H. apply analyze_data_Ok in H. destruct H.
  rewrite an_total0, an_trucks0, an_electric0, an_two_wheeled0, an_elm_buses0,
    an_no_turns0, an_over_speeding0, an_over_speeding_vehicles0, an_elm0, an_hanley0,
    an_rain0.
  split; [apply count_disjoint, truck_not_two_wheeled |].
  split; [apply count_disjoint, elm_not_hanley |].
  split; [apply count_le; intros x; unfold elm_bus_north; rewrite !andb_true_iff; tauto |].
  split; [reflexivity |].
  repeat (constructor; [apply count_bounds |]). constructor.
Qed.

Lemma counts_fit_together_witness :
  analyze_data scenario "traffic_data21062024.csv" = Ok scenario_results /\
  total_trucks scenario_results + total_two_wheeled_vehicles scenario_results
    <= total_vehicles scenario_results.
Proof.
  assert (H : analyze_data scenario "traffic_data21062024.csv" = Ok scenario_results)
    by reflexivity.
  split; [exact H |].
  exact (proj1 (counts_fit_together scenario _ scenario_results H)).
Defined.

(** *** Missing columns *)

Lemma sum_ones_missing_key (k s : string) (data : list row) (acc : Z) :
  Exists (fun r => has_key k r = false) data ->
  sum_ones (field_is k s) data acc = Raise (KeyError k).
Proof.
  intros H. revert acc. induction data as [|r data IH]; intros acc; [inversion H |].
  cbn [sum_ones]. destruct (has_key k r) eqn:Hk.
  - rewrite (field_is_total _ _ _ Hk). cbn [bind]. apply IH.
    inversion H as [? ? Hbad|? ? Htail]; subst; [congruence | exact Htail].
  - unfold field_is, getitem. unfold has_key in Hk. apply bool_decide_eq_false in Hk.
    destruct (r !! k) as [v|]; [exfalso; apply Hk; eauto | reflexivity].
Qed.

(** X4. A file without a [VehicleType] column (or with a row that lacks the
    key) makes [analyze_data] raise [KeyError('VehicleType')], whatever else
    the rows hold; with that column everywhere, a missing [elctricHybrid]
    raises [KeyError('elctricHybrid')]. [main] reports either through its
    catch-all clause. *)
Theorem missing_column_raises_key_error (data : list row) (filename : string) :
  (Exists (fun r => has_key "VehicleType" r = false) data ->
   analyze_data data filename = Raise (KeyError "VehicleType") /\
   main_pass (one_file filename data) filename = AnErrorOccurred (KeyError "VehicleType")) /\
  (Forall (fun r => has_key "VehicleType" r = true) data ->
   Exists (fun r => has_key "elctricHybrid" r = false) data ->
   analyze_data data filename = Raise (KeyError "elctricHybrid") /\
   main_pass (one_file filename data) filename
   = AnErrorOccurred (KeyError "elctricHybrid")).
Proof.
  assert (Hmain : forall e, is_FileNotFoundError e = false ->
            analyze_data data filename = Raise e ->
            main_pass (one_file filename data) filename = AnErrorOccurred e).
  { intros e He H. rewrite (main_pass_raise _ _ _ H). unfold handle. rewrite He.
    reflexivity. }
  split.
  - intros Hex.
    assert (H : analyze_data data filename = Raise (KeyError "VehicleType")).
    { unfold analyze_data, trucks. rewrite sum_ones_missing_key by exact Hex.
      reflexivity. }
    split; [exact H | apply Hmain; [reflexivity | exact H]].
  - intros Hall Hex.
    assert (H : analyze_data data filename = Raise (KeyError "elctricHybrid")).
    { unfold analyze_data, trucks, electric_vehicles.
      rewrite (sum_ones_total (field_is "VehicleType" "Truck")
                 (field_eq "VehicleType" "Truck")).
      - cbn [bind]. rewrite sum_ones_missing_key by exact Hex. reflexivity.
      - eapply Forall_impl; [exact Hall |]. intros x. apply field_is_total. }
    split; [exact H | apply Hmain; [reflexivity | exact H]].
Qed.

Lemma missing_column_raises_key_error_witness :
  Exists (fun r => has_key "VehicleType" r = false) (scenario ++ [no_vehicle_type]) /\
  analyze_data (scenario ++ [no_vehicle_type]) "traffic_data21062024.csv"
  = Raise (KeyError "VehicleType") /\
  Forall (fun r => has_key "VehicleType" r = true)
    [delete "elctricHybrid" bad_speed] /\
  Exists (fun r => has_key "elctricHybrid" r = false)
    [delete "elctricHybrid" bad_speed] /\
  analyze_data [delete "elctricHybrid" bad_speed] "traffic_data21062024.csv"
  = Raise (KeyError "elctricHybrid").
Proof.
  assert (H1 : Exists (fun r => has_key "VehicleType" r = false)
                 (scenario ++ [no_vehicle_type]))
    by (do 4 apply Exists_cons_tl; apply Exists_cons_hd; reflexivity).
  assert (H2 : Forall (fun r => has_key "VehicleType" r = true)
                 [delete "elctricHybrid" bad_speed])
    by (repeat constructor).
  assert (H3 : Exists (fun r => has_key "elctricHybrid" r = false)
                 [delete "elctricHybrid" bad_speed])
    by (apply Exists_cons_hd; reflexivity).
  split; [exact H1 |]. split.
  - exact (proj1 (proj1 (missing_column_raises_key_error _ _) H1)).
  - split; [exact H2 |]. split; [exact H3 |].
    exact (proj1 (proj2 (missing_column_raises_key_error _ _) H2 H3)).
Defined.

(** *** Rain hours *)

Lemma rain_hours_count (data : list row) :
  rain_hours data = count (field_eq "timeOfDay" "True") data.
Proof.
  unfold rain_hours, count. f_equal. apply filter_ext. intros r.
  unfold get, field_eq. rewrite value_eqb_VStr.
  destruct (r !! "timeOfDay") as [v|].
  - apply bool_decide_ext. split; congruence.
  - reflexivity.
Qed.

(** X5. "Total Rain Hours" counts the rows whose time of day is the text
    [True]: it is [0] exactly when there is no such row, and so on every
    sequence in which each time of day that is present has an integer hour
    before its colon. *)
Theorem rain_hours_zero_on_times (data : list row) (filename : string) (r : results) :
  analyze_data data filename = Ok r ->
  (total_rain_hours r = 0 <->
   Forall (fun x => x !! "timeOfDay" <> Some (VStr "True")) data) /\
  (Forall (fun x => x !! "timeOfDay" = None \/ is_Some (GroupingSpec.hour x)) data ->
   total_rain_hours r = 0).
Proof.
  intros H. apply analyze_data_Ok in H.
  rewrite (an_rain _ _ _ H), rain_hours_count, count_zero_iff.
  assert (Hiff : forall x : row, field_eq "timeOfDay" "True" x = false <->
                                 x !! "timeOfDay" <> Some (VStr "True")).
  { intros x. unfold field_eq. apply bool_decide_eq_false. }
  split.
  - split; intros Hall; (eapply Forall_impl; [exact Hall |]); intros x; apply Hiff.
  - intros Hall. eapply Forall_impl; [exact Hall |]. intros x Hx. apply Hiff.
    intros Htrue. destruct Hx as [Hx|[h Hx]]; [congruence |].
    unfold GroupingSpec.hour, GroupingSpec.hour_prefix in Hx. rewrite Htrue in Hx.
    discriminate.
Qed.

Lemma rain_hours_zero_on_times_witness :
  analyze_data scenario "traffic_data21062024.csv" = Ok scenario_results /\
  Forall (fun x => x !! "timeOfDay" = None \/ is_Some (GroupingSpec.hour x)) scenario /\
  total_rain_hours scenario_results = 0.
Proof.
  assert (H : analyze_data scenario "traffic_data21062024.csv" = Ok scenario_results)
    by reflexivity.
  assert (Hall : Forall (fun x => x !! "timeOfDay" = None \/
                                  is_Some (GroupingSpec.hour x)) scenario)
    by (repeat (constructor; [right; eexists; reflexivity |]); constructor).
  split; [exact H |]. split; [exact Hall |].
  exact (proj2 (rain_hours_zero_on_times scenario _ scenario_results H) Hall).
Defined.

(** *** Peak hours *)

(** X6. The peak-hour list is empty exactly when no row at Hanley
    Highway/Westway has a non-empty time of day; otherwise it names at least
    one hour, and all the hours it names have the same count. *)
Theorem peak_hours_empty_iff (data : list row) (filename : string) (r : results) :
  analyze_data data filename = Ok r ->
  (peak_hours_hanley r = [] <-> Forall (fun x => hanley_hour x = None) data) /\
  (forall h h', h ∈ peak_hours_hanley r -> h' ∈ peak_hours_hanley r ->
     bucket_count hanley_hour h data = bucket_count hanley_hour h' data).
Proof.
  intros H. apply analyze_data_Ok in H. pose proof (an_peak _ _ _ H) as Hpeak.
  pose proof (counter_ok_fill hanley_hour data [] counter_ok_nil) as Hok.
  destruct (peak_hours_spec _ _ Hok Hpeak) as [Hiff _].
  assert (Hlook : forall h, lookup h (fill hanley_hour data [])
                            = bucket_count hanley_hour h data).
  { intros h. rewrite lookup_fill. simpl. lia. }
  split; [split |].
  - intros Hnil. apply Forall_forall. intros x Hx.
    destruct (hanley_hour x) as [h|] eqn:Hh; [exfalso | reflexivity].
    assert (Hpos : 0 < lookup h (fill hanley_hour data [])).
    { rewrite Hlook. unfold bucket_count. apply (count_pos _ x); [exact Hx |].
      apply bool_decide_eq_true_2, Hh. }
    unfold peak_hours in Hpeak. bind_inv Hpeak. injection Hpeak as Hhs.
    destruct (fill hanley_hour data []) as [|kv d] eqn:Ed; [simpl in Hpos; lia |].
    change (max (values (kv :: d)) = Ok a) in Ha.
    apply max_values in Ha as ((k & Hk) & _).
    apply elem_of_hours_with_count in Hk. rewrite Hhs, Hnil in Hk. inversion Hk.
  - intros Hall. destruct (peak_hours_hanley r) as [|h hs]; [reflexivity |].
    assert (Hin : h ∈ h :: hs) by left.
    apply Hiff in Hin as [Hpos _]. rewrite Hlook in Hpos.
    assert (Hz : bucket_count hanley_hour h data = 0); [| lia].
    apply count_zero_iff. eapply Forall_impl; [exact Hall |].
    intros x Hx. rewrite Hx. reflexivity.
  - intros h h' Hh Hh'. apply Hiff in Hh as [_ Hh], Hh' as [_ Hh'].
    specialize (Hh h'). specialize (Hh' h). rewrite !Hlook in *. lia.
Qed.

Lemma peak_hours_empty_iff_witness :
  analyze_data scenario "traffic_data21062024.csv" = Ok scenario_results /\
  (peak_hours_hanley scenario_results = [] <->
   Forall (fun x => hanley_hour x = None) scenario).
Proof.
  assert (H : analyze_data scenario "traffic_data21062024.csv" = Ok scenario_results)
    by reflexivity.
  split; [exact H |].
  exact (proj1 (peak_hours_empty_iff scenario _ scenario_results H)).
Defined.

(** *** What [analyze_data] can raise *)

Lemma bind_no_fnf {A B : Type} (c : result A) (k : A -> result B) (e : exn) :
  (forall e, c = Raise e -> is_FileNotFoundError e = false) ->
  (forall a e, k a = Raise e -> is_FileNotFoundError e = false) ->
  bind c k = Raise e -> is_FileNotFoundError e = false.
Proof.
  intros Hc Hk H. apply bind_Raise in H as [H|(a & _ & H)]; eauto.
Qed.

Lemma getitem_no_fnf (r : row) (k : string) (e : exn) :
  getitem r k = Raise e -> is_FileNotFoundError e = false.
Proof. unfold getitem. destruct (r !! k); intros [= <-]. reflexivity. Qed.

Lemma int_no_fnf (v : value) (e : exn) :
  int v = Raise e -> is_FileNotFoundError e = false.
Proof.
  destruct v as [|s]; simpl; [intros [= <-]; reflexivity |].
  unfold int_of_str. destruct (parse_int s); intros [= <-]. reflexivity.
Qed.

Lemma field_is_no_fnf (k s : string) (r : row) (e : exn) :
  field_is k s r = Raise e -> is_FileNotFoundError e = false.
Proof.
  unfold field_is. apply bind_no_fnf; [apply getitem_no_fnf | discriminate].
Qed.

Lemma sum_ones_no_fnf (cond : row -> result bool) (data : list row) (acc : Z) (e : exn) :
  (forall r e, cond r = Raise e -> is_FileNotFoundError e = false) ->
  sum_ones cond data acc = Raise e -> is_FileNotFoundError e = false.
Proof.
  intros Hc. revert acc e. induction data as [|r data IH]; intros acc e; [discriminate |].
  cbn [sum_ones]. apply bind_no_fnf; [apply Hc | intros b e'; apply IH].
Qed.

Lemma select_no_fnf (cond : row -> result bool) (data : list row) (e : exn) :
  (forall r e, cond r = Raise e -> is_FileNotFoundError e = false) ->
  select cond data = Raise e -> is_FileNotFoundError e = false.
Proof.
  intros Hc. revert e. induction data as [|r data IH]; intros e; [discriminate |].
  cbn [select]. apply bind_no_fnf; [apply Hc |]. intros b e'.
  apply bind_no_fnf; [apply IH | discriminate].
Qed.

Lemma hanley_loop_no_fnf (data : list row) (d : counter) (e : exn) :
  hanley_loop data d = Raise e -> is_FileNotFoundError e = false.
Proof.
  revert d e. induction data as [|r data IH]; intros d e; [discriminate |].
  cbn [hanley_loop]. apply bind_no_fnf; [apply field_is_no_fnf | intros b e'; apply IH].
Qed.

Lemma true_div_no_fnf (a b : Z) (e : exn) :
  true_div a b = Raise e -> is_FileNotFoundError e = false.
Proof.
  unfold true_div. destruct (b =? 0); [intros [= <-]; reflexivity |].
  cbv zeta. destruct (a =? 0); [discriminate |].
  destruct (round_binary64 _ _) as [m x]. destruct (overflows m x); [| discriminate].
  intros [= <-]. reflexivity.
Qed.

Lemma round_no_fnf (x : float) (e : exn) :
  round x = Raise e -> is_FileNotFoundError e = false.
Proof. destruct x; simpl; intros [= <-]; reflexivity. Qed.

Lemma percentage_no_fnf (part whole : Z) (e : exn) :
  percentage part whole = Raise e -> is_FileNotFoundError e = false.
Proof.
  unfold percentage. destruct (whole =? 0); [discriminate |].
  apply bind_no_fnf; [apply true_div_no_fnf |]. intros q e'.
  apply bind_no_fnf; [| intros p; apply round_no_fnf].
  unfold float_mul_int. rewrite float_of_int_100. discriminate.
Qed.

(** [analyze_data] never raises [FileNotFoundError]. *)
Lemma analyze_data_no_fnf (data : list row) (filename : string) (e : exn) :
  analyze_data data filename = Raise e -> is_FileNotFoundError e = false.
Proof.
  unfold analyze_data, trucks, electric_vehicles, two_wheeled_vehicles,
    elm_buses_north, no_turns, over_speed, elm_avenue_vehicles,
    hanley_highway_vehicles, elm_scooters, bicycle_data, hanley_peak_hour.
  repeat (apply bind_no_fnf; [intros ? | intros ? ?]);
    try (apply sum_ones_no_fnf; intros r e');
    try apply field_is_no_fnf; try apply percentage_no_fnf;
    try apply hanley_loop_no_fnf; try discriminate.
  - unfold is_two_wheeled. apply bind_no_fnf; [apply getitem_no_fnf | discriminate].
  - unfold is_elm_bus_north. apply bind_no_fnf; [apply field_is_no_fnf |].
    intros [|] x1; [| discriminate].
    apply bind_no_fnf; [apply field_is_no_fnf |].
    intros [|] x2; [apply field_is_no_fnf | discriminate].
  - unfold is_no_turn. apply bind_no_fnf; [apply getitem_no_fnf |]. intros i x1.
    apply bind_no_fnf; [apply getitem_no_fnf | discriminate].
  - unfold is_over_speed. apply bind_no_fnf; [apply getitem_no_fnf |]. intros s x1.
    apply bind_no_fnf; [apply int_no_fnf |]. intros speed x2.
    apply bind_no_fnf; [apply getitem_no_fnf |]. intros l x3.
    apply bind_no_fnf; [apply int_no_fnf | discriminate].
  - unfold is_elm_scooter. apply bind_no_fnf; [apply field_is_no_fnf |].
    intros [|] x1; [apply field_is_no_fnf | discriminate].
  - apply select_no_fnf. intros y x1. apply field_is_no_fnf.
  - unfold avg_bicycles_per_hour. destruct (bicycle_count_per_hour _); [discriminate |].
    apply bind_no_fnf; [apply true_div_no_fnf | intros q x1; apply round_no_fnf].
  - unfold peak_hour_count.
    match goal with |- context [match ?d with [] => _ | _ :: _ => _ end] =>
      destruct d as [|kv d']; discriminate end.
Qed.

(** Saving, once the results are printed, fails only with the exception
    of appending to [results.txt]. *)
Lemma print_then_save (fs : files) (r : results) (texts : list string) :
  print_results r = Ok texts ->
  save_results_to_file fs r = match appending fs r with
                              | Some e => Raise e
                              | None => Ok texts
                              end.
Proof.
  unfold print_results, save_results_to_file. intros ->.
  destruct (appending fs r); reflexivity.
Qed.

(** X7. The two [except] clauses of [main] keep apart the exceptions of
    reading the file and those of the analysis. When the file does not
    exist, the turn prints the bare [FileNotFoundError] of
    [process_csv_data]; when reading it raises, the exception is reported by
    the clause that catches it. On the rows read, an exception of
    [analyze_data] is never a [FileNotFoundError]: it is always reported as
    "An error occurred"; and when [analyze_data] returns, the results are
    printed and saved, unless printing them or [save_results_to_file] raises
    an exception, which is then reported after them. So a turn that prints
    nothing but a bare exception has failed to read its file. *)
Theorem file_not_found_reported_apart (fs : files) (date_input : string) :
  (contents fs date_input = Missing ->
   main_pass fs date_input = PrintedException (FileNotFoundError date_input)) /\
  (forall e, contents fs date_input = Unreadable e ->
     main_pass fs date_input = handle e) /\
  (forall data, contents fs date_input = Rows data ->
     (exists e, analyze_data data date_input = Raise e /\
                main_pass fs date_input = AnErrorOccurred e) \/
     (exists r, analyze_data data date_input = Ok r /\
        ((exists texts, print_results r = Ok texts /\ appending fs r = None /\
                        main_pass fs date_input = Displayed r) \/
         (exists e, (print_results r = Raise e \/
                     (exists texts, print_results r = Ok texts) /\
                     appending fs r = Some e) /\
                    main_pass fs date_input = Unsaved r (handle e))))) /\
  (forall e, main_pass fs date_input = PrintedException e ->
     is_FileNotFoundError e = true /\
     (contents fs date_input = Missing /\ e = FileNotFoundError date_input \/
      contents fs date_input = Unreadable e)).
Proof.
  unfold main_pass, process_csv_data.
  destruct (contents fs date_input) as [|e0|data] eqn:Hfs; cbn [bind].
  - split; [reflexivity |]. split; [discriminate |]. split; [discriminate |].
    intros e [= <-]. split; [reflexivity | left; auto].
  - split; [discriminate |]. split; [intros e [= <-]; reflexivity |].
    split; [discriminate |].
    intros e. unfold handle. destruct (is_FileNotFoundError e0) eqn:He0; [| discriminate].
    intros [= <-]. split; [exact He0 | right; reflexivity].
  - split; [discriminate |]. split; [discriminate |]. split.
    + intros data' [= <-].
      destruct (analyze_data data date_input) as [r|e'] eqn:Ha.
      * right. exists r. split; [reflexivity |].
        destruct (print_results r) as [texts|e] eqn:Hp; cbn [bind].
        -- rewrite (print_then_save fs r texts Hp).
           destruct (appending fs r) as [e|] eqn:Hs.
           ++ right. exists e. split; [right; eauto | reflexivity].
           ++ left. exists texts. auto.
        -- right. exists e. split; [left; reflexivity | reflexivity].
      * left. exists e'. split; [reflexivity |].
        unfold handle. rewrite (analyze_data_no_fnf _ _ _ Ha). reflexivity.
    + intros e. destruct (analyze_data data date_input) as [r|e'] eqn:Ha.
      * destruct (let* _ := print_results r in save_results_to_file fs r); discriminate.
      * unfold handle. rewrite (analyze_data_no_fnf _ _ _ Ha). discriminate.
Qed.

Lemma file_not_found_reported_apart_witness :
  contents (one_file "traffic_data21062024.csv" scenario) "traffic_data22062024.csv"
  = Missing /\
  main_pass (one_file "traffic_data21062024.csv" scenario) "traffic_data22062024.csv"
  = PrintedException (FileNotFoundError "traffic_data22062024.csv") /\
  main_pass (one_file "traffic_data21062024.csv" scenario) "traffic_data21062024.csv"
  = Displayed scenario_results.
Proof.
  assert (H : contents (one_file "traffic_data21062024.csv" scenario)
                "traffic_data22062024.csv" = Missing) by reflexivity.
  split; [exact H |].
  split; [exact (proj1 (file_not_found_reported_apart _ _) H) |].
  vm_compute. reflexivity.
Defined.

End AnalysisExtras.

(** ** More on the grouping engine *)

Module GroupingExtras.

Import PyFacts AnalysisSpec AnalysisFacts AnalyzeFacts MultiCSVProcessor GroupingSpec
  GroupingFacts TableSpec.

(** *** The shape of the table *)

Lemma table_ok_empty : table_ok ∅.
Proof. intros h m H. rewrite lookup_empty in H. discriminate. Qed.

Lemma table_ok_count_vehicle (h : Z) (j : string) (s : gmap Z (gmap string Z)) :
  j <> "" -> table_ok s -> table_ok (count_vehicle h j s).
Proof.
  intros Hj Hs h' m. rewrite count_vehicle_insert.
  destruct (decide (h = h')) as [<-|Hne].
  - rewrite lookup_insert_eq. intros [= <-]. split.
    + apply insert_non_empty.
    + intros j' c. destruct (decide (j = j')) as [<-|Hnj].
      * rewrite lookup_insert_eq. intros [= <-]. split; [| exact Hj].
        unfold cell. destruct (s !! h) as [m0|] eqn:Hm0; simpl; [| lia].
        destruct (m0 !! j) as [c0|] eqn:Hc0; simpl; [| lia].
        destruct (Hs h m0 Hm0) as [_ Hcells]. destruct (Hcells j c0 Hc0). lia.
      * rewrite lookup_insert_ne by exact Hnj.
        destruct (s !! h) as [m0|] eqn:Hm0; simpl.
        -- intros Hc. destruct (Hs h m0 Hm0) as [_ Hcells]. exact (Hcells j' c Hc).
        -- rewrite lookup_empty. discriminate.
  - rewrite lookup_insert_ne by exact Hne. apply Hs.
Qed.

(** The loop keeps the shape, however it ends. *)
Lemma table_ok_process_rows (target : value) (rows : list row)
    (s : gmap Z (gmap string Z)) :
  table_ok s -> table_ok (fst (process_rows target rows s)).
Proof.
  revert s. induction rows as [|r rows IH]; intros s Hs; [exact Hs |].
  cbn [process_rows]. repeat case_match; simpl; try exact Hs; apply IH; try exact Hs.
  apply table_ok_count_vehicle; [| exact Hs].
  subst. intros ->. discriminate.
Qed.

(** X8. Whatever the rows are and however the grouping step ends, the table
    it leaves has no hour without a junction, no junction with an empty
    name and no count below [1]. *)
Theorem grouping_table_is_well_formed (rows : list row) (target : value)
    (prior : gmap Z (gmap string Z)) :
  rows <> [] -> truthy target = true ->
  TableSpec.table_ok (traffic_summary (fst (process_data (loaded rows target prior)))).
Proof.
  intros Hrows Ht. rewrite process_data_loaded by assumption. simpl.
  apply table_ok_process_rows, table_ok_empty.
Qed.

Lemma grouping_table_is_well_formed_witness :
  [sighting "21/06/2024" "08:15:00" "Hanley Highway/Westway";
   sighting "21/06/2024" "eight" "Hanley Highway/Westway"] <> [] /\
  truthy (VStr "21/06/2024") = true /\
  TableSpec.table_ok
    (traffic_summary
       (fst (process_data
               (loaded [sighting "21/06/2024" "08:15:00" "Hanley Highway/Westway";
                        sighting "21/06/2024" "eight" "Hanley Highway/Westway"]
                  (VStr "21/06/2024") ∅)))).
Proof.
  assert (Hne : [sighting "21/06/2024" "08:15:00" "Hanley Highway/Westway";
                 sighting "21/06/2024" "eight" "Hanley Highway/Westway"] <> [])
    by discriminate.
  assert (Ht : truthy (VStr "21/06/2024") = true) by reflexivity.
  split; [exact Hne |]. split; [exact Ht |].
  exact (grouping_table_is_well_formed _ _ ∅ Hne Ht).
Defined.

(** *** Rows of other dates *)

Lemma process_rows_on_date (target : value) (rows : list row)
    (s : gmap Z (gmap string Z)) :
  Forall (fun r => has_key "Date" r = true) rows ->
  process_rows target rows s = process_rows target (List.filter (on_date target) rows) s.
Proof.
  intros H. revert s. induction H as [|r rows Hr _ IH]; intros s; [reflexivity |].
  cbn [List.filter]. destruct (on_date target r) eqn:Hon.
  - cbn [process_rows]. rewrite (on_date_getitem _ _ Hon), value_eqb_refl. cbn [negb].
    repeat case_match; try reflexivity; apply IH.
  - rewrite step_skip by assumption. apply IH.
Qed.

(** X9. Rows dated otherwise than the target do not take part in the
    grouping: when every row has a date, the step leaves the same table and
    ends the same way as on the rows of the target date alone. *)
Theorem other_dates_are_ignored (rows : list row) (target : value)
    (prior : gmap Z (gmap string Z)) :
  truthy target = true ->
  Forall (fun r => has_key "Date" r = true) rows ->
  List.filter (on_date target) rows <> [] ->
  traffic_summary (fst (process_data (loaded rows target prior)))
  = traffic_summary
      (fst (process_data (loaded (List.filter (on_date target) rows) target prior))) /\
  snd (process_data (loaded rows target prior))
  = snd (process_data (loaded (List.filter (on_date target) rows) target prior)).
Proof.
  intros Ht Hd Hne.
  assert (Hrows : rows <> []) by (intros ->; apply Hne; reflexivity).
  rewrite !process_data_loaded by assumption. simpl.
  rewrite (process_rows_on_date target rows ∅ Hd). split; reflexivity.
Qed.

Lemma other_dates_are_ignored_witness :
  truthy (VStr "21/06/2024") = true /\
  Forall (fun r => has_key "Date" r = true)
    [sighting "22/06/2024" "07:00:00" "Elm Avenue/Rabbit Road";
     sighting "21/06/2024" "08:15:00" "Hanley Highway/Westway"] /\
  List.filter (on_date (VStr "21/06/2024"))
    [sighting "22/06/2024" "07:00:00" "Elm Avenue/Rabbit Road";
     sighting "21/06/2024" "08:15:00" "Hanley Highway/Westway"] <> [] /\
  traffic_summary
    (fst (process_data
            (loaded [sighting "22/06/2024" "07:00:00" "Elm Avenue/Rabbit Road";
                     sighting "21/06/2024" "08:15:00" "Hanley Highway/Westway"]
               (VStr "21/06/2024") ∅)))
  = traffic_summary
      (fst (process_data
              (loaded (List.filter (on_date (VStr "21/06/2024"))
                         [sighting "22/06/2024" "07:00:00" "Elm Avenue/Rabbit Road";
                          sighting "21/06/2024" "08:15:00" "Hanley Highway/Westway"])
                 (VStr "21/06/2024") ∅))).
Proof.
  assert (Ht : truthy (VStr "21/06/2024") = true) by reflexivity.
  assert (Hd : Forall (fun r => has_key "Date" r = true)
                 [sighting "22/06/2024" "07:00:00" "Elm Avenue/Rabbit Road";
                  sighting "21/06/2024" "08:15:00" "Hanley Highway/Westway"])
    by (repeat constructor).
  assert (Hne : List.filter (on_date (VStr "21/06/2024"))
                  [sighting "22/06/2024" "07:00:00" "Elm Avenue/Rabbit Road";
                   sighting "21/06/2024" "08:15:00" "Hanley Highway/Westway"] <> [])
    by discriminate.
  split; [exact Ht |]. split; [exact Hd |]. split; [exact Hne |].
  exact (proj1 (other_dates_are_ignored _ _ ∅ Ht Hd Hne)).
Defined.

End GroupingExtras.

(** ** The histogram *)

Module HistogramFacts.

Import PyFacts AnalysisSpec AnalysisFacts CounterFacts AnalyzeFacts CountFacts
  MultiCSVProcessor GroupingSpec GroupingFacts Histogram.

(** *** [enumerate] *)

Lemma enumerate_from_snd {A : Type} (n : nat) (l : list A) :
  snd <$> enumerate_from n l = l.
Proof.
  revert n. induction l as [|x l IH]; intros n; simpl; [reflexivity |].
  rewrite IH. reflexivity.
Qed.

Lemma length_enumerate_from {A : Type} (n : nat) (l : list A) :
  length (enumerate_from n l) = length l.
Proof. rewrite <- (enumerate_from_snd n l) at 2. symmetry. apply length_fmap. Qed.

Lemma elem_of_enumerate_from {A : Type} (n i : nat) (x : A) (l : list A) :
  (i, x) ∈ enumerate_from n l <-> (n <= i)%nat /\ l !! (i - n)%nat = Some x.
Proof.
  revert n. induction l as [|y l IH]; intros n; simpl.
  - split; [intros H; inversion H | intros [_ H]; discriminate].
  - rewrite elem_of_cons, IH. split.
    + intros [[= -> ->]|[Hle Hl]].
      * rewrite Nat.sub_diag. auto.
      * split; [lia |]. replace (i - n)%nat with (S (i - S n)) by lia. exact Hl.
    + intros [Hle Hl]. destruct (decide (i = n)) as [->|Hne].
      * rewrite Nat.sub_diag in Hl. injection Hl as ->. left. reflexivity.
      * right. split; [lia |].
        replace (i - n)%nat with (S (i - S n)) in Hl by lia. exact Hl.
Qed.

Lemma elem_of_enumerate {A : Type} (i : nat) (x : A) (l : list A) :
  (i, x) ∈ enumerate l <-> l !! i = Some x.
Proof.
  unfold enumerate. rewrite elem_of_enumerate_from, Nat.sub_0_r.
  split; [tauto | split; [lia | assumption]].
Qed.

(** *** Sums *)

Lemma sum_concat (ls : list (list Z)) :
  Analysis.sum (concat ls) = Analysis.sum (Analysis.sum <$> ls).
Proof.
  induction ls as [|l ls IH]; [reflexivity |].
  rewrite fmap_cons, sum_cons. cbn [concat]. rewrite sum_app, IH. reflexivity.
Qed.

Lemma sum_map_ext {A : Type} (f g : A -> Z) (l : list A) :
  (forall x, x ∈ l -> f x = g x) -> Analysis.sum (f <$> l) = Analysis.sum (g <$> l).
Proof.
  induction l as [|x l IH]; intros H; [reflexivity |].
  rewrite !fmap_cons, !sum_cons, (H x) by left. rewrite IH; [reflexivity |].
  intros y Hy. apply H. right. exact Hy.
Qed.

Lemma sum_map_add {A : Type} (f g : A -> Z) (l : list A) :
  Analysis.sum ((fun x => f x + g x) <$> l)
  = Analysis.sum (f <$> l) + Analysis.sum (g <$> l).
Proof.
  induction l as [|x l IH]; [reflexivity |]. rewrite !fmap_cons, !sum_cons, IH. lia.
Qed.

Lemma sum_map_zero {A : Type} (l : list A) :
  Analysis.sum ((fun _ => 0) <$> l) = 0.
Proof. induction l as [|x l IH]; [reflexivity |]. rewrite fmap_cons, sum_cons, IH. lia. Qed.

(** One element of a duplicate-free list is counted once. *)
Lemma sum_indicator {A : Type} `{EqDecision A} (x : A) (l : list A) :
  NoDup l -> x ∈ l ->
  Analysis.sum ((fun y => if decide (y = x) then 1 else 0) <$> l) = 1.
Proof.
  induction l as [|y l IH]; intros Hnd Hin; [inversion Hin |].
  apply NoDup_cons in Hnd as [Hy Hnd]. rewrite fmap_cons, sum_cons.
  destruct (decide (y = x)) as [->|Hne].
  - rewrite (sum_map_ext _ (fun _ => 0)), sum_map_zero; [lia |].
    intros z Hz. destruct (decide (z = x)) as [->|]; [contradiction | reflexivity].
  - apply elem_of_cons in Hin as [->|Hin]; [contradiction |]. rewrite IH by assumption. lia.
Qed.

(** *** Hours and junctions *)

Lemma mapM_Some_fmap {A B : Type} (f : A -> option B) (g : A -> B) (l : list A) :
  (forall x, x ∈ l -> f x = Some (g x)) -> mapM f l = Some (g <$> l).
Proof.
  induction l as [|x l IH]; intros H; [reflexivity |].
  cbn [mapM]. rewrite (H x) by left. simpl. rewrite IH; [reflexivity |].
  intros y Hy. apply H. right. exact Hy.
Qed.

Lemma elem_of_hours (s : gmap Z (gmap string Z)) (h : Z) :
  h ∈ sorted_ints (fst <$> map_to_list s) <-> is_Some (s !! h).
Proof.
  unfold sorted_ints. rewrite merge_sort_Permutation, list_elem_of_fmap. split.
  - intros ([h' m] & -> & Hin). apply elem_of_map_to_list in Hin. eauto.
  - intros [m Hm]. exists (h, m). split; [reflexivity |].
    apply elem_of_map_to_list, Hm.
Qed.

Lemma NoDup_hours (s : gmap Z (gmap string Z)) :
  NoDup (sorted_ints (fst <$> map_to_list s)).
Proof.
  unfold sorted_ints. rewrite merge_sort_Permutation. apply NoDup_fst_map_to_list.
Qed.

Lemma elem_of_junction_set (s : gmap Z (gmap string Z)) (j : string) :
  j ∈ junction_set s <-> exists h m, s !! h = Some m /\ is_Some (m !! j).
Proof.
  unfold junction_set. rewrite elem_of_union_list. split.
  - intros (X & HX & Hj). apply list_elem_of_fmap in HX as ([h m] & -> & Hin).
    apply elem_of_map_to_list in Hin. apply elem_of_dom in Hj. eauto.
  - intros (h & m & Hm & Hj). exists (dom m). split; [| apply elem_of_dom, Hj].
    apply list_elem_of_fmap. exists (h, m). split; [reflexivity |].
    apply elem_of_map_to_list, Hm.
Qed.

Lemma elem_of_junctions (s : gmap Z (gmap string Z)) (j : string) :
  j ∈ sorted_strs (elements (junction_set s))
  <-> exists h m, s !! h = Some m /\ is_Some (m !! j).
Proof.
  unfold sorted_strs. rewrite merge_sort_Permutation, elem_of_elements.
  apply elem_of_junction_set.
Qed.

Lemma NoDup_junctions (s : gmap Z (gmap string Z)) :
  NoDup (sorted_strs (elements (junction_set s))).
Proof. unfold sorted_strs. rewrite merge_sort_Permutation. apply NoDup_elements. Qed.

#[local] Instance str_le_total : Total str_le.
Proof. intros a b. apply String.leb_total. Qed.

#[local] Instance Z_le_total : Total Z.le.
Proof. intros a b. lia. Qed.

(** *** The chart *)

(** The bar of hour [h] (the [i]-th) and junction [jn] (the [j]-th). *)
Lemma draw_histogram_chart (a : app) :
  traffic_data a <> ∅ ->
  draw_histogram a
  = Some (Chart (app_date a)
            (sorted_ints (fst <$> map_to_list (traffic_data a)))
            (sorted_strs (elements (junction_set (traffic_data a))))
            (concat
               ((fun ih : nat * Z =>
                   (fun jj : nat * string =>
                      {| hour_index := fst ih;
                         junction_index := fst jj;
                         bar_volume := default 0 (cell (traffic_data a) (snd ih) (snd jj));
                         label := if decide (fst ih = 0%nat) then snd jj else "" |})
                   <$> enumerate (sorted_strs (elements (junction_set (traffic_data a)))))
                <$> enumerate (sorted_ints (fst <$> map_to_list (traffic_data a)))))).
Proof.
  intros Hne. unfold draw_histogram. destruct (decide (traffic_data a = ∅)); [contradiction |].
  cbv zeta. erewrite mapM_Some_fmap; [reflexivity |].
  intros [i h] Hin. apply elem_of_enumerate, list_elem_of_lookup_2, elem_of_hours in Hin.
  destruct Hin as [m Hm]. unfold bars_of_hour, cell. simpl. rewrite Hm. reflexivity.
Qed.

Lemma elem_of_concat_fmap {A B : Type} (F : A -> list B) (l : list A) (b : B) :
  b ∈ concat (F <$> l) <-> exists x, x ∈ l /\ b ∈ F x.
Proof.
  induction l as [|x l IH].
  - split; [intros H; inversion H | intros (x & H & _); inversion H].
  - rewrite fmap_cons. cbn [concat]. rewrite elem_of_app, IH. split.
    + intros [H|(y & Hy & H)]; [exists x; split; [left | exact H] |].
      exists y. split; [right; exact Hy | exact H].
    + intros (y & Hy & H). apply elem_of_cons in Hy as [->|Hy]; [left; exact H |].
      right. eauto.
Qed.

Lemma length_concat_fmap {A B : Type} (F : A -> list B) (l : list A) (n : nat) :
  (forall x, length (F x) = n) -> length (concat (F <$> l)) = (length l * n)%nat.
Proof.
  intros HF. induction l as [|x l IH]; [reflexivity |].
  rewrite fmap_cons. cbn [concat length]. rewrite length_app, HF, IH. lia.
Qed.

Lemma sum_volume_concat {A : Type} (F : A -> list bar) (l : list A) :
  Analysis.sum (bar_volume <$> concat (F <$> l))
  = Analysis.sum ((fun x => Analysis.sum (bar_volume <$> F x)) <$> l).
Proof.
  induction l as [|x l IH]; [reflexivity |].
  rewrite !fmap_cons. cbn [concat]. rewrite fmap_app, sum_app, sum_cons, IH. reflexivity.
Qed.

Lemma sum_enumerate {A : Type} (f : A -> Z) (l : list A) :
  Analysis.sum ((fun ix : nat * A => f (snd ix)) <$> enumerate l)
  = Analysis.sum (f <$> l).
Proof.
  rewrite <- (enumerate_from_snd 0 l) at 2. rewrite <- list_fmap_compose. reflexivity.
Qed.

(** X10. An empty table gives the "No Data" box and no chart. Any other
    table gives a chart, and the subscript [traffic_data[hour]] never fails:
    its hours are the keys of the table in ascending order, its junctions
    the names found under any hour, in the order of [str], each once; there
    is one bar for each pair of an hour and a junction and no other, as high
    as the table's count for the pair, [0] where the table has none, and
    labelled with the junction at the first hour only. *)
Theorem histogram_has_one_bar_per_pair (a : app) :
  (traffic_data a = ∅ -> draw_histogram a = Some NoDataBox) /\
  (traffic_data a <> ∅ ->
   exists hours junctions bars,
     draw_histogram a = Some (Chart (app_date a) hours junctions bars) /\
     Sorted Z.le hours /\ NoDup hours /\
     (forall h, h ∈ hours <-> is_Some (traffic_data a !! h)) /\
     Sorted str_le junctions /\ NoDup junctions /\
     (forall j, j ∈ junctions <->
                exists h m, traffic_data a !! h = Some m /\ is_Some (m !! j)) /\
     length bars = (length hours * length junctions)%nat /\
     (forall b, b ∈ bars <->
        exists i h j jn, hours !! i = Some h /\ junctions !! j = Some jn /\
          b = {| hour_index := i;
                 junction_index := j;
                 bar_volume := default 0 (cell (traffic_data a) h jn);
                 label := if decide (i = 0%nat) then jn else "" |})).
Proof.
  split.
  - intros He. unfold draw_histogram. rewrite He.
    destruct (decide (∅ = ∅)); [reflexivity | contradiction].
  - intros Hne. eexists _, _, _. split; [apply draw_histogram_chart, Hne |].
    split; [apply Sorted_merge_sort, _ |]. split; [apply NoDup_hours |].
    split; [apply elem_of_hours |].
    split; [apply Sorted_merge_sort, _ |]. split; [apply NoDup_junctions |].
    split; [apply elem_of_junctions |]. split.
    + rewrite (length_concat_fmap _ _
                 (length (sorted_strs (elements (junction_set (traffic_data a)))))).
      * unfold enumerate. rewrite length_enumerate_from. reflexivity.
      * intros x. rewrite length_fmap. apply length_enumerate_from.
    + intros b. rewrite elem_of_concat_fmap. split.
      * intros ([i h] & Hih & Hb). apply list_elem_of_fmap in Hb as ([j jn] & -> & Hjj).
        apply elem_of_enumerate in Hih, Hjj. exists i, h, j, jn. auto.
      * intros (i & h & j & jn & Hi & Hj & ->). exists (i, h).
        split; [apply elem_of_enumerate, Hi |]. apply list_elem_of_fmap.
        exists (j, jn). split; [reflexivity | apply elem_of_enumerate, Hj].
Qed.

Lemma histogram_has_one_bar_per_pair_witness :
  {[ 9 := {[ "Elm Avenue/Rabbit Road" := 1; "Hanley Highway/Westway" := 4 ]};
     8 := {[ "Hanley Highway/Westway" := 2 ]} ]} <> (∅ : gmap Z (gmap string Z)) /\
  exists hours junctions bars,
    draw_histogram
      {| traffic_data :=
           {[ 9 := {[ "Elm Avenue/Rabbit Road" := 1; "Hanley Highway/Westway" := 4 ]};
              8 := {[ "Hanley Highway/Westway" := 2 ]} ]};
         app_date := VStr "21/06/2024" |}
    = Some (Chart (VStr "21/06/2024") hours junctions bars) /\
    length bars = (length hours * length junctions)%nat.
Proof.
  assert (Hne : {[ 9 := {[ "Elm Avenue/Rabbit Road" := 1; "Hanley Highway/Westway" := 4 ]};
                   8 := {[ "Hanley Highway/Westway" := 2 ]} ]}
                <> (∅ : gmap Z (gmap string Z)))
    by (intros H; apply (f_equal (fun m => m !! 8)) in H; vm_compute in H; discriminate).
  split; [exact Hne |].
  destruct (proj2 (histogram_has_one_bar_per_pair
                     {| traffic_data :=
                          {[ 9 := {[ "Elm Avenue/Rabbit Road" := 1;
                                     "Hanley Highway/Westway" := 4 ]};
                             8 := {[ "Hanley Highway/Westway" := 2 ]} ]};
                        app_date := VStr "21/06/2024" |}) Hne)
    as (hours & junctions & bars & Hd & _ & _ & _ & _ & _ & _ & Hlen & _).
  exists hours, junctions, bars. split; [exact Hd | exact Hlen].
Defined.

Example draw_two_hours :
  draw_histogram
    {| traffic_data :=
         {[ 9 := {[ "Elm Avenue/Rabbit Road" := 1; "Hanley Highway/Westway" := 4 ]};
            8 := {[ "Hanley Highway/Westway" := 2 ]} ]};
       app_date := VStr "21/06/2024" |}
  = Some (Chart (VStr "21/06/2024") [8; 9]
            ["Elm Avenue/Rabbit Road"; "Hanley Highway/Westway"]
            [ {| hour_index := 0; junction_index := 0; bar_volume := 0;
                 label := "Elm Avenue/Rabbit Road" |};
              {| hour_index := 0; junction_index := 1; bar_volume := 2;
                 label := "Hanley Highway/Westway" |};
              {| hour_index := 1; junction_index := 0; bar_volume := 1; label := "" |};
              {| hour_index := 1; junction_index := 1; bar_volume := 4; label := "" |} ]).
Proof. vm_compute. reflexivity. Qed.

(** *** The bars and the rows *)

(** The volumes over a grid of hours and junctions that holds the cell of
    every row of the target date add up to the number of those rows. *)
Lemma volumes_add_up (target : value) (H : list Z) (J : list string)
    (rows : list row) :
  NoDup H -> NoDup J ->
  Forall (fun r => on_date target r = true ->
                   exists h j, hour r = Some h /\ junction r = Some j /\
                               h ∈ H /\ j ∈ J) rows ->
  Analysis.sum ((fun h => Analysis.sum ((fun j => GroupingSpec.volume target h j rows) <$> J)) <$> H)
  = count (on_date target) rows.
Proof.
  intros HH HJ Hrows. induction Hrows as [|r rows Hr _ IH].
  - rewrite (sum_map_ext _ (fun _ => 0)), sum_map_zero; [reflexivity |].
    intros h _. rewrite (sum_map_ext _ (fun _ => 0)), sum_map_zero; reflexivity.
  - rewrite count_cons, <- IH.
    rewrite (sum_map_ext _
               (fun h => Analysis.sum ((fun j => GroupingSpec.volume target h j [r]) <$> J)
                         + Analysis.sum ((fun j => GroupingSpec.volume target h j rows) <$> J))).
    2:{ intros h _. rewrite <- sum_map_add. apply sum_map_ext. intros j _.
        apply volume_cons. }
    rewrite sum_map_add. f_equal.
    destruct (on_date target r) eqn:Hon.
    + destruct (Hr eq_refl) as (h0 & j0 & Hh & Hj & HhH & HjJ).
      rewrite (sum_map_ext _ (fun h => if decide (h = h0) then 1 else 0)).
      * apply sum_indicator; assumption.
      * intros h _. destruct (decide (h = h0)) as [->|Hne].
        -- rewrite (sum_map_ext _ (fun j => if decide (j = j0) then 1 else 0));
             [apply sum_indicator; assumption |].
           intros j _. rewrite volume_one, Hon, Hh, Hj.
           rewrite (bool_decide_eq_true_2 (Some h0 = Some h0)) by reflexivity. simpl.
           destruct (decide (j = j0)) as [->|Hnj].
           ++ rewrite bool_decide_eq_true_2 by reflexivity. reflexivity.
           ++ rewrite bool_decide_eq_false_2 by congruence. reflexivity.
        -- rewrite (sum_map_ext _ (fun _ => 0)), sum_map_zero; [reflexivity |].
           intros j _. rewrite volume_one, Hon, Hh.
           rewrite (bool_decide_eq_false_2 (Some h0 = Some h)) by congruence.
           reflexivity.
    + rewrite (sum_map_ext _ (fun _ => 0)), sum_map_zero; [reflexivity |].
      intros h _. rewrite (sum_map_ext _ (fun _ => 0)), sum_map_zero; [reflexivity |].
      intros j _. rewrite volume_one, Hon. reflexivity.
Qed.

Lemma volume_pos (target : value) (h : Z) (j : string) (r : row) (rows : list row) :
  r ∈ rows -> on_date target r = true -> hour r = Some h -> junction r = Some j ->
  0 < GroupingSpec.volume target h j rows.
Proof.
  intros Hin Hon Hh Hj. unfold GroupingSpec.volume. apply (count_pos _ r); [exact Hin |].
  rewrite Hon, Hh, Hj, !bool_decide_eq_true_2 by reflexivity. reflexivity.
Qed.

Lemma groupable_on_date (target : value) (r : row) :
  groupable target r = true -> on_date target r = true ->
  exists h j, hour r = Some h /\ junction r = Some j.
Proof.
  unfold groupable, offending. intros Hg Hon. rewrite Hon in Hg.
  apply andb_true_iff in Hg as [_ Hg].
  apply negb_true_iff, negb_false_iff, andb_true_iff in Hg as [Hh Hj].
  apply bool_decide_eq_true in Hh as [h Hh], Hj as [j Hj]. eauto.
Qed.

(** The chart of a table whose cells are the volumes of [rows]. *)
Lemma chart_of_volumes (s : gmap Z (gmap string Z)) (d target : value)
    (rows : list row) :
  (forall h j, cell s h j = add_volume None (GroupingSpec.volume target h j rows)) ->
  Forall (fun r => groupable target r = true) rows ->
  0 < count (on_date target) rows ->
  s <> ∅ /\
  exists hours junctions bars,
    draw_histogram {| traffic_data := s; app_date := d |}
    = Some (Chart d hours junctions bars) /\
    Analysis.sum (bar_volume <$> bars) = count (on_date target) rows /\
    Forall (fun b => 0 <= bar_volume b) bars.
Proof.
  intros Hcell Hg Hpos.
  assert (Hvol : forall h j, default 0 (cell s h j) = GroupingSpec.volume target h j rows).
  { intros h j. rewrite Hcell. unfold add_volume.
    destruct (Z.eqb_spec (GroupingSpec.volume target h j rows) 0) as [->|_]; reflexivity. }
  assert (Hin : forall r, r ∈ rows -> on_date target r = true ->
            exists h j, hour r = Some h /\ junction r = Some j /\
                        is_Some (s !! h) /\
                        exists m, s !! h = Some m /\ is_Some (m !! j)).
  { intros r Hr Hon. rewrite Forall_forall in Hg.
    destruct (groupable_on_date target r (Hg r Hr) Hon) as (h & j & Hh & Hj).
    exists h, j. split; [exact Hh |]. split; [exact Hj |].
    pose proof (volume_pos target h j r rows Hr Hon Hh Hj) as Hp.
    specialize (Hcell h j). unfold add_volume in Hcell.
    destruct (Z.eqb_spec (GroupingSpec.volume target h j rows) 0); [lia |].
    unfold cell in Hcell. destruct (s !! h) as [m|]; [| discriminate].
    split; [eauto |]. exists m. split; [reflexivity |]. simpl in Hcell. eauto. }
  assert (Hsne : s <> ∅).
  { intros ->.
    assert (Hex : exists r, r ∈ rows /\ on_date target r = true).
    { destruct (decide (Forall (fun r => on_date target r = false) rows)) as [Hall|Hsome].
      - apply count_zero_iff in Hall. lia.
      - apply not_Forall_Exists in Hsome; [| intros x; apply _].
        apply Exists_exists in Hsome as (r & Hr & Hon). exists r. split; [exact Hr |].
        destruct (on_date target r) eqn:E; [reflexivity | exfalso; apply Hon, E]. }
    destruct Hex as (r & Hr & Hon).
    destruct (Hin r Hr Hon) as (h & j & _ & _ & [m Hm] & _).
    rewrite lookup_empty in Hm. discriminate. }
  split; [exact Hsne |].
  eexists _, _, _.
  split; [apply (draw_histogram_chart {| traffic_data := s; app_date := d |}), Hsne |].
  simpl. split.
  - rewrite sum_volume_concat.
    rewrite (sum_map_ext _
               (fun ih : nat * Z =>
                  Analysis.sum
                    ((fun j => GroupingSpec.volume target (snd ih) j rows)
                     <$> sorted_strs (elements (junction_set s))))).
    2:{ intros [i h] _. rewrite <- list_fmap_compose.
        rewrite <- (sum_enumerate (fun jn => GroupingSpec.volume target h jn rows)).
        apply sum_map_ext. intros [j jn] _. simpl. apply Hvol. }
    rewrite (sum_enumerate
               (fun h => Analysis.sum
                           ((fun j => GroupingSpec.volume target h j rows)
                            <$> sorted_strs (elements (junction_set s))))).
    apply volumes_add_up; [apply NoDup_hours | apply NoDup_junctions |].
    apply Forall_forall. intros r Hr Hon.
    destruct (Hin r Hr Hon) as (h & j & Hh & Hj & Hsh & Hm).
    exists h, j. split; [exact Hh |]. split; [exact Hj |].
    split; [apply elem_of_hours, Hsh | apply elem_of_junctions; eauto].
  - apply Forall_forall. intros b Hb. apply elem_of_concat_fmap in Hb as ([i h] & _ & Hb).
    apply list_elem_of_fmap in Hb as ([j jn] & -> & _). simpl.
    rewrite Hvol. apply volume_nonneg.
Qed.

Lemma groupable_has_date (target : value) (rows : list row) :
  Forall (fun r => groupable target r = true) rows ->
  Forall (fun r => has_key "Date" r = true) rows.
Proof.
  intros Hg. eapply Forall_impl; [exact Hg |]. intros r Hr. unfold groupable in Hr.
  apply andb_true_iff in Hr. tauto.
Qed.

(** The table of rows of which none is dated [target] is empty. *)
Lemma process_rows_no_row_on_date (target : value) (rows : list row) :
  Forall (fun r => has_key "Date" r = true) rows ->
  count (on_date target) rows = 0 ->
  process_rows target rows ∅ = (∅, Returned).
Proof.
  intros Hd H0. rewrite (GroupingExtras.process_rows_on_date target rows ∅ Hd).
  unfold count, len in H0.
  destruct (List.filter (on_date target) rows); [reflexivity | simpl in H0; lia].
Qed.

(** X11. After a grouping step that no row has stopped, the histogram of
    the table shows one vehicle per row of the target date: the heights of
    its bars, none of them negative, add up to the number of those rows; and
    without any such row there is no chart but the "No Data" box. *)
Theorem histogram_bars_add_up (rows : list row) (target : value)
    (prior : gmap Z (gmap string Z)) :
  rows <> [] -> truthy target = true ->
  Forall (fun r => groupable target r = true) rows ->
  (count (on_date target) rows = 0 ->
   draw_histogram
     {| traffic_data := traffic_summary (fst (process_data (loaded rows target prior)));
        app_date := target |} = Some NoDataBox) /\
  (0 < count (on_date target) rows ->
   exists hours junctions bars,
     draw_histogram
       {| traffic_data := traffic_summary (fst (process_data (loaded rows target prior)));
          app_date := target |}
     = Some (Chart target hours junctions bars) /\
     Analysis.sum (bar_volume <$> bars) = count (on_date target) rows /\
     Forall (fun b => 0 <= bar_volume b) bars).
Proof.
  intros Hne Ht Hg.
  rewrite (process_data_loaded rows target prior Hne Ht). simpl. split.
  - intros H0. rewrite process_rows_no_row_on_date;
      [reflexivity | apply (groupable_has_date target), Hg | exact H0].
  - intros Hpos.
    destruct (process_rows_groupable target rows ∅ Hg) as (s & Hs & Hcell).
    specialize (Hs []). rewrite app_nil_r in Hs. rewrite Hs. simpl.
    apply (chart_of_volumes s target target rows); [| exact Hg | exact Hpos].
    intros h j. rewrite Hcell. unfold cell. rewrite lookup_empty. reflexivity.
Qed.

Lemma histogram_bars_add_up_witness :
  [sighting "21/06/2024" "08:15:00" "Hanley Highway/Westway";
   sighting "21/06/2024" "09:05:30" "Elm Avenue/Rabbit Road";
   sighting "22/06/2024" "09:10:00" "Hanley Highway/Westway"] <> [] /\
  truthy (VStr "21/06/2024") = true /\
  Forall (fun r => groupable (VStr "21/06/2024") r = true)
    [sighting "21/06/2024" "08:15:00" "Hanley Highway/Westway";
     sighting "21/06/2024" "09:05:30" "Elm Avenue/Rabbit Road";
     sighting "22/06/2024" "09:10:00" "Hanley Highway/Westway"] /\
  0 < count (on_date (VStr "21/06/2024"))
        [sighting "21/06/2024" "08:15:00" "Hanley Highway/Westway";
         sighting "21/06/2024" "09:05:30" "Elm Avenue/Rabbit Road";
         sighting "22/06/2024" "09:10:00" "Hanley Highway/Westway"] /\
  exists hours junctions bars,
    draw_histogram
      {| traffic_data :=
           traffic_summary
             (fst (process_data
                     (loaded [sighting "21/06/2024" "08:15:00" "Hanley Highway/Westway";
                              sighting "21/06/2024" "09:05:30" "Elm Avenue/Rabbit Road";
                              sighting "22/06/2024" "09:10:00" "Hanley Highway/Westway"]
                        (VStr "21/06/2024") ∅)));
         app_date := VStr "21/06/2024" |}
    = Some (Chart (VStr "21/06/2024") hours junctions bars) /\
    Analysis.sum (bar_volume <$> bars) = 2.
Proof.
  assert (Hne : [sighting "21/06/2024" "08:15:00" "Hanley Highway/Westway";
                 sighting "21/06/2024" "09:05:30" "Elm Avenue/Rabbit Road";
                 sighting "22/06/2024" "09:10:00" "Hanley Highway/Westway"] <> [])
    by discriminate.
  assert (Ht : truthy (VStr "21/06/2024") = true) by reflexivity.
  assert (Hg : Forall (fun r => groupable (VStr "21/06/2024") r = true)
                 [sighting "21/06/2024" "08:15:00" "Hanley Highway/Westway";
                  sighting "21/06/2024" "09:05:30" "Elm Avenue/Rabbit Road";
                  sighting "22/06/2024" "09:10:00" "Hanley Highway/Westway"])
    by (repeat constructor).
  assert (Hpos : 0 < count (on_date (VStr "21/06/2024"))
                       [sighting "21/06/2024" "08:15:00" "Hanley Highway/Westway";
                        sighting "21/06/2024" "09:05:30" "Elm Avenue/Rabbit Road";
                        sighting "22/06/2024" "09:10:00" "Hanley Highway/Westway"])
    by reflexivity.
  split; [exact Hne |]. split; [exact Ht |]. split; [exact Hg |]. split; [exact Hpos |].
  destruct (proj2 (histogram_bars_add_up _ _ ∅ Hne Ht Hg) Hpos)
    as (hours & junctions & bars & Hd & Hsum & _).
  exists hours, junctions, bars. split; [exact Hd | exact Hsum].
Defined.

End HistogramFacts.

(** * The session loop of the grouping engine ([handle_user_interaction]) *)

Module SessionFacts.

Import Histogram MultiCSVProcessor GroupingSpec AnalysisSpec Session.
Import AnalysisFacts AnalyzeFacts GroupingFacts CountFacts HistogramFacts.

(** The histogram step of a turn never raises, and never draws the
    "No Data" box: it is guarded by the table not being empty. *)
Lemma show_histogram_Some (p : processor) :
  (traffic_summary p = ∅ /\ show_histogram p = Some []) \/
  (traffic_summary p <> ∅ /\
   exists hours junctions bars,
     show_histogram p = Some [Drawn (Chart (date p) hours junctions bars)]).
Proof.
  unfold show_histogram. destruct (decide (traffic_summary p = ∅)) as [He|Hne].
  - left. split; [exact He | reflexivity].
  - right. split; [exact Hne |]. eexists _, _, _.
    rewrite (draw_histogram_chart {| traffic_data := traffic_summary p;
                                     Histogram.app_date := date p |} Hne).
    reflexivity.
Qed.

Lemma show_histogram_no_data_box (p : processor) (l : list event) :
  show_histogram p = Some l -> Forall (fun ev => ev <> Drawn NoDataBox) l.
Proof.
  destruct (show_histogram_Some p) as [[_ ->] | [_ (hs & js & bs & ->)]];
    intros [= <-]; repeat constructor; discriminate.
Qed.

(** A turn starts from a cleared processor, that is from a new one. *)
Lemma dataset_events_turn (first_of_set : list value -> value)
    (selection : option (list row)) (p : processor) :
  exists p1 shown drawn,
    load_csv_file first_of_set selection (clear_previous_data p) = (p1, shown) /\
    show_histogram p1 = Some drawn /\
    dataset_events first_of_set selection = (Shown <$> shown) ++ drawn /\
    Forall (fun ev => ev <> Drawn NoDataBox) ((Shown <$> shown) ++ drawn).
Proof.
  unfold dataset_events. change (clear_previous_data p) with init.
  destruct (load_csv_file first_of_set selection init) as [p1 shown].
  assert (Hs : exists drawn, show_histogram p1 = Some drawn).
  { destruct (show_histogram_Some p1) as [[_ H] | [_ (hs & js & bs & H)]]; eauto. }
  destruct Hs as [drawn Hd]. exists p1, shown, drawn. rewrite Hd.
  split; [reflexivity |]. split; [reflexivity |]. split; [reflexivity |].
  apply Forall_app. split.
  - apply Forall_fmap, Forall_forall. intros d _. discriminate.
  - apply (show_histogram_no_data_box p1), Hd.
Qed.

(** The dates of rows that all have one. *)
Lemma dates_of_Ok (rows : list row) :
  Forall (fun r => has_key "Date" r = true) rows ->
  exists dates, dates_of rows = Ok dates /\
    forall target, target ∈ dates <-> Exists (fun r => on_date target r = true) rows.
Proof.
  induction 1 as [|r rows Hr _ (dates & IH & Hin)].
  - exists []. split; [reflexivity |]. intros t. rewrite elem_of_nil, Exists_nil. tauto.
  - apply has_key_getitem in Hr as (d & Hd & Hg).
    exists (d :: dates). cbn [dates_of]. rewrite Hg, IH. split; [reflexivity |].
    intros t. rewrite elem_of_cons, Exists_cons, Hin. unfold on_date.
    rewrite bool_decide_eq_true, Hd. split; (intros [H | H]; [left | right; exact H]);
      congruence.
Qed.

(** A row without date makes the set of dates a [KeyError]. *)
Lemma dates_of_no_date (rows : list row) :
  Exists (fun r => has_key "Date" r = false) rows ->
  dates_of rows = Raise (KeyError "Date").
Proof.
  induction rows as [|r rows IH]; intros H; [inversion H |].
  cbn [dates_of]. destruct (has_key "Date" r) eqn:Hk.
  - destruct (has_key_getitem _ _ Hk) as (d & _ & ->). cbn [bind].
    rewrite IH; [reflexivity |].
    inversion H as [? ? Hbad|? ? Htail]; subst; [congruence | exact Htail].
  - unfold has_key in Hk. apply bool_decide_eq_false in Hk. unfold getitem.
    destruct (r !! "Date") as [d|]; [exfalso; apply Hk; eauto | reflexivity].
Qed.

Lemma count_pos_Exists (target : value) (rows : list row) :
  Exists (fun r => on_date target r = true) rows -> 0 < count (on_date target) rows.
Proof.
  intros H. apply Exists_exists in H as (r & Hr & Hon).
  apply (count_pos _ r); assumption.
Qed.

(** An offending row ends the loop with one error box, or with the
    [AttributeError] of a time of day that is [None]. *)
Lemma step_stop_outcome (target : value) (r : row) (rest : list row)
    (s : gmap Z (gmap string Z)) :
  offending target r = true ->
  exists o, process_rows target (r :: rest) s = (s, o) /\
    (o = Reported (InvalidTimeOfDay (get r "timeOfDay" VNone)) \/
     o = Reported JunctionNameMissing \/
     (o = Raised AttributeError /\ r !! "timeOfDay" = Some VNone)).
Proof.
  intros Hoff. destruct (decide (r !! "timeOfDay" = Some VNone)) as [Hnone|Hsome].
  - exists (Raised AttributeError). split; [| right; right; split; [reflexivity | exact Hnone]].
    unfold offending in Hoff. apply andb_true_iff in Hoff as [Hon _].
    cbn [process_rows]. rewrite (on_date_getitem _ _ Hon), value_eqb_refl. cbn [negb].
    unfold hour_of, getitem. rewrite Hnone. reflexivity.
  - destruct (step_stop target r rest s Hoff) as (o & Ho & _ & Hbox).
    exists o. split; [exact Ho |]. destruct (Hbox Hsome) as [-> | ->]; auto.
Qed.

End SessionFacts.

Module SessionExtras.

Import Histogram MultiCSVProcessor GroupingSpec AnalysisSpec Session.
Import AnalysisFacts AnalyzeFacts GroupingFacts CountFacts HistogramFacts SessionFacts.

(** X12. The session loop treats its datasets one by one: whatever files are
    chosen, it never ends with an exception; what the operator sees is, turn
    after turn up to the first "no", what each dataset alone gives on a new
    processor, then the exit box; it leaves exactly when an answer is "no";
    and it never draws the "No Data" box. *)
Theorem session_is_a_sequence_of_datasets (first_of_set : list value -> value)
    (turns : list (option (list row) * bool)) (p : processor) :
  (handle_user_interaction first_of_set turns p).2 <> Crashed /\
  (handle_user_interaction first_of_set turns p).1.2
  = concat ((fun t => dataset_events first_of_set t.1) <$> played turns)
    ++ match (handle_user_interaction first_of_set turns p).2 with
       | Closed => [ExitInfo]
       | _ => []
       end /\
  ((handle_user_interaction first_of_set turns p).2 = Closed <->
   Exists (fun t => t.2 = false) turns) /\
  Forall (fun ev => ev <> Drawn NoDataBox)
    (handle_user_interaction first_of_set turns p).1.2.
Proof.
  revert p. induction turns as [|[selection response] rest IH]; intros p.
  - cbn. split; [discriminate |]. split; [reflexivity |]. split; [| constructor].
    rewrite Exists_nil. split; [discriminate | tauto].
  - cbn [handle_user_interaction played].
    destruct (dataset_events_turn first_of_set selection p)
      as (p1 & shown & drawn & -> & -> & Hev & Hno).
    destruct response.
    + specialize (IH p1).
      destruct (handle_user_interaction first_of_set rest p1) as [[p2 later] e].
      cbn [fst snd] in *. destruct IH as (Hc & Hl & Hx & Hn).
      split; [exact Hc |]. split; [| split].
      * rewrite fmap_cons. cbn [concat fst]. rewrite Hev, Hl, <- !app_assoc. reflexivity.
      * rewrite Hx, Exists_cons. cbn [snd]. split; [auto | intros [?|?]; [discriminate | auto]].
      * rewrite app_assoc. apply Forall_app. split; assumption.
    + cbn [fst snd]. split; [discriminate |]. split; [| split].
      * cbn. rewrite Hev, app_nil_r, <- app_assoc. reflexivity.
      * rewrite Exists_cons. cbn [snd]. split; auto.
      * rewrite app_assoc. apply Forall_app. split; [exact Hno |].
        repeat constructor. discriminate.
Qed.

(** X13. A file in which some row has no [Date] column is not grouped at
    all: the set of dates raises [KeyError: 'Date'], which the loader shows
    in its "Failed to load file" box; the table stays empty and no histogram
    is drawn, whatever the other rows are. *)
Theorem missing_date_draws_nothing (first_of_set : list value -> value)
    (rows : list row) (p : processor) :
  Exists (fun r => has_key "Date" r = false) rows ->
  dataset_events first_of_set (Some rows)
  = [Shown (FailedToLoadFile (KeyError "Date"))] /\
  (load_csv_file first_of_set (Some rows) (clear_previous_data p)).1
  = {| current_data := Some rows; date := VNone; traffic_summary := ∅ |}.
Proof.
  intros H. pose proof (dates_of_no_date rows H) as Hd.
  unfold dataset_events. change (clear_previous_data p) with init.
  unfold load_csv_file, load_rows. rewrite Hd.
  destruct rows as [|r rows]; [inversion H |]. cbn. split; reflexivity.
Qed.

Lemma missing_date_draws_nothing_witness :
  Exists (fun r => has_key "Date" r = false)
    [sighting "21/06/2024" "08:15:00" "Hanley Highway/Westway";
     {[ "timeOfDay" := VStr "09:00:00" ]}] /\
  dataset_events first_read
    (Some [sighting "21/06/2024" "08:15:00" "Hanley Highway/Westway";
           {[ "timeOfDay" := VStr "09:00:00" ]}])
  = [Shown (FailedToLoadFile (KeyError "Date"))].
Proof.
  assert (H : Exists (fun r => has_key "Date" r = false)
                [sighting "21/06/2024" "08:15:00" "Hanley Highway/Westway";
                 ({[ "timeOfDay" := VStr "09:00:00" ]} : row)]).
  { apply Exists_cons_tl, Exists_cons_hd. reflexivity. }
  split; [exact H |].
  exact (proj1 (missing_date_draws_nothing first_read _ init H)).
Defined.

(** X14. When a row of the target date stops the grouping (no integer hour,
    an empty junction name, or a time of day that is [None]) after rows of
    that date have been counted, the operator sees one error box and then the
    histogram of the rows counted so far: its bars add up to the number of
    target-date rows before the offending one. *)
Theorem error_box_then_partial_histogram (first_of_set : list value -> value)
    (pre post : list row) (bad : row) (dates : list value) :
  dates_of (pre ++ bad :: post) = Ok dates ->
  truthy (first_of_set dates) = true ->
  Forall (fun r => groupable (first_of_set dates) r = true) pre ->
  offending (first_of_set dates) bad = true ->
  0 < count (on_date (first_of_set dates)) pre ->
  exists box hours junctions bars,
    dataset_events first_of_set (Some (pre ++ bad :: post))
    = (if 1 <? len (remove_dups dates) then [Shown MultipleDates] else [])
      ++ [Shown box; Drawn (Chart (first_of_set dates) hours junctions bars)] /\
    (box = InvalidTimeOfDay (get bad "timeOfDay" VNone) \/
     box = JunctionNameMissing \/
     (box = FailedToLoadFile AttributeError /\ bad !! "timeOfDay" = Some VNone)) /\
    Analysis.sum (Histogram.bar_volume <$> bars) = count (on_date (first_of_set dates)) pre.
Proof.
  intros Hd Ht Hg Hoff Hpos. set (target := first_of_set dates) in *.
  destruct (process_rows_groupable target pre ∅ Hg) as (s & Hs & Hcell).
  destruct (step_stop_outcome target bad post s Hoff) as (o & Ho & Hbox).
  destruct (chart_of_volumes s target target pre) as (Hne & hs & js & bs & Hdraw & Hsum & _);
    [| exact Hg | exact Hpos |].
  { intros h j. rewrite Hcell. unfold cell. rewrite lookup_empty. reflexivity. }
  assert (Hrows : pre ++ bad :: post <> []) by (destruct pre; discriminate).
  assert (Hshow : forall cd, show_histogram {| current_data := cd; date := target;
                                               traffic_summary := s |}
                             = Some [Drawn (Chart target hs js bs)]).
  { intros cd. unfold show_histogram. cbn [traffic_summary date].
    rewrite decide_False by exact Hne. rewrite Hdraw. reflexivity. }
  unfold dataset_events, load_csv_file, load_rows. rewrite Hd.
  fold target. change (traffic_summary init) with (∅ : gmap Z (gmap string Z)).
  change {| current_data := Some (pre ++ bad :: post); date := target;
            traffic_summary := ∅ |}
    with (loaded (pre ++ bad :: post) target ∅).
  rewrite (process_data_loaded _ target ∅ Hrows Ht), Hs, Ho. cbn [fst snd].
  destruct (pre ++ bad :: post) as [|r0 rows0] eqn:Erows; [contradiction |].
  unfold loaded.
  destruct Hbox as [-> | [-> | [-> Hnone]]].
  - exists (InvalidTimeOfDay (get bad "timeOfDay" VNone)), hs, js, bs.
    rewrite Hshow. cbn [default]. split; [| split; [auto | exact Hsum]].
    destruct (1 <? len (remove_dups dates)); reflexivity.
  - exists JunctionNameMissing, hs, js, bs.
    rewrite Hshow. cbn [default]. split; [| split; [auto | exact Hsum]].
    destruct (1 <? len (remove_dups dates)); reflexivity.
  - exists (FailedToLoadFile AttributeError), hs, js, bs.
    rewrite Hshow. cbn [default]. split; [| split; [auto | exact Hsum]].
    destruct (1 <? len (remove_dups dates)); reflexivity.
Qed.

Lemma error_box_then_partial_histogram_witness :
  exists box hours junctions bars,
    dataset_events first_read
      (Some ([sighting "21/06/2024" "08:15:00" "Hanley Highway/Westway"]
             ++ sighting "21/06/2024" "late" "Elm Avenue/Rabbit Road"
             :: [sighting "21/06/2024" "09:00:00" "Hanley Highway/Westway"]))
    = [Shown box; Drawn (Chart (VStr "21/06/2024") hours junctions bars)] /\
    box = InvalidTimeOfDay (VStr "late") /\
    Analysis.sum (Histogram.bar_volume <$> bars) = 1.
Proof.
  destruct (error_box_then_partial_histogram first_read
              [sighting "21/06/2024" "08:15:00" "Hanley Highway/Westway"]
              [sighting "21/06/2024" "09:00:00" "Hanley Highway/Westway"]
              (sighting "21/06/2024" "late" "Elm Avenue/Rabbit Road")
              [VStr "21/06/2024"; VStr "21/06/2024"; VStr "21/06/2024"])
    as (box & hours & junctions & bars & Hev & Hbox & Hsum).
  - reflexivity.
  - reflexivity.
  - repeat constructor.
  - reflexivity.
  - reflexivity.
  - exists box, hours, junctions, bars. split; [exact Hev |]. split; [| exact Hsum].
    destruct Hbox as [-> | [-> | [_ Hnone]]]; [reflexivity | |].
    + cbn in Hev. discriminate Hev.
    + vm_compute in Hnone. discriminate Hnone.
Defined.

(** X15. A file whose rows all have a date, and of which no row of the
    target date is offending, is drawn: the target date being one of the
    dates read, the operator sees the warning of several dates if there are
    two different ones, no error box, and the histogram titled with the
    target date whose bars add up to the number of rows of that date, at
    least one. Rows of the other dates are not in it. *)
Theorem clean_dataset_is_drawn (first_of_set : list value -> value)
    (rows : list row) (dates : list value) :
  dates_of rows = Ok dates ->
  first_of_set dates ∈ dates ->
  truthy (first_of_set dates) = true ->
  Forall (fun r => groupable (first_of_set dates) r = true) rows ->
  0 < count (on_date (first_of_set dates)) rows /\
  exists hours junctions bars,
    dataset_events first_of_set (Some rows)
    = (if 1 <? len (remove_dups dates) then [Shown MultipleDates] else [])
      ++ [Drawn (Chart (first_of_set dates) hours junctions bars)] /\
    Analysis.sum (Histogram.bar_volume <$> bars) = count (on_date (first_of_set dates)) rows.
Proof.
  intros Hd Hin Ht Hg. set (target := first_of_set dates) in *.
  destruct (dates_of_Ok rows (groupable_has_date target rows Hg)) as (dates' & Hd' & Hmem).
  assert (dates' = dates) as -> by congruence.
  assert (Hpos : 0 < count (on_date target) rows)
    by (apply count_pos_Exists, Hmem, Hin).
  split; [exact Hpos |].
  destruct (process_rows_groupable target rows ∅ Hg) as (s & Hs & Hcell).
  specialize (Hs []). rewrite app_nil_r in Hs. cbn [process_rows] in Hs.
  destruct (chart_of_volumes s target target rows) as (Hne & hs & js & bs & Hdraw & Hsum & _);
    [| exact Hg | exact Hpos |].
  { intros h j. rewrite Hcell. unfold cell. rewrite lookup_empty. reflexivity. }
  assert (Hrows : rows <> []).
  { intros ->. cbn in Hd. injection Hd as <-. inversion Hin. }
  exists hs, js, bs. split; [| exact Hsum].
  unfold dataset_events, load_csv_file, load_rows. rewrite Hd.
  fold target. change (traffic_summary init) with (∅ : gmap Z (gmap string Z)).
  change {| current_data := Some rows; date := target; traffic_summary := ∅ |}
    with (loaded rows target ∅).
  rewrite (process_data_loaded _ target ∅ Hrows Ht), Hs. cbn [fst snd].
  destruct rows as [|r0 rows0]; [contradiction |].
  unfold loaded, show_histogram. cbn [traffic_summary date].
  rewrite decide_False by exact Hne. rewrite Hdraw. cbn.
  destruct (1 <? len (remove_dups dates)); reflexivity.
Qed.

Lemma clean_dataset_is_drawn_witness :
  0 < count (on_date (VStr "21/06/2024"))
        [sighting "21/06/2024" "08:15:00" "Hanley Highway/Westway";
         sighting "22/06/2024" "09:10:00" "Hanley Highway/Westway";
         sighting "21/06/2024" "8:40:00" "Elm Avenue/Rabbit Road"] /\
  exists hours junctions bars,
    dataset_events first_read
      (Some [sighting "21/06/2024" "08:15:00" "Hanley Highway/Westway";
             sighting "22/06/2024" "09:10:00" "Hanley Highway/Westway";
             sighting "21/06/2024" "8:40:00" "Elm Avenue/Rabbit Road"])
    = [Shown MultipleDates; Drawn (Chart (VStr "21/06/2024") hours junctions bars)] /\
    Analysis.sum (Histogram.bar_volume <$> bars) = 2.
Proof.
  apply (clean_dataset_is_drawn first_read
           [sighting "21/06/2024" "08:15:00" "Hanley Highway/Westway";
            sighting "22/06/2024" "09:10:00" "Hanley Highway/Westway";
            sighting "21/06/2024" "8:40:00" "Elm Avenue/Rabbit Road"]
           [VStr "21/06/2024"; VStr "22/06/2024"; VStr "21/06/2024"]).
  - reflexivity.
  - left.
  - reflexivity.
  - repeat constructor.
Defined.

End SessionExtras.

(** * The prompts and the loop of [main] *)

Module TextFacts.

Import Text MainSpec.

Lemma upper_char_length (c : ascii) : (1 <= length (upper_char c))%nat.
Proof. unfold upper_char. repeat case_match; simpl; lia. Qed.

Lemma upper_length (s : string) : (String.length s <= length (upper s))%nat.
Proof.
  induction s as [|c s IH]; [simpl; lia |].
  cbn [upper String.length]. rewrite length_app.
  pose proof (upper_char_length c). lia.
Qed.

(** A text whose upper case is one character is one character. *)
Lemma upper_single (s : string) (k : Z) :
  upper s = [k] -> exists c, s = String c EmptyString /\ upper_char c = [k].
Proof.
  intros H. pose proof (upper_length s) as Hl. rewrite H in Hl. simpl in Hl.
  destruct s as [|c [|c' s]]; [discriminate H | | simpl in Hl; lia].
  exists c. split; [reflexivity |]. cbn [upper] in H. rewrite app_nil_r in H. exact H.
Qed.

(** Only [y] and [Y] have the upper case [Y], only [n] and [N] the upper
    case [N]. *)
Lemma upper_char_Y (c : ascii) :
  upper_char c = [89] <-> c = "y"%char \/ c = "Y"%char.
Proof.
  destruct c as [[] [] [] [] [] [] [] []]; vm_compute;
    (split; [intros H; first [discriminate H | auto]
            | intros [H | H]; first [discriminate H | reflexivity]]).
Qed.

Lemma upper_char_N (c : ascii) :
  upper_char c = [78] <-> c = "n"%char \/ c = "N"%char.
Proof.
  destruct c as [[] [] [] [] [] [] [] []]; vm_compute;
    (split; [intros H; first [discriminate H | auto]
            | intros [H | H]; first [discriminate H | reflexivity]]).
Qed.

Lemma upper_Y (s : string) : upper s = [89] <-> s = "y" \/ s = "Y".
Proof.
  split.
  - intros H. apply upper_single in H as (c & -> & Hc).
    apply upper_char_Y in Hc as [-> | ->]; auto.
  - intros [-> | ->]; reflexivity.
Qed.

Lemma upper_N (s : string) : upper s = [78] <-> s = "n" \/ s = "N".
Proof.
  split.
  - intros H. apply upper_single in H as (c & -> & Hc).
    apply upper_char_N in Hc as [-> | ->]; auto.
  - intros [-> | ->]; reflexivity.
Qed.

Lemma below_forallb (f : Z -> bool) (lo : Z) (k : nat) (n : Z) :
  forallb f ((fun i => lo + Z.of_nat i) <$> seq 0 k) = true ->
  lo <= n < lo + Z.of_nat k -> f n = true.
Proof.
  intros H Hn. rewrite forallb_forall in H. apply H.
  apply list_elem_of_In, list_elem_of_fmap. exists (Z.to_nat (n - lo)). split; [lia |].
  apply list_elem_of_In, in_seq. lia.
Qed.

Lemma format_02d_two_digits (n : Z) :
  0 <= n <= 99 ->
  exists a b, format_02d n = Ok (String a (String b EmptyString)) /\
              parse_int (String a (String b EmptyString)) = Some n.
Proof.
  intros Hn. assert (H : two_digits_ok n = true).
  { apply (below_forallb two_digits_ok 0 100); [vm_compute; reflexivity | lia]. }
  unfold two_digits_ok in H.
  destruct (format_02d n) as [[|a [|b [|? ?]]]|]; try discriminate H.
  apply bool_decide_eq_true in H. eauto.
Qed.

Lemma str_of_int_four_digits (n : Z) :
  2000 <= n <= 2024 ->
  exists a b c d,
    str_of_int n = Ok (String a (String b (String c (String d EmptyString)))) /\
    parse_int (String a (String b (String c (String d EmptyString)))) = Some n.
Proof.
  intros Hn. assert (H : four_digits_ok n = true).
  { apply (below_forallb four_digits_ok 2000 25); [vm_compute; reflexivity | lia]. }
  unfold four_digits_ok in H.
  destruct (str_of_int n) as [[|a [|b [|c [|d [|? ?]]]]]|]; try discriminate H.
  apply bool_decide_eq_true in H. eauto 6.
Qed.

End TextFacts.

Module MainFacts.

Import Analysis Text Main MainSpec TextFacts.

Lemma asked_cons (prompt : string) (message : string -> string) (typed : string)
    (rejected : list string) :
  asked prompt message (typed :: rejected)
  = Prompt prompt :: Line (message typed) :: asked prompt message rejected.
Proof. reflexivity. Qed.

(** The loop that the three validators share. *)
Lemma validate_int_input_validates (prompt out_of_range : string) (lo hi : Z) :
  validates prompt out_of_range lo hi (validate_int_input prompt out_of_range lo hi).
Proof.
  intros inputs. induction inputs as [|typed rest IH].
  - cbn. split; [constructor | reflexivity].
  - cbn [validate_int_input]. unfold int_of_str.
    assert (Hmsg : forall msg,
              msg = rejection out_of_range typed -> in_range lo hi typed = false ->
              match after [Prompt prompt; Line msg]
                      (validate_int_input prompt out_of_range lo hi rest) with
              | Answer n written rest0 =>
                  exists rejected typed0,
                    typed :: rest = rejected ++ typed0 :: rest0 /\
                    Forall (fun s => in_range lo hi s = false) rejected /\
                    parse_int typed0 = Some n /\ lo <= n <= hi /\
                    written = asked prompt (rejection out_of_range) rejected ++ [Prompt prompt]
              | EndOfInput written =>
                  Forall (fun s => in_range lo hi s = false) (typed :: rest) /\
                  written = asked prompt (rejection out_of_range) (typed :: rest)
                            ++ [Prompt prompt]
              | Uncaught _ _ => False
              end).
    { intros msg -> Hout.
      destruct (validate_int_input prompt out_of_range lo hi rest) as [m w rest'|w|e w];
        cbn [after].
      - destruct IH as (rej & t & -> & Hrej & Ht & Hm & ->).
        exists (typed :: rej), t. split; [reflexivity |].
        split; [constructor; assumption |]. split; [exact Ht |]. split; [exact Hm |].
        rewrite asked_cons. reflexivity.
      - destruct IH as [Hrej ->]. split; [constructor; assumption |].
        rewrite asked_cons. reflexivity.
      - exact IH. }
    destruct (parse_int typed) as [n|] eqn:Hp.
    + destruct ((lo <=? n) && (n <=? hi)) eqn:Hr.
      * exists [], typed. split; [reflexivity |]. split; [constructor |].
        split; [exact Hp |]. split; [lia | reflexivity].
      * apply Hmsg; unfold rejection, in_range; rewrite Hp; [reflexivity | exact Hr].
    + cbn [is_ValueError].
      apply Hmsg; unfold rejection, in_range; rewrite Hp; reflexivity.
Qed.

(** An answer uses up at least the line that gives it. *)
Lemma validates_rest (prompt out_of_range : string) (lo hi : Z)
    (validate : list string -> answer Z) (inputs : list string) (n : Z)
    (w : list output) (rest : list string) :
  validates prompt out_of_range lo hi validate ->
  validate inputs = Answer n w rest ->
  (length rest < length inputs)%nat /\ lo <= n <= hi /\
  Forall (fun o => forall r, o <> Report r) w.
Proof.
  intros H E. specialize (H inputs). rewrite E in H.
  destruct H as (rej & t & -> & _ & _ & Hn & ->).
  split; [rewrite length_app; simpl; lia |]. split; [exact Hn |].
  apply Forall_app. split; [| repeat constructor; discriminate].
  unfold asked. apply Forall_concat, Forall_fmap, Forall_forall. intros s _.
  repeat constructor; discriminate.
Qed.

Lemma yes_or_no_Y (typed : string) :
  upper (strip typed) = [89] -> yes_or_no typed = Some "Y".
Proof.
  intros H. apply upper_Y in H. unfold yes_or_no.
  rewrite bool_decide_eq_true_2 by exact H. reflexivity.
Qed.

Lemma yes_or_no_N (typed : string) :
  upper (strip typed) <> [89] -> upper (strip typed) = [78] ->
  yes_or_no typed = Some "N".
Proof.
  intros HY H. apply upper_N in H. unfold yes_or_no.
  rewrite bool_decide_eq_false_2 by (rewrite <- upper_Y; exact HY).
  rewrite bool_decide_eq_true_2 by exact H. reflexivity.
Qed.

Lemma yes_or_no_None (typed : string) :
  upper (strip typed) <> [89] -> upper (strip typed) <> [78] ->
  yes_or_no typed = None.
Proof.
  intros HY HN. unfold yes_or_no.
  rewrite bool_decide_eq_false_2 by (rewrite <- upper_Y; exact HY).
  rewrite bool_decide_eq_false_2 by (rewrite <- upper_N; exact HN). reflexivity.
Qed.

Lemma validate_continue_input_spec (inputs : list string) :
  match validate_continue_input inputs with
  | Answer c written rest =>
      exists rejected typed,
        inputs = rejected ++ typed :: rest /\
        Forall (fun s => yes_or_no s = None) rejected /\
        yes_or_no typed = Some c /\ (c = "Y" \/ c = "N") /\
        written = asked continue_prompt (fun _ => "Invalid input. Please enter 'Y' or 'N'.") rejected ++ [Prompt continue_prompt]
  | EndOfInput written =>
      Forall (fun s => yes_or_no s = None) inputs /\
      written = asked continue_prompt (fun _ => "Invalid input. Please enter 'Y' or 'N'.") inputs ++ [Prompt continue_prompt]
  | Uncaught _ _ => False
  end.
Proof.
  induction inputs as [|typed rest IH].
  - cbn. split; [constructor | reflexivity].
  - cbn [validate_continue_input]. cbv zeta.
    destruct (decide (upper (strip typed) = [89])) as [HY|HY].
    { exists [], typed. split; [reflexivity |]. split; [constructor |].
      split; [apply yes_or_no_Y, HY |]. split; [auto | reflexivity]. }
    destruct (decide (upper (strip typed) = [78])) as [HN|HN].
    { exists [], typed. split; [reflexivity |]. split; [constructor |].
      split; [apply yes_or_no_N; assumption |]. split; [auto | reflexivity]. }
    pose proof (yes_or_no_None typed HY HN) as Hno.
    destruct (validate_continue_input rest) as [c w rest'|w|e w]; cbn [after].
    + destruct IH as (rej & t & -> & Hrej & Ht & Hc & ->).
      exists (typed :: rej), t. split; [reflexivity |].
      split; [constructor; assumption |]. split; [exact Ht |]. split; [exact Hc |].
      rewrite asked_cons. reflexivity.
    + destruct IH as [Hrej ->]. split; [constructor; assumption |].
      rewrite asked_cons. reflexivity.
    + exact IH.
Qed.

(** The name of the file of a valid date. *)
Lemma date_input_valid (day month year : Z) :
  valid_date day month year ->
  exists d1 d2 m1 m2 y1 y2 y3 y4,
    date_input day month year
    = Ok ("traffic_data" ++ String d1 (String d2 EmptyString)
          ++ String m1 (String m2 EmptyString)
          ++ String y1 (String y2 (String y3 (String y4 EmptyString))) ++ ".csv")%string /\
    parse_int (String d1 (String d2 EmptyString)) = Some day /\
    parse_int (String m1 (String m2 EmptyString)) = Some month /\
    parse_int (String y1 (String y2 (String y3 (String y4 EmptyString)))) = Some year.
Proof.
  intros (Hd & Hm & Hy).
  destruct (format_02d_two_digits day) as (d1 & d2 & Ed & Pd); [lia |].
  destruct (format_02d_two_digits month) as (m1 & m2 & Em & Pm); [lia |].
  destruct (str_of_int_four_digits year) as (y1 & y2 & y3 & y4 & Ey & Py); [lia |].
  exists d1, d2, m1, m2, y1, y2, y3, y4. unfold date_input. rewrite Ed, Em, Ey.
  split; [reflexivity |]. auto.
Qed.

(** The prompts of a validator display no result, and end with a prompt. *)
Lemma asked_displayed (prompt : string) (message : string -> string)
    (rejected : list string) :
  displayed (asked prompt message rejected ++ [Prompt prompt]) = [] /\
  last (asked prompt message rejected ++ [Prompt prompt]) = Some (Prompt prompt).
Proof.
  split; [| apply last_snoc].
  induction rejected as [|typed rejected IH]; [reflexivity |].
  rewrite asked_cons. exact IH.
Qed.

Lemma int_answer (prompt out_of_range : string) (lo hi : Z) (inputs : list string) :
  match validate_int_input prompt out_of_range lo hi inputs with
  | Answer n w rest =>
      (length rest < length inputs)%nat /\ lo <= n <= hi /\
      displayed w = [] /\ last w = Some (Prompt prompt)
  | EndOfInput w => displayed w = [] /\ last w = Some (Prompt prompt)
  | Uncaught _ _ => False
  end.
Proof.
  pose proof (validate_int_input_validates prompt out_of_range lo hi inputs) as H.
  destruct (validate_int_input prompt out_of_range lo hi inputs) as [n w rest|w|e w].
  - destruct H as (rej & t & -> & _ & _ & Hn & ->).
    split; [rewrite length_app; simpl; lia |]. split; [exact Hn |].
    apply asked_displayed.
  - destruct H as [_ ->]. apply asked_displayed.
  - exact H.
Qed.

Lemma continue_answer (inputs : list string) :
  match validate_continue_input inputs with
  | Answer c w rest =>
      (length rest < length inputs)%nat /\ (c = "Y" \/ c = "N") /\
      displayed w = [] /\ last w = Some (Prompt continue_prompt)
  | EndOfInput w => displayed w = [] /\ last w = Some (Prompt continue_prompt)
  | Uncaught _ _ => False
  end.
Proof.
  pose proof (validate_continue_input_spec inputs) as H.
  destruct (validate_continue_input inputs) as [c w rest|w|e w].
  - destruct H as (rej & t & -> & _ & _ & Hc & ->).
    split; [rewrite length_app; simpl; lia |]. split; [exact Hc |].
    apply asked_displayed.
  - destruct H as [_ ->]. apply asked_displayed.
  - exact H.
Qed.

Lemma displayed_app (w1 w2 : list output) :
  displayed (w1 ++ w2) = displayed w1 ++ displayed w2.
Proof. apply omap_app. Qed.

Lemma last_app_Some {A : Type} (l k : list A) (x : A) :
  last k = Some x -> last (l ++ k) = Some x.
Proof. intros H. rewrite last_app, H. reflexivity. Qed.

Lemma displayed_report (text : string) (rep : report) :
  displayed [Line text; Report rep]
  = match rep with
    | Displayed r | Unsaved r _ => [r]
    | _ => []
    end.
Proof. destruct rep; reflexivity. Qed.

(** What a turn displays comes from the file of the date asked for. *)
Lemma main_pass_analysed (fs : files) (day month year : Z) (name : string) :
  valid_date day month year -> date_input day month year = Ok name ->
  Forall (analysed_from fs)
    (displayed [Line ("Valid date input: " ++ name)%string; Report (main_pass fs name)]).
Proof.
  intros Hv Hn. rewrite displayed_report.
  unfold main_pass, process_csv_data.
  destruct (contents fs name) as [|e|data] eqn:Hf; cbn [bind handle is_FileNotFoundError];
    [constructor | unfold handle; destruct (is_FileNotFoundError e); constructor |].
  destruct (analyze_data data name) as [r|e] eqn:Ha.
  - assert (Hr : analysed_from fs r) by (exists day, month, year, name, data; auto).
    destruct (let* _ := print_results r in save_results_to_file fs r);
      repeat constructor; exact Hr.
  - unfold handle. destruct (is_FileNotFoundError e); constructor.
Qed.

Lemma main_turn_spec (fs : files) (inputs : list string) :
  Forall (analysed_from fs) (displayed (main_turn fs inputs).1) /\
  match (main_turn fs inputs).2 with
  | inl rest => (length rest < length inputs)%nat
  | inr e => stops (main_turn fs inputs).1 e
  end.
Proof.
  unfold main_turn, validate_day_input, validate_month_input, validate_year_input.
  pose proof (int_answer "Please enter the day of the survey in the format dd: "
                "Out of range - values must be in the range 1 and 31." 1 31 inputs) as H1.
  destruct (validate_int_input _ _ 1 31 inputs) as [day w1 rest1|w|e w];
    [| destruct H1 as [Hd Hl]; cbn [fst snd]; rewrite Hd; split; [constructor |];
       right; eauto | contradiction].
  destruct H1 as (L1 & Hday & D1 & _).
  pose proof (int_answer "Please enter the month of the survey in the format MM: "
                "Out of range - values must be in the range 1 to 12." 1 12 rest1) as H2.
  destruct (validate_int_input _ _ 1 12 rest1) as [month w2 rest2|w|e w];
    [| destruct H2 as [Hd Hl]; cbn [fst snd]; rewrite displayed_app, D1, Hd;
       split; [constructor |]; right; split; [reflexivity |];
       eexists; apply last_app_Some, Hl | contradiction].
  destruct H2 as (L2 & Hmonth & D2 & _).
  pose proof (int_answer "Please enter the year of the survey in the format YYYY: "
                "Out of range - values must range from 2000 and 2024." 2000 2024 rest2)
    as H3.
  destruct (validate_int_input _ _ 2000 2024 rest2) as [year w3 rest3|w|e w];
    [| destruct H3 as [Hd Hl]; cbn [fst snd]; rewrite !displayed_app, D1, D2, Hd;
       split; [constructor |]; right; split; [reflexivity |];
       eexists; do 2 apply last_app_Some; exact Hl | contradiction].
  destruct H3 as (L3 & Hyear & D3 & _).
  assert (Hv : valid_date day month year) by (unfold valid_date; auto).
  destruct (date_input_valid day month year Hv)
    as (d1 & d2 & m1 & m2 & y1 & y2 & y3 & y4 & E & _).
  rewrite E. set (name := ("traffic_data" ++ _)%string) in *.
  pose proof (main_pass_analysed fs day month year name Hv E) as D4.
  pose proof (continue_answer rest3) as H5.
  destruct (validate_continue_input rest3) as [c w5 rest4|w|e w]; [| | contradiction].
  - destruct H5 as (L5 & Hc & D5 & Hl5).
    destruct (String.eqb c "N"); cbn [fst snd].
    + split; [rewrite !displayed_app, !Forall_app, D1, D2, D3, D5;
              repeat split; try constructor; exact D4 |].
      left. split; [reflexivity |]. do 5 apply last_app_Some. reflexivity.
    + split; [rewrite !displayed_app, !Forall_app, D1, D2, D3, D5;
              repeat split; try constructor; exact D4 | lia].
  - destruct H5 as [D5 Hl5]. cbn [fst snd].
    split; [rewrite !displayed_app, !Forall_app, D1, D2, D3, D5;
            repeat split; try constructor; exact D4 |].
    right. split; [reflexivity |]. eexists. do 4 apply last_app_Some. exact Hl5.
Qed.

(** With more turns allowed than lines typed, the loop stops by itself. *)
Lemma main_loop_spec (turns : nat) (fs : files) (inputs : list string) :
  (length inputs < turns)%nat ->
  Forall (analysed_from fs) (displayed (main_loop turns fs inputs).1) /\
  stops (main_loop turns fs inputs).1 (main_loop turns fs inputs).2.
Proof.
  revert inputs. induction turns as [|turns IH]; intros inputs Hlen; [lia |].
  cbn [main_loop]. pose proof (main_turn_spec fs inputs) as [Hd Hr].
  destruct (main_turn fs inputs) as [w [rest|e]]; cbn [fst snd] in *.
  - specialize (IH rest ltac:(lia)).
    destruct (main_loop turns fs rest) as [later e]. cbn [fst snd] in *.
    destruct IH as [Hd' Hs]. split.
    + rewrite displayed_app. apply Forall_app. split; assumption.
    + destruct Hs as [[-> Hl] | [-> [p Hl]]]; [left | right]; split; try reflexivity.
      * apply last_app_Some, Hl.
      * exists p. apply last_app_Some, Hl.
  - split; assumption.
Qed.

End MainFacts.

Module MainExtras.

Import Analysis Text Main MainSpec TextFacts MainFacts.

(** X16. Each of [validate_day_input], [validate_month_input] and
    [validate_year_input] returns the number of the first line typed that
    [int] reads as an integer of its range (1 to 31, 1 to 12, 2000 to 2024),
    after one prompt per line read and, for each line before, one message:
    "Integer required" when [int] raises, the range message otherwise. When
    no line is acceptable it ends with the [EOFError] of [input]; no other
    exception leaves it. *)
Theorem validators_return_first_in_range :
  validates "Please enter the day of the survey in the format dd: "
    "Out of range - values must be in the range 1 and 31." 1 31
    validate_day_input /\
  validates "Please enter the month of the survey in the format MM: "
    "Out of range - values must be in the range 1 to 12." 1 12
    validate_month_input /\
  validates "Please enter the year of the survey in the format YYYY: "
    "Out of range - values must range from 2000 and 2024." 2000 2024
    validate_year_input.
Proof. repeat split; apply validate_int_input_validates. Qed.

(** X17. [validate_continue_input] returns ["Y"] or ["N"] only: the answer of
    the first line typed that, without the spaces around it, is one of the
    letters y, Y (answer ["Y"]) or n, N (answer ["N"]); every line before it
    is answered with the "Invalid input" message. Without such a line it ends
    with the [EOFError] of [input]. *)
Theorem continue_answer_is_yes_or_no (inputs : list string) :
  match validate_continue_input inputs with
  | Answer c written rest =>
      exists rejected typed,
        inputs = rejected ++ typed :: rest /\
        Forall (fun s => yes_or_no s = None) rejected /\
        yes_or_no typed = Some c /\ (c = "Y" \/ c = "N") /\
        written
        = asked continue_prompt (fun _ => "Invalid input. Please enter 'Y' or 'N'.")
            rejected
          ++ [Prompt continue_prompt]
  | EndOfInput written =>
      Forall (fun s => yes_or_no s = None) inputs /\
      written
      = asked continue_prompt (fun _ => "Invalid input. Please enter 'Y' or 'N'.")
          inputs
        ++ [Prompt continue_prompt]
  | Uncaught _ _ => False
  end.
Proof. exact (validate_continue_input_spec inputs). Qed.

(** X18. For a day, month and year that the validators can return, the file
    name is built without exception: "traffic_data", two digits that [int]
    reads back as the day, two that it reads back as the month, four that it
    reads back as the year, and ".csv", 24 characters in all; so two
    different valid dates never name the same file. *)
Theorem date_input_names_the_date (day month year : Z) :
  valid_date day month year ->
  (exists dd mm yyyy,
     date_input day month year = Ok ("traffic_data" ++ dd ++ mm ++ yyyy ++ ".csv")%string /\
     String.length dd = 2%nat /\ String.length mm = 2%nat /\
     String.length yyyy = 4%nat /\
     int_of_str dd = Ok day /\ int_of_str mm = Ok month /\ int_of_str yyyy = Ok year /\
     String.length ("traffic_data" ++ dd ++ mm ++ yyyy ++ ".csv")%string = 24%nat) /\
  (forall day' month' year',
     valid_date day' month' year' ->
     date_input day' month' year' = date_input day month year ->
     day' = day /\ month' = month /\ year' = year).
Proof.
  intros Hv.
  destruct (date_input_valid day month year Hv)
    as (d1 & d2 & m1 & m2 & y1 & y2 & y3 & y4 & E & Pd & Pm & Py).
  split.
  - exists (String d1 (String d2 EmptyString)), (String m1 (String m2 EmptyString)),
      (String y1 (String y2 (String y3 (String y4 EmptyString)))).
    unfold int_of_str. rewrite Pd, Pm, Py. repeat split; try reflexivity. exact E.
  - intros day' month' year' Hv' Heq.
    destruct (date_input_valid day' month' year' Hv')
      as (d1' & d2' & m1' & m2' & y1' & y2' & y3' & y4' & E' & Pd' & Pm' & Py').
    rewrite E, E' in Heq. cbn in Heq.
    injection Heq as -> -> -> -> -> -> -> ->.
    rewrite Pd in Pd'. rewrite Pm in Pm'. rewrite Py in Py'.
    injection Pd' as ->. injection Pm' as ->. injection Py' as ->. auto.
Qed.

Lemma date_input_names_the_date_witness :
  valid_date 1 12 2024 /\
  date_input 1 12 2024 = Ok "traffic_data01122024.csv" /\
  (forall day' month' year',
     valid_date day' month' year' ->
     date_input day' month' year' = date_input 1 12 2024 ->
     day' = 1 /\ month' = 12 /\ year' = 2024).
Proof.
  assert (Hv : valid_date 1 12 2024) by (unfold valid_date; lia).
  split; [exact Hv |]. split; [reflexivity |].
  exact (proj2 (date_input_names_the_date 1 12 2024 Hv)).
Defined.

(** X19. Whatever is typed and whatever the files hold, [main] ends in one of
    two ways only: after an answer "N", its last line being "Exiting the
    program.", or with the [EOFError] of [input] at the end of the input, on
    a prompt. No other exception leaves the loop: a file that is missing,
    cannot be read or cannot be analysed, and results that cannot be saved,
    are reported and the loop goes on. Every result it prints is what
    [analyze_data] returns for the rows of an existing file named by a valid
    date. *)
Theorem main_ends_on_no_or_end_of_input (fs : files) (inputs : list string) :
  (((main fs inputs).2 = Exited /\
    last (main fs inputs).1 = Some (Line "Exiting the program.")) \/
   ((main fs inputs).2 = InputEnded /\
    exists p, last (main fs inputs).1 = Some (Prompt p))) /\
  Forall (analysed_from fs) (displayed (main fs inputs).1).
Proof.
  unfold main.
  destruct (main_loop_spec (S (length inputs)) fs inputs) as [Hd Hs]; [lia |].
  split; [exact Hs | exact Hd].
Qed.

End MainExtras.

(** * The order of the rows *)

Module OrderFacts.

Import PyFacts Analysis AnalysisSpec AnalysisFacts CounterFacts AnalyzeFacts PeakFacts
  CountFacts OrderSpec.

Lemma count_Permutation (p : row -> bool) (data data' : list row) :
  data ≡ₚ data' -> count p data = count p data'.
Proof.
  induction 1 as [|x l k _ IH|x y l|l k m _ IH1 _ IH2];
    rewrite ?count_cons; lia.
Qed.

Lemma len_Permutation {A : Type} (l k : list A) : l ≡ₚ k -> len l = len k.
Proof. intros H. unfold len. rewrite (Permutation_length H). reflexivity. Qed.

Lemma buckets_Permutation (b : row -> option string) (data data' : list row) :
  data ≡ₚ data' -> buckets b data ≡ₚ buckets b data'.
Proof.
  intros H. unfold buckets. apply NoDup_Permutation; try apply NoDup_remove_dups.
  intros h. rewrite !elem_of_remove_dups, !list_elem_of_omap.
  split; intros (r & Hr & Hb); exists r; (split; [| exact Hb]);
    [rewrite <- H | rewrite H]; exact Hr.
Qed.

Lemma per_hour_average_Permutation (data data' : list row) :
  data ≡ₚ data' -> per_hour_average data = per_hour_average data'.
Proof.
  intros H. unfold per_hour_average.
  pose proof (buckets_Permutation bicycle_hour data data' H) as Hb.
  assert (Hsum : sum (map (fun h => bucket_count bicycle_hour h data)
                        (buckets bicycle_hour data))
                 = sum (map (fun h => bucket_count bicycle_hour h data')
                          (buckets bicycle_hour data'))).
  { rewrite (sum_Permutation _ _ (Permutation_map _ Hb)). f_equal.
    apply map_ext. intros h. apply count_Permutation, H. }
  pose proof (len_Permutation _ _ Hb) as Hlen.
  destruct (buckets bicycle_hour data) as [|h hs] eqn:E,
           (buckets bicycle_hour data') as [|h' hs'] eqn:E'.
  - reflexivity.
  - apply Permutation_nil_l in Hb. discriminate.
  - apply Permutation_nil_r in Hb. discriminate.
  - rewrite Hsum, Hlen. reflexivity.
Qed.

(** The peak hours of two orders of the rows are the same hours. *)
Lemma peak_hours_Permutation (data data' : list row) (hs hs' : list string) :
  data ≡ₚ data' ->
  peak_hours (fill hanley_hour data []) = Ok hs ->
  peak_hours (fill hanley_hour data' []) = Ok hs' ->
  hs' ≡ₚ hs.
Proof.
  intros H E E'.
  apply peak_hours_spec in E as [Hin Hnd]; [| apply counter_ok_fill, counter_ok_nil].
  apply peak_hours_spec in E' as [Hin' Hnd']; [| apply counter_ok_fill, counter_ok_nil].
  apply NoDup_Permutation; [exact Hnd' | exact Hnd |].
  intros h. rewrite Hin, Hin'.
  assert (Hl : forall k, lookup k (fill hanley_hour data' [])
                         = lookup k (fill hanley_hour data [])).
  { intros k. rewrite !lookup_fill. f_equal. symmetry. apply count_Permutation, H. }
  split; intros [Hpos Hmax]; (split; [rewrite ?Hl in *; exact Hpos |]); intros k;
    specialize (Hmax k); rewrite ?Hl in *; exact Hmax.
Qed.

(** On complete rows, [analyze_data] is the record of the counts, with the
    four expressions that may raise. *)
Lemma analyze_data_complete (data : list row) (filename : string) :
  Forall (fun r => complete r = true) data ->
  analyze_data data filename
  = (let* sp := percentage (count elm_scooter data)
                  (count (field_eq "JunctionName" "Elm Avenue/Rabbit Road") data) in
     let* avg := per_hour_average data in
     let* peaks := peak_hours (fill hanley_hour data []) in
     let* tp := percentage (count (field_eq "VehicleType" "Truck") data) (len data) in
     Ok {| csv_file_name := filename;
           total_vehicles := len data;
           total_trucks := count (field_eq "VehicleType" "Truck") data;
           total_electric_vehicles := count (field_eq "elctricHybrid" "True") data;
           total_two_wheeled_vehicles := count two_wheeled data;
           total_elm_buses_north := count elm_bus_north data;
           total_no_turns := count no_turn data;
           over_speeding := count speeding data;
           truck_percentage := tp;
           avg_bicycles := avg;
           over_speeding_vehicles := count speeding data;
           elm_avenue_rabbit_road_vehicles :=
             count (field_eq "JunctionName" "Elm Avenue/Rabbit Road") data;
           hanley_highway_westway_vehicles :=
             count (field_eq "JunctionName" "Hanley Highway/Westway") data;
           scooter_percentage_elm_avenue := sp;
           peak_hours_hanley := peaks;
           total_rain_hours :=
             count (fun r => value_eqb (get r "timeOfDay" VNone) (VStr "True")) data |}).
Proof.
  intros Hc.
  unfold analyze_data, trucks, electric_vehicles, two_wheeled_vehicles,
    elm_buses_north, no_turns, over_speed, elm_avenue_vehicles,
    hanley_highway_vehicles, elm_scooters, bicycle_data, hanley_peak_hour.
  rewrite !(sum_ones_complete (field_is _ _) (field_eq _ _) data)
    by (try exact Hc; intros r Hr; apply field_is_categories; simpl; tauto).
  rewrite (sum_ones_complete _ _ data is_two_wheeled_total Hc),
    (sum_ones_complete _ _ data is_elm_bus_north_total Hc),
    (sum_ones_complete _ _ data is_no_turn_total Hc),
    (sum_ones_complete _ _ data is_elm_scooter_total Hc).
  rewrite (sum_ones_total is_over_speed speeding), Z.add_0_l.
  2:{ eapply Forall_impl; [exact Hc |]. intros r Hr. apply is_over_speed_numeric.
      unfold complete in Hr. apply andb_true_iff in Hr. tauto. }
  cbn [bind].
  destruct (percentage (count elm_scooter data) _) as [sp|e]; cbn [bind]; [| reflexivity].
  rewrite (select_total _ (field_eq "VehicleType" "Bicycle")).
  2:{ eapply Forall_impl; [exact Hc |]. intros r Hr.
      apply field_is_categories; [simpl; tauto | apply complete_categories, Hr]. }
  cbn [bind]. rewrite bicycle_count_per_hour_fill, avg_bicycles_per_hour_spec.
  destruct (per_hour_average data) as [avg|e]; cbn [bind]; [| reflexivity].
  rewrite hanley_loop_total.
  2:{ eapply Forall_impl; [exact Hc |]. intros r Hr.
      apply complete_categories, has_categories_keys in Hr. tauto. }
  reflexivity.
Qed.

End OrderFacts.

Module OrderExtras.

Import PyFacts Analysis AnalysisSpec AnalysisFacts CounterFacts AnalyzeFacts PeakFacts
  CountFacts OrderSpec OrderFacts.

(** X21. The results of [analyze_data] do not depend on the order of the
    rows: on any reordering of a sequence for which it returns, it returns
    the same record, but for the peak hours, which are the same hours listed
    in a possibly different order. *)
Theorem results_do_not_depend_on_row_order (data data' : list row)
    (filename : string) (r : results) :
  data ≡ₚ data' ->
  analyze_data data filename = Ok r ->
  exists hs,
    analyze_data data' filename = Ok (with_peak_hours hs r) /\
    hs ≡ₚ peak_hours_hanley r.
Proof.
  intros Hp H.
  pose proof (AnalysisExtras.analyze_data_Ok_complete data filename r H) as Hc.
  assert (Hc' : Forall (fun r => complete r = true) data') by (rewrite <- Hp; exact Hc).
  rewrite (analyze_data_complete data filename Hc) in H.
  rewrite (analyze_data_complete data' filename Hc').
  rewrite <- !(count_Permutation _ data data' Hp), <- (len_Permutation data data' Hp),
    <- (per_hour_average_Permutation data data' Hp).
  destruct (percentage (count elm_scooter data) _) as [sp|e]; [| discriminate H].
  destruct (per_hour_average data) as [avg|e]; [| discriminate H].
  destruct (peak_hours (fill hanley_hour data [])) as [hs|e] eqn:Ehs; [| discriminate H].
  destruct (peak_hours_total (fill hanley_hour data' [])) as (hs' & Ehs').
  rewrite Ehs'. cbn [bind] in *.
  destruct (percentage (count (field_eq "VehicleType" "Truck") data) (len data))
    as [tp|e]; [| discriminate H].
  cbn [bind] in *. injection H as <-. exists hs'. split; [reflexivity |].
  exact (peak_hours_Permutation data data' hs hs' Hp Ehs Ehs').
Qed.

Lemma results_do_not_depend_on_row_order_witness :
  scenario ≡ₚ rev scenario /\
  analyze_data scenario "traffic_data21062024.csv" = Ok scenario_results /\
  exists hs,
    analyze_data (rev scenario) "traffic_data21062024.csv"
    = Ok (with_peak_hours hs scenario_results) /\
    hs ≡ₚ ["08"].
Proof.
  assert (Hp : scenario ≡ₚ rev scenario) by (symmetry; apply Permutation_rev).
  assert (H : analyze_data scenario "traffic_data21062024.csv" = Ok scenario_results)
    by (vm_compute; reflexivity).
  split; [exact Hp |]. split; [exact H |].
  exact (results_do_not_depend_on_row_order scenario (rev scenario)
           "traffic_data21062024.csv" scenario_results Hp H).
Defined.

End OrderExtras.

Module TableOrderFacts.

Import AnalysisSpec MultiCSVProcessor GroupingSpec GroupingFacts TableSpec.

(** Two tables of the shape that the loop keeps are equal when their cells
    are. *)
Lemma table_ext (s1 s2 : gmap Z (gmap string Z)) :
  table_ok s1 -> table_ok s2 ->
  (forall h j, cell s1 h j = cell s2 h j) -> s1 = s2.
Proof.
  intros H1 H2 Hcell.
  assert (Hnone : forall (a b : gmap Z (gmap string Z)) h m,
            table_ok a -> (forall j, cell a h j = cell b h j) ->
            a !! h = Some m -> b !! h = None -> False).
  { intros a b h m Ha Hc Em En. destruct (Ha h m Em) as [Hne _].
    apply map_choose in Hne as (j & c & Hj). specialize (Hc j).
    unfold cell in Hc. rewrite Em, En in Hc. simpl in Hc. congruence. }
  apply map_eq. intros h.
  destruct (s1 !! h) as [m1|] eqn:E1, (s2 !! h) as [m2|] eqn:E2.
  - f_equal. apply map_eq. intros j. specialize (Hcell h j).
    unfold cell in Hcell. rewrite E1, E2 in Hcell. exact Hcell.
  - exfalso. exact (Hnone s1 s2 h m1 H1 (Hcell h) E1 E2).
  - exfalso. apply (Hnone s2 s1 h m2 H2); [| exact E2 | exact E1].
    intros j. symmetry. apply Hcell.
  - reflexivity.
Qed.

End TableOrderFacts.

Module TableOrderExtras.

Import AnalysisSpec MultiCSVProcessor GroupingSpec GroupingFacts TableSpec
  OrderFacts TableOrderFacts.

(** X22. The hourly table does not depend on the order of the rows either:
    when no row of the target date is offending, grouping any reordering of
    the rows returns normally with the same table, hence the same
    histogram. (With an offending row the order matters: the table holds the
    rows before it.) *)
Theorem table_does_not_depend_on_row_order (rows rows' : list row) (target : value)
    (prior prior' : gmap Z (gmap string Z)) :
  rows ≡ₚ rows' -> rows <> [] -> truthy target = true ->
  Forall (fun r => groupable target r = true) rows ->
  (process_data (loaded rows' target prior')).2 = Returned /\
  traffic_summary (process_data (loaded rows' target prior')).1
  = traffic_summary (process_data (loaded rows target prior)).1.
Proof.
  intros Hp Hne Ht Hg.
  assert (Hne' : rows' <> []).
  { intros ->. apply Permutation_nil_r in Hp. contradiction. }
  assert (Hg' : Forall (fun r => groupable target r = true) rows')
    by (rewrite <- Hp; exact Hg).
  rewrite (process_data_loaded rows target prior Hne Ht),
    (process_data_loaded rows' target prior' Hne' Ht).
  cbn [fst snd loaded traffic_summary].
  pose proof (GroupingExtras.table_ok_process_rows target rows ∅
                GroupingExtras.table_ok_empty) as Hok.
  pose proof (GroupingExtras.table_ok_process_rows target rows' ∅
                GroupingExtras.table_ok_empty) as Hok'.
  destruct (process_rows_groupable target rows ∅ Hg) as (s & Hs & Hcell).
  destruct (process_rows_groupable target rows' ∅ Hg') as (s' & Hs' & Hcell').
  specialize (Hs []). specialize (Hs' []). rewrite app_nil_r in Hs, Hs'.
  cbn [process_rows] in Hs, Hs'. rewrite Hs in *. rewrite Hs' in *.
  cbn [fst snd] in *. split; [reflexivity |].
  apply table_ext; [exact Hok' | exact Hok |].
  intros h j. rewrite Hcell, Hcell'. f_equal. symmetry.
  apply count_Permutation, Hp.
Qed.

Lemma table_does_not_depend_on_row_order_witness :
  [sighting "21/06/2024" "08:15:00" "Hanley Highway/Westway";
   sighting "21/06/2024" "09:05:30" "Elm Avenue/Rabbit Road";
   sighting "21/06/2024" "8:40:00" "Hanley Highway/Westway"]
  ≡ₚ [sighting "21/06/2024" "09:05:30" "Elm Avenue/Rabbit Road";
      sighting "21/06/2024" "08:15:00" "Hanley Highway/Westway";
      sighting "21/06/2024" "8:40:00" "Hanley Highway/Westway"] /\
  traffic_summary
    (process_data
       (loaded [sighting "21/06/2024" "09:05:30" "Elm Avenue/Rabbit Road";
                sighting "21/06/2024" "08:15:00" "Hanley Highway/Westway";
                sighting "21/06/2024" "8:40:00" "Hanley Highway/Westway"]
          (VStr "21/06/2024") ∅)).1
  = traffic_summary
      (process_data
         (loaded [sighting "21/06/2024" "08:15:00" "Hanley Highway/Westway";
                  sighting "21/06/2024" "09:05:30" "Elm Avenue/Rabbit Road";
                  sighting "21/06/2024" "8:40:00" "Hanley Highway/Westway"]
            (VStr "21/06/2024") ∅)).1.
Proof.
  assert (Hp : [sighting "21/06/2024" "08:15:00" "Hanley Highway/Westway";
                sighting "21/06/2024" "09:05:30" "Elm Avenue/Rabbit Road";
                sighting "21/06/2024" "8:40:00" "Hanley Highway/Westway"]
               ≡ₚ [sighting "21/06/2024" "09:05:30" "Elm Avenue/Rabbit Road";
                   sighting "21/06/2024" "08:15:00" "Hanley Highway/Westway";
                   sighting "21/06/2024" "8:40:00" "Hanley Highway/Westway"])
    by apply perm_swap.
  split; [exact Hp |].
  refine (proj2 (table_does_not_depend_on_row_order _ _ (VStr "21/06/2024") ∅ ∅
                   Hp _ _ _)).
  - discriminate.
  - reflexivity.
  - repeat constructor.
Defined.

End TableOrderExtras.
